(* ===== verification/_CoqProject ===== *)
-Q . S2P
Prelude.v
PyRuntime.v
Namespace.v
Utf8.v
Words.v
Sha256.v
Hmac.v
Pbkdf2.v
Base64.v
PasswordHash.v
Session.v
Contract.v
Main.v
Process.v
