(* ===== verification/Prelude.v ===== *)
(** * A verification development of [generate_password_hash.py]

    The program under study is the single Python script
    [src/laravel-workos-starterKit/generate_password_hash.py]. It has
    three functions and an entry point:

    - [generate_pbkdf2_hash(password, salt=None, iterations=600000)]
      (lines 12-52): encodes a [str] password as UTF-8, draws a 32-byte
      salt from [os.urandom] when none is given, runs PBKDF2-HMAC-SHA256
      with a 32-byte output through the [cryptography] package, and
      returns a dict of the base64 hash, the base64 salt, the iteration
      count and the fixed algorithm name;
    - [verify_pbkdf2_hash(password, stored_hash, stored_salt,
      iterations=600000)] (lines 54-92): inside a [try], encodes the
      password, base64-decodes salt and hash, re-derives the key and
      compares it with [hashlib.compare_digest]; every exception is
      caught, printed, and turned into [False];
    - [main()] (lines 94-127), run by lines 129-130: reads a password,
      hashes it, prints the record, and verifies it with the right and a
      wrong password.

    The two functions call library code: SHA-256 (FIPS 180-4), HMAC
    (RFC 2104), PBKDF2 (RFC 8018) as OpenSSL computes it for
    [cryptography]'s [PBKDF2HMAC], [base64]/[binascii] and
    [str.encode('utf-8')] from CPython, [compare_digest] (CPython's
    [_tscmp]), [os.urandom], and the attribute tables of the [hashlib]
    and [hmac] modules of CPython 3.11. This code is not under [src/]; it
    is modelled from the standards and from CPython's and OpenSSL's
    algorithms, and only as far as the script uses it.

    ** Layout: one file per component

    - [Prelude] (this file): the notation scope [pw_scope] (xor [a ⊕ b]),
      the hint databases [pw] and [pw_rw], the tactics [byte_facts] and
      [pow_consts], byte lists, their xor, and bounds of bit operations
      on [Z].
    - [PyRuntime]: Python exceptions ([exc]), the result monad [result]
      with [x <- c ;; k] and [try_except], Python values ([pyval]),
      [compare_digest] as CPython's [_tscmp] loop, [str(int)], the
      [str()] of the exceptions the script prints, and [getattr] on the
      [hashlib] and [hmac] modules.
    - [Namespace]: the top level of the file (the imports of lines 6-10
      and the [def]s) executed on an explicit global namespace, the
      import system's search of dotted names, and [LOAD_GLOBAL] /
      [LOAD_ATTR] name resolution (module globals, then [builtins],
      else [NameError]) under an installation [cpython311].
    - [Utf8]: [str.encode('utf-8')] and strict [bytes.decode('utf-8')],
      with the shifts and masks of CPython's codec read back as
      arithmetic (the rewrite database [utf8_shift], the tactics [zcmp]
      and [zlia]).
    - [Words]: 32-bit words on [Z] with the wrap-around written out
      ([add32], [rotr32], [shr32], [not32]) and big-endian conversion.
    - [Sha256]: padding, message schedule, the 64 rounds, the
      compression function over the blocks, and the digest.
    - [Hmac]: the interface [HashFunction] (a [Class]: the hash, its block
      and digest sizes and their laws), HMAC over any instance, and the
      SHA-256 instance.
    - [Pbkdf2]: the interface [Prf], RFC 8018's [F] and [T_i] as the
      reference, OpenSSL's [PKCS5_PBKDF2_HMAC] accumulator loop as the
      implementation, the HMAC-SHA256 instance, and [cryptography]'s
      single-use [PBKDF2HMAC] object with its error cases.
    - [Base64]: [base64.b64encode] ([binascii.b2a_base64]) and the lenient
      [base64.b64decode] ([binascii.a2b_base64]) as CPython's four-state
      machine, each proved against a reference definition by groups of
      three bytes.
    - [PasswordHash]: [generate_pbkdf2_hash] and [verify_pbkdf2_hash]
      composed from the above the way the source composes them, with the
      operating system's entropy as explicit state ([os_state]); and
      [verify_fixed], the same function with [hmac.compare_digest].
    - [Contract]: the specification's [verify] as a reference function
      ([verify_spec]), and the script's function with
      [hmac.compare_digest] proved equal to it.
    - [Session]: any sequence of calls of the two functions as labelled
      steps ([step], [run]) on the shared entropy state, with rule
      induction over runs.
    - [Main]: [main()], with standard input as the line [input] returns
      and standard output as a stream of code points.
    - [Process]: lines 129-130 as a process: the exit status and the last
      line of the traceback when an exception escapes [main]; and
      [exec_script], the whole file (top level, then the [__name__]
      guard) under any installation and module name.

    ** The theorems, by group

    - The script: verification returns [False] on every input and, on a
      record just generated, prints the [AttributeError] of line 88;
      [main] therefore always reports [Invalid]. Generation stores the
      drawn salt and the PBKDF2 key, both 32 bytes, consumes entropy only
      when it draws the salt, accepts a caller's salt of any length, and
      raises on a non-positive count, on a count above OpenSSL's
      [INT_MAX] (after drawing the salt) or on a lone surrogate. A salt
      that does not decode is printed with its message and [False]
      returned; unpadded text with two or three data characters over a
      multiple of four (the specification's ["also-bad"]) prints
      [Incorrect padding]. With [hmac.compare_digest] the round trip
      holds, a wrong key is rejected for every count the library
      computes with, and the function equals the specification's
      [verify] on stored text the specification calls valid base64
      (checked by a strict reference decoder of [Contract]); on
      malformed text the lenient decoder makes them differ. Every record
      has the types of [record_typed]: 44-character base64 strings, a
      positive count and the algorithm name.
    - Names: under any installation where the top level runs, every
      global name the functions read is bound; [hmac] is not imported, so correcting line 88 to [hmac.compare_digest]
      alone still returns [False], now with a [NameError].
    - Sequences of calls: over any run of [generate]/[verify] calls the
      entropy stream is unchanged and the counter moves by 32 per drawn
      salt (an invariant by rule induction), and two salts drawn in one
      run come from disjoint windows of the stream.
    - The process: the script exits with status 0 exactly when a line is
      read and its password has no lone surrogate; otherwise status 1
      with [EOFError] or [UnicodeEncodeError]. Run as [__main__] the file
      is that process; imported, it does nothing but bind its names;
      without the [cryptography] package it stops at line 9 with
      [ModuleNotFoundError: No module named 'cryptography'].
    - PBKDF2: OpenSSL's loop refines RFC 8018 (a functional refinement),
      the key has the requested length, a 32-byte key is one block, and
      the [PBKDF2HMAC] object is single-use.
    - HMAC and SHA-256: HMAC hashes long keys and ignores zero padding of
      short ones; SHA-256 keeps its state in 32-bit words, pads
      injectively, gives 32 bytes, and meets the FIPS and RFC 4231
      vectors.
    - Base64: the round trip, the shape of the encoding, and the
      decoder's skipping of non-alphabet characters.
    - Runtime: [_tscmp] decides equality in a number of steps fixed by
      the length of its second argument; [format(n, ',')] puts a comma
      every three digits from the right.
    - UTF-8: encoding succeeds exactly away from surrogates; decoding the
      encoding of a [str] gives it back; and the strict decoder accepts a
      byte string exactly when it is the encoding of some [str].
    - Words: [rotr32] is a bit rotation; big-endian split and combine are
      inverse.

    ** Bounds and fuel

    Machine integers are [Z] with explicit [mod 2^32]; bytes are [Z] in
    [0, 256) ([bytes_ok]). Every recursion that is not structural has
    fuel, and a theorem shows it is enough: [pbkdf2_loop] runs on fuel
    [dklen], and each round consumes at least one byte of the remaining
    length ([pbkdf2_loop_fuel]); [b2a_drain] has fuel 2, the most
    6-bit groups pending after a byte, and [b2a_loop_ref] (the encoder
    equals its reference) shows it is enough; [sha_blocks] runs on the
    number of 64-byte blocks of the padded message ([sha_blocks_exact]);
    [str_of_int] has fuel [log2 n + 1], and [dec_digits_fuel] shows one
    more step changes nothing. The iteration count is a [Z]; on its way
    to OpenSSL it meets [USIZE_MAX = 2^64 - 1] (Rust's [usize]) and
    [INT_MAX = 2^31 - 1] (C [int]), and the theorems that compute a key
    assume [1 <= it <= INT_MAX]. [utf8_decode_from_inv] is proved by
    induction on a bound of the length, since the decoder consumes one
    to four bytes a step.
    The count [600,000] of [main] is never evaluated; the theorems about
    [main] use only that it lies in [1, INT_MAX], and hold for every
    entropy source.

    ** Not modelled

    The terminal ([input] echoes the line; it is taken as given, a line
    of code points), the frames of a traceback above its last line (they
    name files of the interpreter's installation), the behaviour of the
    [openssl] crate for counts between [2^31] and [2^64] (a panic or a
    truncation to C [int], by version; the model reports an error
    value), Rust panics (a [BaseException], which [except Exception]
    does not catch; a zero count may panic in some versions instead of
    raising), [cryptography]'s
    backend selection and OpenSSL's error queue (an error is one
    exception value), and hash functions other than SHA-256. The tables
    of [os] and of [cryptography]'s modules list only the names the
    script reads (those of [hashlib], [hmac], [base64] and [builtins] are
    complete), so no absence of a name there is claimed. Lines 1-5 and
    11 are the shebang, the module docstring and blank lines: they bind
    only [__doc__], which nothing reads. Time and side channels are outside a
    functional model; [tscmp_steps] states the data-independence of the
    comparison loop's length only. No property of the liveness kind is
    stated: the script has no loop that waits for an event, every
    function it runs is total, and the models are total functions
    ([run_script] returns on every input), which is the strongest form
    of progress there is to state.

    ** What the modelling showed

    - Line 88 calls [hashlib.compare_digest], which CPython's [hashlib]
      does not define; the comment of line 87 means [hmac.compare_digest],
      and lines 6-10 do not import [hmac] either.
      The [AttributeError] is caught by line 90, so [verify_pbkdf2_hash]
      returns [False] for every input and [main] always prints
      [Invalid].
    - A salt of any length is accepted by [generate_pbkdf2_hash].
    - [base64.b64decode] without [validate=True] skips characters outside
      the alphabet, so many malformed strings decode.
    - A [str] with a lone surrogate raises [UnicodeEncodeError] from
      [generate_pbkdf2_hash], which does not catch it. *)

From Stdlib Require Import String Ascii ZArith List Lia Bool.
Import ListNotations.

Declare Scope pw_scope.
Delimit Scope pw_scope with pw.
Open Scope Z_scope.

Create HintDb pw discriminated.
Create Rewrite HintDb pw_rw.

(** ** Bytes

    A Python [bytes] object, and every byte buffer of the libraries, is a
    list of integers in [0, 256). *)

Definition is_byte (z : Z) : bool := (0 <=? z) && (z <? 256).

Definition bytes_ok (bs : list Z) : bool := forallb is_byte bs.

(** Byte-wise xor of two buffers, over the shorter one. *)
Fixpoint xor_bytes (a b : list Z) : list Z :=
  match a, b with
  | x :: a', y :: b' => Z.lxor x y :: xor_bytes a' b'
  | _, _ => []
  end.

Notation "a ⊕ b" := (xor_bytes a b) (at level 50, left associativity) : pw_scope.
Open Scope pw_scope.

Definition zeros (n : nat) : list Z := repeat 0 n.

(** Literal byte strings, for test vectors: the bytes of an ASCII
    string, and the bytes written by a string of hex digits. *)
Fixpoint bytes_of_string (s : string) : list Z :=
  match s with
  | EmptyString => []
  | String c s' => Z.of_nat (nat_of_ascii c) :: bytes_of_string s'
  end.

Definition hex_digit (c : ascii) : Z :=
  let n := Z.of_nat (nat_of_ascii c) in
  if (48 <=? n) && (n <=? 57) then n - 48
  else if (97 <=? n) && (n <=? 102) then n - 87
  else if (65 <=? n) && (n <=? 70) then n - 55
  else 0.

Fixpoint hex_bytes (s : string) : list Z :=
  match s with
  | String h (String l s') => (hex_digit h * 16 + hex_digit l) :: hex_bytes s'
  | _ => []
  end.

(** ** Tactics *)

(** Turn the boolean byte predicates into arithmetic facts. *)
Ltac byte_facts :=
  repeat match goal with
  | H : is_byte _ = true |- _ =>
      unfold is_byte in H; apply andb_prop in H; destruct H as [?%Z.leb_le ?%Z.ltb_lt]
  | H : bytes_ok (_ :: _) = true |- _ =>
      simpl in H; apply andb_prop in H; destruct H
  | H : is_byte _ && _ = true |- _ => apply andb_prop in H; destruct H
  end.

(** Evaluate the powers of two with constant exponents left by [simpl]. *)
Ltac pow_consts :=
  repeat match goal with
  | |- context [Z.pow_pos 2 ?n] =>
      let v := eval vm_compute in (Z.pow_pos 2 n) in change (Z.pow_pos 2 n) with v
  | |- context [2 ^ ?n] =>
      let v := eval vm_compute in (2 ^ n) in change (2 ^ n) with v
  end.

(** ** Bits above a width *)

Lemma testbit_high (x n i : Z) :
  0 <= x < 2 ^ n -> 0 <= n <= i -> Z.testbit x i = false.
Proof.
  intros Hx Hi. rewrite <- (Z.mod_small x (2 ^ n)) by lia.
  apply Z.mod_pow2_bits_high. lia.
Qed.

Lemma bound_of_bits (x n : Z) :
  0 <= n -> 0 <= x -> (forall i, n <= i -> Z.testbit x i = false) -> x < 2 ^ n.
Proof.
  intros Hn Hx Hb.
  assert (Heq : x = x mod 2 ^ n).
  { apply Z.bits_inj'. intros i Hi.
    destruct (Z.lt_ge_cases i n).
    - rewrite Z.mod_pow2_bits_low by lia. reflexivity.
    - rewrite Z.mod_pow2_bits_high, Hb by lia. reflexivity. }
  rewrite Heq. apply Z.mod_pos_bound. lia.
Qed.

Lemma lxor_range (a b n : Z) :
  0 <= n -> 0 <= a < 2 ^ n -> 0 <= b < 2 ^ n -> 0 <= Z.lxor a b < 2 ^ n.
Proof.
  intros Hn Ha Hb. split; [apply Z.lxor_nonneg; lia |].
  apply bound_of_bits; [lia | apply Z.lxor_nonneg; lia |].
  intros i Hi. rewrite Z.lxor_spec, (testbit_high a n), (testbit_high b n); auto; lia.
Qed.

Lemma lor_range (a b n : Z) :
  0 <= n -> 0 <= a < 2 ^ n -> 0 <= b < 2 ^ n -> 0 <= Z.lor a b < 2 ^ n.
Proof.
  intros Hn Ha Hb. split; [apply Z.lor_nonneg; lia |].
  apply bound_of_bits; [lia | apply Z.lor_nonneg; lia |].
  intros i Hi. rewrite Z.lor_spec, (testbit_high a n), (testbit_high b n); auto; lia.
Qed.

Lemma land_range_l (a b n : Z) :
  0 <= n -> 0 <= a < 2 ^ n -> 0 <= b -> 0 <= Z.land a b < 2 ^ n.
Proof.
  intros Hn Ha Hb. split; [apply Z.land_nonneg; lia |].
  apply bound_of_bits; [lia | apply Z.land_nonneg; lia |].
  intros i Hi. rewrite Z.land_spec, (testbit_high a n); auto; lia.
Qed.

Lemma shiftr_range (a k n : Z) :
  0 <= k -> 0 <= a < 2 ^ n -> 0 <= Z.shiftr a k < 2 ^ n.
Proof.
  intros Hk Ha. rewrite Z.shiftr_div_pow2 by lia.
  assert (0 < 2 ^ k) by (apply Z.pow_pos_nonneg; lia).
  split; [apply Z.div_pos; lia |].
  apply Z.le_lt_trans with a; [apply Z.div_le_upper_bound; nia | lia].
Qed.

(** A value shifted left by [k] and a value below [2^k] have disjoint
    bits, so their [lor] is a sum. *)
Lemma land_shiftl_low (a b k : Z) :
  0 <= k -> 0 <= b < 2 ^ k -> Z.land (Z.shiftl a k) b = 0.
Proof.
  intros Hk Hb. apply Z.bits_inj'. intros i Hi. rewrite Z.land_spec, Z.bits_0.
  destruct (Z.lt_ge_cases i k).
  - rewrite Z.shiftl_spec_low by lia. reflexivity.
  - rewrite (testbit_high b k) by lia. apply andb_false_r.
Qed.

Lemma lor_shiftl_add (a b k : Z) :
  0 <= k -> 0 <= b < 2 ^ k -> Z.lor (Z.shiftl a k) b = a * 2 ^ k + b.
Proof.
  intros Hk Hb. pose proof (land_shiftl_low a b k Hk Hb) as H0.
  rewrite <- Z.lxor_lor, <- Z.add_nocarry_lxor, Z.shiftl_mul_pow2 by assumption.
  reflexivity.
Qed.

(** A multiple of [2^k] and a value below [2^k] have disjoint bits. *)
Lemma lor_low_add (h b k : Z) :
  0 <= k -> h mod 2 ^ k = 0 -> 0 <= b < 2 ^ k -> Z.lor h b = h + b.
Proof.
  intros Hk Hm Hb. assert (Hp : 2 ^ k <> 0) by (apply Z.pow_nonzero; lia).
  pose proof (Z.div_mod h (2 ^ k) Hp) as E. rewrite Hm, Z.add_0_r in E.
  rewrite E at 1. rewrite Z.mul_comm, <- Z.shiftl_mul_pow2 by exact Hk.
  rewrite lor_shiftl_add by assumption. rewrite Z.mul_comm, <- E. reflexivity.
Qed.

(** ** Byte lists *)

Lemma is_byte_spec (z : Z) : is_byte z = true <-> 0 <= z < 256.
Proof. unfold is_byte. rewrite andb_true_iff, Z.leb_le, Z.ltb_lt. lia. Qed.

Lemma bytes_ok_spec (bs : list Z) :
  bytes_ok bs = true <-> Forall (fun z => 0 <= z < 256) bs.
Proof.
  unfold bytes_ok. rewrite forallb_forall, Forall_forall.
  split; intros H x Hx; apply is_byte_spec; auto.
Qed.

Lemma bytes_ok_app (a b : list Z) :
  bytes_ok (a ++ b) = bytes_ok a && bytes_ok b.
Proof. apply forallb_app. Qed.

Lemma bytes_ok_app_intro (a b : list Z) :
  bytes_ok a = true -> bytes_ok b = true -> bytes_ok (a ++ b) = true.
Proof. rewrite bytes_ok_app. intros -> ->. reflexivity. Qed.

Lemma bytes_ok_repeat (z : Z) (n : nat) :
  0 <= z < 256 -> bytes_ok (repeat z n) = true.
Proof.
  intros Hz. induction n as [| n IH]; [reflexivity |].
  simpl. rewrite IH, (proj2 (is_byte_spec z) Hz). reflexivity.
Qed.

Lemma bytes_ok_zeros (n : nat) : bytes_ok (zeros n) = true.
Proof. apply bytes_ok_repeat. lia. Qed.

Lemma bytes_ok_firstn (n : nat) (bs : list Z) :
  bytes_ok bs = true -> bytes_ok (firstn n bs) = true.
Proof.
  rewrite !bytes_ok_spec. intros H.
  rewrite <- (firstn_skipn n bs) in H. apply Forall_app in H. tauto.
Qed.

Lemma bytes_ok_skipn (n : nat) (bs : list Z) :
  bytes_ok bs = true -> bytes_ok (skipn n bs) = true.
Proof.
  rewrite !bytes_ok_spec. intros H.
  rewrite <- (firstn_skipn n bs) in H. apply Forall_app in H. tauto.
Qed.

Lemma skipn_length_app {A} (a b : list A) : skipn (length a) (a ++ b) = b.
Proof. induction a as [| x a IH]; simpl; auto. Qed.

Lemma firstn_length_app {A} (a b : list A) : firstn (length a) (a ++ b) = a.
Proof. induction a as [| x a IH]; simpl; f_equal; auto. Qed.

Lemma length_xor_bytes (a b : list Z) :
  length (a ⊕ b) = Nat.min (length a) (length b).
Proof.
  revert b; induction a as [| x a IH]; intros [| y b]; simpl; auto.
Qed.

Lemma xor_bytes_comm (a b : list Z) : a ⊕ b = b ⊕ a.
Proof.
  revert b; induction a as [| x a IH]; intros [| y b]; simpl; auto.
  rewrite Z.lxor_comm, IH. reflexivity.
Qed.

Lemma xor_bytes_assoc (a b c : list Z) : (a ⊕ b) ⊕ c = a ⊕ (b ⊕ c).
Proof.
  revert b c; induction a as [| x a IH]; intros [| y b] [| z c]; simpl; auto.
  rewrite Z.lxor_assoc, IH. reflexivity.
Qed.

Lemma xor_bytes_zeros_r (a : list Z) (n : nat) :
  (length a <= n)%nat -> a ⊕ zeros n = a.
Proof.
  revert n; induction a as [| x a IH]; intros [| n] Hn; simpl in *; auto; try lia.
  rewrite Z.lxor_0_r, IH by lia. reflexivity.
Qed.

Lemma xor_bytes_self (a : list Z) : a ⊕ a = zeros (length a).
Proof.
  induction a as [| x a IH]; simpl; auto. rewrite Z.lxor_nilpotent, IH. reflexivity.
Qed.

Lemma firstn_xor_bytes (n : nat) (a b : list Z) : firstn n (a ⊕ b) = firstn n a ⊕ b.
Proof.
  revert n b; induction a as [| x a IH]; intros [| n] [| y b]; simpl; auto.
  rewrite IH. reflexivity.
Qed.

Lemma length_xor_bytes_l (a b : list Z) :
  (length a <= length b)%nat -> length (a ⊕ b) = length a.
Proof. intros H. rewrite length_xor_bytes. lia. Qed.

Lemma bytes_ok_xor (a b : list Z) :
  bytes_ok a = true -> bytes_ok b = true -> bytes_ok (a ⊕ b) = true.
Proof.
  revert b; induction a as [| x a IH]; intros [| y b] Ha Hb; auto.
  byte_facts. simpl. rewrite IH by assumption.
  pose proof (lxor_range x y 8 ltac:(lia) ltac:(simpl; lia) ltac:(simpl; lia)).
  rewrite (proj2 (is_byte_spec _)) by (simpl in *; lia). reflexivity.
Qed.

Lemma length_zeros (n : nat) : length (zeros n) = n.
Proof. apply repeat_length. Qed.

#[export] Hint Resolve bytes_ok_app_intro bytes_ok_zeros bytes_ok_firstn bytes_ok_skipn
  bytes_ok_xor : pw.
#[export] Hint Rewrite length_xor_bytes length_zeros length_app length_firstn length_skipn
  repeat_length : pw_rw.
