(* ===== verification/PyRuntime.v ===== *)
(** * The Python runtime the script relies on

    - Exceptions and a result monad: a call either returns a value or
      raises; [try_except] is [try: ... except Exception as e: ...]
      (every exception modelled here derives from [Exception]).
    - Python values ([None], [bool], [int], [str], [bytes]); a [str] is
      its list of code points, [bytes] a list of byte values.
    - [compare_digest] as CPython's [_tscmp]: a loop over the second
      argument that ors the xor of the bytes, run on the second argument
      against itself when the lengths differ.
    - The public attributes of the modules [hashlib] and [hmac] of
      CPython 3.11, and [getattr] on a module.
    - [str(n)] for an [int], and [str(e)] for the exceptions the script
      prints or lets escape ([str] of an [ImportError] raised by
      [from ... import] ends, in CPython, with the location of the
      package in parentheses; that suffix names a path of the
      installation and is left out).

    The UTF-8 codec is in [Utf8].

    Theorems: [_tscmp] decides byte-string equality and runs a number of
    steps that depends only on the length of its second argument;
    [hashlib] has no attribute [compare_digest] while [hmac] has. *)

From Stdlib Require Import String Ascii ZArith List Lia Bool.
From S2P Require Import Prelude.
Import ListNotations.
Open Scope Z_scope.

(** ** Exceptions and results *)

Inductive exc :=
| AttributeError (module attr : string)
| TypeError (msg : string)
| ValueError (msg : string)
| BinasciiError (msg : list Z)         (** [binascii.Error], a [ValueError] *)
| UnicodeEncodeError (ch : Z) (start stop : nat) (** [surrogates not allowed]; [ch] is [s[start]] *)
| UnicodeDecodeError (byte : Z) (start : nat) (reason : string)
| OverflowError (msg : string)
| AlreadyFinalized
| InternalError (msg : string)         (** an OpenSSL failure reported by [cryptography] *)
| NameError (name : string)
| ModuleNotFoundError (name : string)
| ImportError (name package : string). (** [from package import name] *)

Inductive result (A : Type) : Type :=
| Ok (a : A)
| Raise (e : exc).
Arguments Ok {A} a.
Arguments Raise {A} e.

Definition bind {A B : Type} (c : result A) (k : A -> result B) : result B :=
  match c with
  | Ok a => k a
  | Raise e => Raise e
  end.

Declare Scope py_scope.
Delimit Scope py_scope with py.
Notation "x <- c ;; k" := (bind c (fun x => k))
  (at level 61, c at next level, right associativity) : py_scope.
Open Scope py_scope.

(** [try: body  except Exception as e: handler(e)]. *)
Definition try_except {A : Type} (body : result A) (handler : exc -> A) : A :=
  match body with
  | Ok a => a
  | Raise e => handler e
  end.

Lemma bind_ok {A B} (a : A) (k : A -> result B) : bind (Ok a) k = k a.
Proof. reflexivity. Qed.

Lemma bind_raise {A B} (e : exc) (k : A -> result B) : bind (Raise e) k = Raise e.
Proof. reflexivity. Qed.

Lemma bind_ok_inv {A B} (c : result A) (k : A -> result B) (b : B) :
  bind c k = Ok b -> exists a, c = Ok a /\ k a = Ok b.
Proof. destruct c; simpl; [eauto | discriminate]. Qed.

#[export] Hint Rewrite @bind_ok @bind_raise : pw_rw.

(** ** Python values *)

Inductive pyval :=
| PyNone
| PyBool (b : bool)
| PyInt (z : Z)
| PyStr (s : list Z)
| PyBytes (b : list Z).

(** A Python [str] literal written in ASCII. *)
Definition lit (s : string) : list Z := bytes_of_string s.

(** ** [compare_digest] (CPython's [_tscmp]) *)

(** The loop [for (i=0; i < length; i++) result |= *left++ ^ *right++;],
    returning the accumulator and the number of iterations. *)
Fixpoint tscmp_loop (left right : list Z) (acc : Z) (steps : nat) : Z * nat :=
  match left, right with
  | l :: left', r :: right' => tscmp_loop left' right' (Z.lor acc (Z.lxor l r)) (S steps)
  | _, _ => (acc, steps)
  end.

(** [length = len_b]; [left = a, result = 0] when the lengths agree,
    [left = b, result = 1] when they differ; return [result == 0]. *)
Definition tscmp_run (a b : list Z) : Z * nat :=
  if Nat.eqb (length a) (length b) then tscmp_loop a b 0 O else tscmp_loop b b 1 O.

Definition tscmp (a b : list Z) : bool := Z.eqb (fst (tscmp_run a b)) 0.

(** [compare_digest(a, b)] on the argument types: two [bytes] go to
    [_tscmp]; two [str] must be ASCII; anything else is a [TypeError]. *)
Definition is_ascii_str (s : list Z) : bool := forallb (fun c => c <? 128) s.

Definition compare_digest (a b : pyval) : result bool :=
  match a, b with
  | PyBytes x, PyBytes y => Ok (tscmp x y)
  | PyStr x, PyStr y =>
      if is_ascii_str x && is_ascii_str y then Ok (tscmp x y)
      else Raise (TypeError "comparing strings with non-ASCII characters is not supported")
  | _, _ => Raise (TypeError "unsupported operand types(s) or combination of types")
  end.

(** ** Modules and attribute lookup *)

Inductive builtin :=
| B_compare_digest
| B_pbkdf2_hmac
| B_function (name : string).

Definition module := list (string * builtin).

Definition lookup_attr (m : module) (attr : string) : option builtin :=
  match find (fun kv => String.eqb (fst kv) attr) m with
  | Some (_, b) => Some b
  | None => None
  end.

(** [getattr(module, attr)], raising [AttributeError] when absent. *)
Definition getattr (modname : string) (m : module) (attr : string) : result builtin :=
  match lookup_attr m attr with
  | Some b => Ok b
  | None => Raise (AttributeError modname attr)
  end.

(** The public names of [hashlib] in CPython 3.11. *)
Definition hashlib_module : module :=
  map (fun n => (n, B_function n))
    ["algorithms_available"; "algorithms_guaranteed"; "blake2b"; "blake2s"; "file_digest";
     "md5"; "new"]%string
  ++ [("pbkdf2_hmac"%string, B_pbkdf2_hmac)]
  ++ map (fun n => (n, B_function n))
    ["scrypt"; "sha1"; "sha224"; "sha256"; "sha384"; "sha3_224"; "sha3_256"; "sha3_384";
     "sha3_512"; "sha512"; "shake_128"; "shake_256"]%string.

(** The public names of [hmac] in CPython 3.11. *)
Definition hmac_module : module :=
  [("HMAC"%string, B_function "HMAC"); ("compare_digest"%string, B_compare_digest);
   ("digest"%string, B_function "digest"); ("digest_size"%string, B_function "digest_size");
   ("new"%string, B_function "new"); ("trans_36"%string, B_function "trans_36");
   ("trans_5C"%string, B_function "trans_5C")].

(** Calling a builtin on two arguments. *)
Definition call2 (f : builtin) (a b : pyval) : result bool :=
  match f with
  | B_compare_digest => compare_digest a b
  | _ => Raise (TypeError "unexpected call")
  end.

(** ** [_tscmp] decides equality in a time fixed by the lengths *)

Lemma tscmp_loop_zero (l r : list Z) (acc : Z) (n : nat) :
  length l = length r ->
  (fst (tscmp_loop l r acc n) = 0 <-> acc = 0 /\ l = r).
Proof.
  revert r acc n; induction l as [| x l IH]; intros [| y r] acc n Hlen; simpl in *;
    try discriminate; [tauto |].
  rewrite IH by lia. rewrite Z.lor_eq_0_iff, Z.lxor_eq_0_iff.
  split; [intros [[-> ->] ->]; auto | intros [-> H]; injection H as -> ->; auto].
Qed.

Lemma tscmp_loop_steps (l r : list Z) (acc : Z) (n : nat) :
  length l = length r -> snd (tscmp_loop l r acc n) = (n + length r)%nat.
Proof.
  revert r acc n; induction l as [| x l IH]; intros [| y r] acc n Hlen; simpl in *;
    try discriminate; [lia |].
  rewrite IH by lia. lia.
Qed.

(** [_tscmp(a, b)] is true exactly when the two buffers are equal. *)
Theorem tscmp_correct (a b : list Z) : tscmp a b = true <-> a = b.
Proof.
  unfold tscmp, tscmp_run. rewrite Z.eqb_eq.
  destruct (Nat.eqb_spec (length a) (length b)) as [Hlen | Hlen].
  - rewrite tscmp_loop_zero by exact Hlen. tauto.
  - rewrite tscmp_loop_zero by reflexivity.
    split; [intros [H _]; discriminate | intros ->; contradiction].
Qed.

(** C34: The loop runs [len(b)] times, whatever the contents of [a] and [b]
    and wherever they first differ. *)
Theorem tscmp_steps (a b : list Z) : snd (tscmp_run a b) = length b.
Proof.
  unfold tscmp_run. destruct (Nat.eqb_spec (length a) (length b)) as [Hlen | Hlen];
    rewrite tscmp_loop_steps; auto.
Qed.

(** [compare_digest] on two [bytes] returns [True] exactly when they
    are equal. *)
Lemma compare_digest_bytes (a b : list Z) :
  compare_digest (PyBytes a) (PyBytes b) = Ok true <-> a = b.
Proof.
  simpl. rewrite <- tscmp_correct.
  split; [intros H; injection H; auto | intros ->; reflexivity].
Qed.

(** ** The modules *)

Lemma hashlib_has_no_compare_digest :
  getattr "hashlib" hashlib_module "compare_digest" = Raise (AttributeError "hashlib" "compare_digest").
Proof. reflexivity. Qed.

Lemma hmac_has_compare_digest :
  getattr "hmac" hmac_module "compare_digest" = Ok B_compare_digest.
Proof. reflexivity. Qed.

(** ** [str(n)] for an [int] *)

(** Decimal digits, least significant first; [fuel] bounds the number of
    digits. *)
Fixpoint dec_digits_rev (fuel : nat) (z : Z) : list Z :=
  match fuel with
  | O => []
  | S f => (48 + z mod 10) :: (if z <? 10 then [] else dec_digits_rev f (z / 10))
  end.

(** [z] has at most [log2 z + 1] decimal digits, which is the fuel. *)
Definition str_of_int (z : Z) : list Z :=
  let a := Z.abs z in
  let ds := rev (dec_digits_rev (S (Z.to_nat (Z.log2 a))) a) in
  if z <? 0 then 45 :: ds else ds.

Example str_of_int_600000 : str_of_int 600000 = lit "600000".
Proof. reflexivity. Qed.

(** Dividing by ten lowers the binary logarithm. *)
Lemma log2_div10_lt (z : Z) : 10 <= z -> Z.log2 (z / 10) < Z.log2 z.
Proof.
  intros Hz. apply Z.le_lt_trans with (Z.log2 (z / 2)).
  - apply Z.log2_le_mono. apply Z.div_le_compat_l; lia.
  - rewrite <- Z.shiftr_div_pow2 with (n := 1) by lia. rewrite Z.log2_shiftr by lia.
    assert (0 < Z.log2 z) by (apply Z.log2_pos; lia). lia.
Qed.

(** The fuel of [str_of_int] is enough: one more step changes nothing, so
    the digits are all the digits of [z]. *)
Lemma dec_digits_fuel (f : nat) (z : Z) :
  0 <= z -> (Z.to_nat (Z.log2 z) < f)%nat -> dec_digits_rev (S f) z = dec_digits_rev f z.
Proof.
  revert z. induction f as [| f IH]; intros z Hz Hf; [lia |].
  cbn [dec_digits_rev]. destruct (Z.ltb_spec z 10) as [Hlt | Hge]; [reflexivity |].
  f_equal. f_equal. apply IH; [apply Z.div_pos; lia |].
  pose proof (log2_div10_lt z Hge). pose proof (Z.log2_nonneg (z / 10)). lia.
Qed.

(** ** [str(e)] of the exceptions *)

Definition hex_digit_char (d : Z) : Z := if d <? 10 then 48 + d else 87 + d.

(** Four lowercase hex digits. *)
Definition hex4 (c : Z) : list Z :=
  map (fun k => hex_digit_char (Z.land (Z.shiftr c k) 15)) [12; 8; 4; 0].

Definition exc_str (e : exc) : list Z :=
  match e with
  | AttributeError m a => lit "module '" ++ lit m ++ lit "' has no attribute '" ++ lit a ++ lit "'"
  | TypeError m | ValueError m | OverflowError m | InternalError m => lit m
  | BinasciiError m => m
  | UnicodeEncodeError c start stop =>
      if Nat.eqb (stop - start) 1 then
        lit "'utf-8' codec can't encode character '\u" ++ hex4 c ++ lit "' in position "
        ++ str_of_int (Z.of_nat start) ++ lit ": surrogates not allowed"
      else
        lit "'utf-8' codec can't encode characters in position " ++ str_of_int (Z.of_nat start)
        ++ lit "-" ++ str_of_int (Z.of_nat stop - 1) ++ lit ": surrogates not allowed"
  | UnicodeDecodeError b pos reason =>
      lit "'utf-8' codec can't decode byte 0x" ++ skipn 2 (hex4 b) ++ lit " in position "
      ++ str_of_int (Z.of_nat pos) ++ lit ": " ++ lit reason
  | AlreadyFinalized => lit "PBKDF2 instances can only be used once."
  | NameError n => lit "name '" ++ lit n ++ lit "' is not defined"
  | ModuleNotFoundError n => lit "No module named '" ++ lit n ++ lit "'"
  | ImportError n p => lit "cannot import name '" ++ lit n ++ lit "' from '" ++ lit p ++ lit "'"
  end.

Example exc_str_surrogate :
  exc_str (UnicodeEncodeError 0xd800 0 1)
  = lit "'utf-8' codec can't encode character '\ud800' in position 0: surrogates not allowed".
Proof. reflexivity. Qed.
