(* ===== verification/Namespace.v ===== *)
(** * The module's namespace: lines 6-10, the [def]s, and name lookup

    Running the file executes its top level: the imports of lines 6-10,
    the [def] statements of lines 12, 54 and 94 and the [if] of line 129.
    Each statement binds names in the module's global namespace, which
    starts with [__name__] set by the interpreter. A function body reads
    a global name by [LOAD_GLOBAL]: the module's namespace first, then
    the [builtins] module; a name in neither raises [NameError]. An
    attribute [m.a] of a module is [getattr] on the module's table.

    - [installed]: the modules an interpreter can import, by dotted name
      ([cpython311]: CPython 3.11 with [cryptography]).
    - [import_module]: imports the parents of a dotted name first, so
      a missing package is reported by its shortest missing prefix.
    - [exec_stmt]/[exec_module]: [import m], [from p import n, ...] (an
      attribute of [p], or else its submodule [p.n]) and [def f].
    - [load_global] and [load_attr]: name and attribute lookup.
    - [script_imports], [script_defs]: the top level of the script;
      [generate_globals], [verify_globals], [main_globals] and
      [entry_globals]: the global names each part of it reads.

    Theorems: the script's top level runs, and every global name its
    functions read resolves, while [hmac] is not bound at all. *)

From Stdlib Require Import String ZArith List Lia Bool.
From S2P Require Import Prelude PyRuntime.
Import ListNotations.
#[local] Open Scope string_scope.

(** ** Values, namespaces and statements *)

Inductive gvalue :=
| GModule (qualname : string)   (** a module object, by its name in [sys.modules] *)
| GObject (b : builtin)         (** an attribute taken from a module, or a builtin *)
| GFunction (name : string)     (** a function defined by a [def] of the script *)
| GStr (s : string).            (** [__name__] *)

(** A namespace, the latest binding first. *)
Definition namespace := list (string * gvalue).

(** The modules an interpreter can import: their attribute tables. *)
Definition installed := string -> option module.

Inductive stmt :=
| SImport (path : list string)                      (** [import a.b.c] *)
| SImportFrom (path : list string) (names : list string) (** [from a.b import x, y] *)
| SDef (name : string).                             (** [def name(...): ...] *)

Definition dotted (path : list string) : string := String.concat "." path.

(** ** Importing *)

(** [importlib._bootstrap._find_and_load] on [a], then [a.b], ...: the
    first prefix that is not installed raises [ModuleNotFoundError]. *)
Fixpoint import_prefixes (inst : installed) (done rest : list string) : result module :=
  match rest with
  | [] => Raise (ModuleNotFoundError (dotted done))
  | [c] =>
      match inst (dotted (done ++ [c])) with
      | Some m => Ok m
      | None => Raise (ModuleNotFoundError (dotted (done ++ [c])))
      end
  | c :: rest' =>
      match inst (dotted (done ++ [c])) with
      | Some _ => import_prefixes inst (done ++ [c]) rest'
      | None => Raise (ModuleNotFoundError (dotted (done ++ [c])))
      end
  end.

Definition import_module (inst : installed) (path : list string) : result module :=
  import_prefixes inst [] path.

(** [_handle_fromlist]: an attribute of the package, or else its
    submodule; [ImportError] when neither exists. *)
Definition from_name (inst : installed) (path : list string) (m : module) (n : string)
  : result gvalue :=
  match lookup_attr m n with
  | Some b => Ok (GObject b)
  | None =>
      match inst (dotted (path ++ [n])) with
      | Some _ => Ok (GModule (dotted (path ++ [n])))
      | None => Raise (ImportError n (dotted path))
      end
  end.

Fixpoint bind_names (inst : installed) (path : list string) (m : module) (names : list string)
    (ns : namespace) : result namespace :=
  match names with
  | [] => Ok ns
  | n :: names' =>
      v <- from_name inst path m n ;;
      bind_names inst path m names' ((n, v) :: ns)
  end.

(** One statement of the top level. [import a.b] binds [a]. *)
Definition exec_stmt (inst : installed) (ns : namespace) (s : stmt) : result namespace :=
  match s with
  | SImport path =>
      _ <- import_module inst path ;;
      match path with
      | c :: _ => Ok ((c, GModule c) :: ns)
      | [] => Ok ns
      end
  | SImportFrom path names =>
      m <- import_module inst path ;;
      bind_names inst path m names ns
  | SDef f => Ok ((f, GFunction f) :: ns)
  end.

Fixpoint exec_module (inst : installed) (ss : list stmt) (ns : namespace) : result namespace :=
  match ss with
  | [] => Ok ns
  | s :: ss' => ns' <- exec_stmt inst ns s ;; exec_module inst ss' ns'
  end.

(** ** Lookup *)

(** [dir(builtins)] of CPython 3.11 run as [python3 script.py] ([exit],
    [quit], [help], [copyright], [credits] and [license] come from
    [site]). *)
Definition builtin_names : list string :=
  [
    "ArithmeticError"; "AssertionError"; "AttributeError"; "BaseException";
    "BaseExceptionGroup"; "BlockingIOError"; "BrokenPipeError"; "BufferError";
    "BytesWarning"; "ChildProcessError"; "ConnectionAbortedError"; "ConnectionError";
    "ConnectionRefusedError"; "ConnectionResetError"; "DeprecationWarning"; "EOFError";
    "Ellipsis"; "EncodingWarning"; "EnvironmentError"; "Exception"; "ExceptionGroup";
    "False"; "FileExistsError"; "FileNotFoundError"; "FloatingPointError"; "FutureWarning";
    "GeneratorExit"; "IOError"; "ImportError"; "ImportWarning"; "IndentationError";
    "IndexError"; "InterruptedError"; "IsADirectoryError"; "KeyError"; "KeyboardInterrupt";
    "LookupError"; "MemoryError"; "ModuleNotFoundError"; "NameError"; "None";
    "NotADirectoryError"; "NotImplemented"; "NotImplementedError"; "OSError";
    "OverflowError"; "PendingDeprecationWarning"; "PermissionError"; "ProcessLookupError";
    "RecursionError"; "ReferenceError"; "ResourceWarning"; "RuntimeError"; "RuntimeWarning";
    "StopAsyncIteration"; "StopIteration"; "SyntaxError"; "SyntaxWarning"; "SystemError";
    "SystemExit"; "TabError"; "TimeoutError"; "True"; "TypeError"; "UnboundLocalError";
    "UnicodeDecodeError"; "UnicodeEncodeError"; "UnicodeError"; "UnicodeTranslateError";
    "UnicodeWarning"; "UserWarning"; "ValueError"; "Warning"; "ZeroDivisionError";
    "__build_class__"; "__debug__"; "__doc__"; "__import__"; "__loader__"; "__name__";
    "__package__"; "__spec__"; "abs"; "aiter"; "all"; "anext"; "any"; "ascii"; "bin";
    "bool"; "breakpoint"; "bytearray"; "bytes"; "callable"; "chr"; "classmethod"; "compile";
    "complex"; "copyright"; "credits"; "delattr"; "dict"; "dir"; "divmod"; "enumerate";
    "eval"; "exec"; "exit"; "filter"; "float"; "format"; "frozenset"; "getattr"; "globals";
    "hasattr"; "hash"; "help"; "hex"; "id"; "input"; "int"; "isinstance"; "issubclass";
    "iter"; "len"; "license"; "list"; "locals"; "map"; "max"; "memoryview"; "min"; "next";
    "object"; "oct"; "open"; "ord"; "pow"; "print"; "property"; "quit"; "range"; "repr";
    "reversed"; "round"; "set"; "setattr"; "slice"; "sorted"; "staticmethod"; "str"; "sum";
    "super"; "tuple"; "type"; "vars"; "zip"
  ].

Fixpoint lookup_name (ns : namespace) (n : string) : option gvalue :=
  match ns with
  | [] => None
  | (k, v) :: ns' => if String.eqb k n then Some v else lookup_name ns' n
  end.

(** [LOAD_GLOBAL n]: the module's namespace, then [builtins]. *)
Definition load_global (ns : namespace) (n : string) : result gvalue :=
  match lookup_name ns n with
  | Some v => Ok v
  | None =>
      if existsb (String.eqb n) builtin_names then Ok (GObject (B_function n))
      else Raise (NameError n)
  end.

(** [n.attr] where [n] is a global name. The script reads attributes of
    modules only; the [AttributeError] of another object, whose message
    names its type, is not modelled. *)
Definition load_attr (inst : installed) (ns : namespace) (n attr : string) : result builtin :=
  v <- load_global ns n ;;
  match v with
  | GModule q =>
      match inst q with
      | Some m => getattr q m attr
      | None => Raise (ModuleNotFoundError q)
      end
  | _ => Raise (AttributeError n attr)
  end.

(** ** The installation *)

Definition names_module (ns : list string) : module := map (fun n => (n, B_function n)) ns.

(** The public names of [base64] in CPython 3.11. *)
Definition base64_module : module :=
  names_module
    [
     "MAXBINSIZE"; "MAXLINESIZE"; "a85decode"; "a85encode"; "b16decode"; "b16encode";
     "b32decode"; "b32encode"; "b32hexdecode"; "b32hexencode"; "b64decode"; "b64encode";
     "b85decode"; "b85encode"; "binascii"; "bytes_types"; "decode"; "decodebytes"; "encode";
     "encodebytes"; "main"; "re"; "standard_b64decode"; "standard_b64encode"; "struct";
     "test"; "urlsafe_b64decode"; "urlsafe_b64encode"
    ].

(** CPython 3.11 with the [cryptography] package. For [os] and the
    modules of [cryptography] the tables hold the names the script reads
    (the packages' [__init__] define no public name the script uses);
    [hashlib], [hmac] and [base64] are complete. *)
Definition cpython311_modules : list (string * module) :=
  [("hashlib", hashlib_module); ("hmac", hmac_module); ("os", names_module ["urandom"]);
   ("base64", base64_module); ("cryptography", []); ("cryptography.hazmat", []);
   ("cryptography.hazmat.primitives", []);
   ("cryptography.hazmat.primitives.hashes", names_module ["SHA256"]);
   ("cryptography.hazmat.primitives.kdf", names_module ["KeyDerivationFunction"]);
   ("cryptography.hazmat.primitives.kdf.pbkdf2", names_module ["PBKDF2HMAC"])].

Definition cpython311 : installed :=
  fun q => match find (fun kv => String.eqb (fst kv) q) cpython311_modules with
           | Some (_, m) => Some m
           | None => None
           end.

(** ** The script's top level *)

(** Lines 6-10. *)
Definition script_imports : list stmt :=
  [SImport ["hashlib"]; SImport ["os"]; SImport ["base64"];
   SImportFrom ["cryptography"; "hazmat"; "primitives"] ["hashes"];
   SImportFrom ["cryptography"; "hazmat"; "primitives"; "kdf"; "pbkdf2"] ["PBKDF2HMAC"]].

(** The [def] statements of lines 12, 54 and 94. *)
Definition script_defs : list stmt :=
  [SDef "generate_pbkdf2_hash"; SDef "verify_pbkdf2_hash"; SDef "main"].

Definition script_module : list stmt := script_imports ++ script_defs.

(** The namespace the interpreter creates: [__name__] is ["__main__"]
    when the file is run, the module's name when it is imported. *)
Definition initial_globals (modname : string) : namespace := [("__name__", GStr modname)].

(** The namespace the functions run in, once the file has been run. *)
Definition script_globals : namespace :=
  match exec_module cpython311 script_module (initial_globals "__main__") with
  | Ok ns => ns
  | Raise _ => []
  end.

(** The global names each part reads, in the order the code reads them. *)
Definition generate_globals : list string :=
  ["isinstance"; "str"; "os"; "PBKDF2HMAC"; "hashes"; "base64"].
Definition verify_globals : list string :=
  ["isinstance"; "str"; "base64"; "PBKDF2HMAC"; "hashes"; "hashlib"; "Exception"; "print"].
Definition main_globals : list string :=
  ["print"; "input"; "generate_pbkdf2_hash"; "verify_pbkdf2_hash"].
Definition entry_globals : list string := ["__name__"; "main"].

(** The corrected top level: line 88 with [hmac.compare_digest] needs
    [import hmac] as well. *)
Definition fixed_module : list stmt := (SImport ["hmac"] :: script_imports) ++ script_defs.

Definition fixed_globals : namespace :=
  match exec_module cpython311 fixed_module (initial_globals "__main__") with
  | Ok ns => ns
  | Raise _ => []
  end.

(** ** Building blocks *)

Lemma exec_module_app (inst : installed) (ss1 ss2 : list stmt) (ns : namespace) :
  exec_module inst (ss1 ++ ss2) ns = (ns' <- exec_module inst ss1 ns ;; exec_module inst ss2 ns').
Proof.
  revert ns. induction ss1 as [| s ss1 IH]; intros ns; [reflexivity |].
  cbn [app exec_module]. destruct (exec_stmt inst ns s); [apply IH | reflexivity].
Qed.

(** The top level runs under any [__name__]: it binds the imported names
    and the three functions in front of [__name__]. *)
Lemma exec_script_module (modname : string) :
  exists ns, exec_module cpython311 script_module (initial_globals modname)
             = Ok (ns ++ initial_globals modname)%list /\
             lookup_name ns "__name__" = None /\ lookup_name ns "main" = Some (GFunction "main").
Proof.
  exists [("main", GFunction "main"); ("verify_pbkdf2_hash", GFunction "verify_pbkdf2_hash");
          ("generate_pbkdf2_hash", GFunction "generate_pbkdf2_hash");
          ("PBKDF2HMAC", GObject (B_function "PBKDF2HMAC"));
          ("hashes", GModule "cryptography.hazmat.primitives.hashes");
          ("base64", GModule "base64"); ("os", GModule "os"); ("hashlib", GModule "hashlib")].
  split; [vm_compute; reflexivity | split; reflexivity].
Qed.

Lemma load_global_script_name (modname : string) (ns : namespace) :
  lookup_name ns "__name__" = None ->
  load_global (ns ++ initial_globals modname)%list "__name__" = Ok (GStr modname).
Proof.
  intros H. unfold load_global. induction ns as [| [k v] ns IH]; [reflexivity |].
  cbn in H |- *. destruct (String.eqb k "__name__"); [discriminate | exact (IH H)].
Qed.

Lemma load_global_script_main (modname : string) (ns : namespace) :
  lookup_name ns "main" = Some (GFunction "main") ->
  load_global (ns ++ initial_globals modname)%list "main" = Ok (GFunction "main").
Proof.
  intros H. unfold load_global. induction ns as [| [k v] ns IH]; [discriminate |].
  cbn in H |- *. destruct (String.eqb k "main"); [injection H as ->; reflexivity | exact (IH H)].
Qed.

Lemma hashlib_compare_digest_unresolved :
  load_attr cpython311 script_globals "hashlib" "compare_digest"
  = Raise (AttributeError "hashlib" "compare_digest").
Proof. vm_compute. reflexivity. Qed.

Lemma hmac_compare_digest_unbound :
  load_attr cpython311 script_globals "hmac" "compare_digest" = Raise (NameError "hmac").
Proof. vm_compute. reflexivity. Qed.

Lemma hmac_compare_digest_imported :
  load_attr cpython311 fixed_globals "hmac" "compare_digest" = Ok B_compare_digest.
Proof. vm_compute. reflexivity. Qed.

(** The names a statement binds. *)
Definition stmt_binds (s : stmt) : list string :=
  match s with
  | SImport (c :: _) => [c]
  | SImport [] => []
  | SImportFrom _ names => names
  | SDef f => [f]
  end.

Lemma in_of_existsb (l : list string) (n : string) :
  existsb (String.eqb n) l = true -> In n l.
Proof.
  induction l as [| x l IH]; cbn; [discriminate |].
  intros H. apply orb_true_iff in H as [H | H]; [left; symmetry; apply String.eqb_eq, H | right; auto].
Qed.

Lemma lookup_name_cons (k n : string) (v : gvalue) (ns : namespace) :
  lookup_name ((k, v) :: ns) n <> None <-> k = n \/ lookup_name ns n <> None.
Proof.
  cbn. destruct (String.eqb_spec k n) as [-> | Hk].
  - split; [auto | intros _; discriminate].
  - split; [auto | intros [? | ?]; [contradiction | assumption]].
Qed.

Lemma bind_names_binds (inst : installed) (path : list string) (m : module) (names : list string)
    (ns ns' : namespace) :
  bind_names inst path m names ns = Ok ns' ->
  forall n, lookup_name ns' n <> None <-> In n names \/ lookup_name ns n <> None.
Proof.
  revert ns. induction names as [| x names IH]; intros ns H n; cbn in H.
  - injection H as <-. cbn. tauto.
  - destruct (from_name inst path m x) as [v | e]; [| discriminate]. cbn in H.
    rewrite (IH _ H n), lookup_name_cons. cbn [In]. tauto.
Qed.

(** What a statement adds to the namespace is exactly the names it binds. *)
Lemma exec_stmt_binds (inst : installed) (ns ns' : namespace) (s : stmt) :
  exec_stmt inst ns s = Ok ns' ->
  forall n, lookup_name ns' n <> None <-> In n (stmt_binds s) \/ lookup_name ns n <> None.
Proof.
  destruct s as [path | path names | f]; cbn.
  - destruct (import_module inst path); [| discriminate]. cbn.
    destruct path as [| c path]; intros H; injection H as <-; intros n;
      [cbn; tauto | rewrite lookup_name_cons; cbn; tauto].
  - destruct (import_module inst path) as [m |]; [| discriminate]. cbn. apply bind_names_binds.
  - intros H. injection H as <-. intros n. rewrite lookup_name_cons. cbn. tauto.
Qed.

Lemma exec_module_binds (inst : installed) (ss : list stmt) (ns ns' : namespace) :
  exec_module inst ss ns = Ok ns' ->
  forall n, lookup_name ns' n <> None <-> In n (flat_map stmt_binds ss) \/ lookup_name ns n <> None.
Proof.
  revert ns. induction ss as [| s ss IH]; intros ns H n; cbn in H.
  - injection H as <-. cbn. tauto.
  - destruct (exec_stmt inst ns s) as [ns1 |] eqn:E; [| discriminate]. cbn in H.
    rewrite (IH _ H n), (exec_stmt_binds _ _ _ _ E n). cbn [flat_map]. rewrite in_app_iff. tauto.
Qed.

Lemma load_global_resolves (ns : namespace) (n : string) :
  lookup_name ns n <> None \/ existsb (String.eqb n) builtin_names = true ->
  exists v, load_global ns n = Ok v.
Proof.
  unfold load_global. destruct (lookup_name ns n); [eauto |].
  intros [H | H]; [contradiction | rewrite H; eauto].
Qed.

(** ** Theorems *)

(** C5: Name resolution of the script, under any installation: once the
    top level has run, every global name that [generate_pbkdf2_hash],
    [verify_pbkdf2_hash], [main] and lines 129-130 read is bound, by an
    import of lines 6-10, a [def], the interpreter ([__name__]) or
    [builtins]; and [hmac] is not bound, so reading it raises
    [NameError]. *)
Theorem script_names_resolve (inst : installed) (modname : string) (ns : namespace) :
  exec_module inst script_module (initial_globals modname) = Ok ns ->
  Forall (fun n => exists v, load_global ns n = Ok v)
         (generate_globals ++ verify_globals ++ main_globals ++ entry_globals)%list /\
  load_global ns "hmac" = Raise (NameError "hmac").
Proof.
  intros H. pose proof (exec_module_binds _ _ _ _ H) as Hb. split.
  - apply Forall_forall. intros n Hn. apply load_global_resolves.
    cbn in Hn. repeat destruct Hn as [<- | Hn]; try contradiction;
      first [right; reflexivity
            | left; apply Hb; left; apply in_of_existsb; reflexivity
            | left; apply Hb; right; cbn; discriminate].
  - unfold load_global. destruct (lookup_name ns "hmac") as [v |] eqn:E; [| reflexivity].
    exfalso. assert (Hv : lookup_name ns "hmac" <> None) by (rewrite E; discriminate).
    apply Hb in Hv as [Hi | Hi]; [| cbn in Hi; contradiction].
    cbn in Hi. repeat destruct Hi as [Hi | Hi]; try discriminate; contradiction.
Qed.

(** ** Witness *)

Lemma script_names_resolve_witness :
  exec_module cpython311 script_module (initial_globals "__main__") = Ok script_globals /\
  load_global script_globals "hmac" = Raise (NameError "hmac").
Proof.
  assert (H : exec_module cpython311 script_module (initial_globals "__main__") = Ok script_globals)
    by (vm_compute; reflexivity).
  split; [exact H | exact (proj2 (script_names_resolve _ _ _ H))].
Defined.
