(* ===== verification/Utf8.v ===== *)
(** * UTF-8: [str.encode('utf-8')] and [bytes.decode('utf-8')]

    Lines 25-26 and 69-70 of the script encode a [str] password; lines
    44-45 decode the base64 text of the salt and key back into a [str].
    Both are CPython's strict codec:

    - [utf8_encode]: code points are written on one to four bytes
      ([utf8_char], the shifts of [PyUnicode_EncodeUTF8]), and a
      surrogate raises [UnicodeEncodeError] over the run of surrogates
      that starts there;
    - [utf8_decode]: the well-formed byte sequences of the Unicode
      standard (table 3-7), any other byte raising [UnicodeDecodeError]
      with CPython's reason.

    Theorems: encoding a string without surrogates succeeds with one to
    four bytes per code point and keeps ASCII unchanged; a surrogate
    makes it raise at its position; ASCII bytes decode to themselves;
    and decoding the encoding of any [str] without surrogates gives it
    back (the codec's round trip), character by character through
    [utf8_decode_char]. *)

From Stdlib Require Import String ZArith List Lia Bool.
From S2P Require Import Prelude PyRuntime.
Import ListNotations.
Open Scope Z_scope.

(** ** [str.encode('utf-8')] *)

Definition is_surrogate (c : Z) : bool := (0xD800 <=? c) && (c <=? 0xDFFF).

(** The code points a Python [str] can hold. *)
Definition pystr_ok (s : list Z) : bool := forallb (fun c => (0 <=? c) && (c <=? 0x10FFFF)) s.

(** One code point that is not a surrogate. *)
Definition utf8_char (c : Z) : list Z :=
  if c <? 0x80 then [c]
  else if c <? 0x800 then
    [Z.lor 0xc0 (Z.shiftr c 6); Z.lor 0x80 (Z.land c 0x3f)]
  else if c <? 0x10000 then
    [Z.lor 0xe0 (Z.shiftr c 12); Z.lor 0x80 (Z.land (Z.shiftr c 6) 0x3f);
     Z.lor 0x80 (Z.land c 0x3f)]
  else
    [Z.lor 0xf0 (Z.shiftr c 18); Z.lor 0x80 (Z.land (Z.shiftr c 12) 0x3f);
     Z.lor 0x80 (Z.land (Z.shiftr c 6) 0x3f); Z.lor 0x80 (Z.land c 0x3f)].

(** The length of the run of surrogates at the head of [s]. *)
Fixpoint surrogate_run (s : list Z) : nat :=
  match s with
  | c :: s' => if is_surrogate c then S (surrogate_run s') else O
  | [] => O
  end.

Fixpoint utf8_encode_from (pos : nat) (s : list Z) : result (list Z) :=
  match s with
  | [] => Ok []
  | c :: s' =>
      if is_surrogate c then Raise (UnicodeEncodeError c pos (pos + surrogate_run s))
      else (rest <- utf8_encode_from (S pos) s' ;; Ok (utf8_char c ++ rest))
  end.

Definition utf8_encode (s : list Z) : result (list Z) := utf8_encode_from 0 s.

(** A [str] the encoder accepts. *)
Definition no_surrogates (s : list Z) : bool := forallb (fun c => negb (is_surrogate c)) s.

(** ** [bytes.decode('utf-8')] *)

Definition in_range (lo hi b : Z) : bool := (lo <=? b) && (b <=? hi).
Definition is_cont (b : Z) : bool := in_range 0x80 0xBF b.

(** CPython's strict decoder, on the well-formed sequences of the
    Unicode standard (table 3-7); [pos] is the index of [b] in the
    whole buffer. *)
Fixpoint utf8_decode_from (pos : nat) (bs : list Z) : result (list Z) :=
  match bs with
  | [] => Ok []
  | b :: rest =>
      if b <? 0x80 then (r <- utf8_decode_from (S pos) rest ;; Ok (b :: r))
      else if in_range 0xC2 0xDF b then
        match rest with
        | c1 :: rest' =>
            if is_cont c1 then
              (r <- utf8_decode_from (S (S pos)) rest' ;;
               Ok ((Z.land b 0x1f * 64 + Z.land c1 0x3f) :: r))
            else Raise (UnicodeDecodeError b pos "invalid continuation byte")
        | [] => Raise (UnicodeDecodeError b pos "unexpected end of data")
        end
      else if in_range 0xE0 0xEF b then
        match rest with
        | c1 :: c2 :: rest' =>
            let lo := if b =? 0xE0 then 0xA0 else 0x80 in
            let hi := if b =? 0xED then 0x9F else 0xBF in
            if in_range lo hi c1 && is_cont c2 then
              (r <- utf8_decode_from (pos + 3) rest' ;;
               Ok ((Z.land b 0x0f * 4096 + Z.land c1 0x3f * 64 + Z.land c2 0x3f) :: r))
            else Raise (UnicodeDecodeError b pos "invalid continuation byte")
        | _ => Raise (UnicodeDecodeError b pos "unexpected end of data")
        end
      else if in_range 0xF0 0xF4 b then
        match rest with
        | c1 :: c2 :: c3 :: rest' =>
            let lo := if b =? 0xF0 then 0x90 else 0x80 in
            let hi := if b =? 0xF4 then 0x8F else 0xBF in
            if in_range lo hi c1 && is_cont c2 && is_cont c3 then
              (r <- utf8_decode_from (pos + 4) rest' ;;
               Ok ((Z.land b 0x07 * 262144 + Z.land c1 0x3f * 4096 + Z.land c2 0x3f * 64
                    + Z.land c3 0x3f) :: r))
            else Raise (UnicodeDecodeError b pos "invalid continuation byte")
        | _ => Raise (UnicodeDecodeError b pos "unexpected end of data")
        end
      else Raise (UnicodeDecodeError b pos "invalid start byte")
  end.

Definition utf8_decode (bs : list Z) : result (list Z) := utf8_decode_from 0 bs.

(** ** UTF-8 encoding *)

Lemma length_utf8_char (c : Z) :
  (1 <= length (utf8_char c) <= 4)%nat.
Proof.
  unfold utf8_char.
  destruct (c <? 0x80), (c <? 0x800), (c <? 0x10000); simpl; lia.
Qed.

Lemma utf8_char_ascii (c : Z) : c < 0x80 -> utf8_char c = [c].
Proof. intros H. unfold utf8_char. rewrite (proj2 (Z.ltb_lt _ _) H). reflexivity. Qed.

(** A string without surrogates encodes, on one to four bytes per code
    point. *)
Lemma utf8_encode_from_ok (pos : nat) (s : list Z) :
  no_surrogates s = true ->
  exists bs, utf8_encode_from pos s = Ok bs /\ (length s <= length bs <= 4 * length s)%nat.
Proof.
  revert pos; induction s as [| c s IH]; intros pos Hs; simpl in *.
  { exists []. split; [reflexivity | simpl; lia]. }
  apply andb_prop in Hs as [Hc Hs]. apply negb_true_iff in Hc. rewrite Hc.
  destruct (IH (S pos) Hs) as [bs [-> Hlen]]. cbn [bind].
  eexists; split; [reflexivity |].
  rewrite length_app. pose proof (length_utf8_char c). lia.
Qed.

(** C35: a string without surrogates encodes to UTF-8, on one to four
    bytes per code point. *)
Theorem utf8_encode_ok (s : list Z) :
  no_surrogates s = true ->
  exists bs, utf8_encode s = Ok bs /\ (length s <= length bs <= 4 * length s)%nat.
Proof. apply utf8_encode_from_ok. Qed.

(** An ASCII string encodes to its own code points. *)
Theorem utf8_encode_ascii (s : list Z) :
  pystr_ok s = true -> is_ascii_str s = true -> utf8_encode s = Ok s.
Proof.
  unfold utf8_encode. generalize 0%nat.
  induction s as [| c s IH]; intros pos Hok Hs; simpl in *; [reflexivity |].
  apply andb_prop in Hok as [Hc Hok]. apply andb_prop in Hs as [Ha Hs].
  apply andb_prop in Hc as [Hc0 _]. apply Z.leb_le in Hc0. apply Z.ltb_lt in Ha.
  unfold is_surrogate. rewrite (proj2 (Z.leb_gt 0xD800 c)) by lia. simpl.
  rewrite (IH (S pos) Hok Hs). simpl. rewrite utf8_char_ascii by lia. reflexivity.
Qed.

(** The first surrogate makes the encoder raise, over the run of
    surrogates that starts there. *)
Theorem utf8_encode_surrogate (pre rest : list Z) (c : Z) :
  no_surrogates pre = true -> is_surrogate c = true ->
  utf8_encode (pre ++ c :: rest)
  = Raise (UnicodeEncodeError c (length pre) (length pre + surrogate_run (c :: rest))).
Proof.
  unfold utf8_encode. intros Hpre Hc.
  enough (forall pos, utf8_encode_from pos (pre ++ c :: rest)
            = Raise (UnicodeEncodeError c (pos + length pre) (pos + length pre + surrogate_run (c :: rest))))
    as H by apply H.
  induction pre as [| d pre IH]; intros pos; simpl in *.
  - rewrite Hc, Nat.add_0_r. reflexivity.
  - apply andb_prop in Hpre as [Hd Hpre]. apply negb_true_iff in Hd. rewrite Hd.
    rewrite IH by exact Hpre. simpl. f_equal. f_equal; lia.
Qed.

(** ** UTF-8 decoding *)

(** ASCII bytes decode to the same code points. *)
Lemma utf8_decode_ascii (bs : list Z) :
  is_ascii_str bs = true -> utf8_decode bs = Ok bs.
Proof.
  unfold utf8_decode. generalize 0%nat as pos.
  induction bs as [| b bs IH]; intros pos Hs; [reflexivity |].
  simpl in Hs. apply andb_prop in Hs as [Hb Hs]. cbn [utf8_decode_from].
  rewrite Hb, IH by exact Hs. reflexivity.
Qed.

Example utf8_decode_two_bytes : utf8_decode [0xC3; 0xA9] = Ok [0xE9].
Proof. reflexivity. Qed.

(** ** The round trip

    The encoder's shifts and masks, read back as arithmetic: each
    continuation byte is [0x80] plus six bits of the code point, the
    lead byte its high bits under the length marker. *)

Create Rewrite HintDb utf8_shift.

Lemma land_0x3f (x : Z) : Z.land x 0x3f = x mod 64.
Proof. exact (Z.land_ones x 6 ltac:(lia)). Qed.
Lemma land_0x1f (x : Z) : Z.land x 0x1f = x mod 32.
Proof. exact (Z.land_ones x 5 ltac:(lia)). Qed.
Lemma land_0x0f (x : Z) : Z.land x 0x0f = x mod 16.
Proof. exact (Z.land_ones x 4 ltac:(lia)). Qed.
Lemma land_0x07 (x : Z) : Z.land x 0x07 = x mod 8.
Proof. exact (Z.land_ones x 3 ltac:(lia)). Qed.
Lemma shiftr_6 (x : Z) : Z.shiftr x 6 = x / 64.
Proof. exact (Z.shiftr_div_pow2 x 6 ltac:(lia)). Qed.
Lemma shiftr_12 (x : Z) : Z.shiftr x 12 = x / 4096.
Proof. exact (Z.shiftr_div_pow2 x 12 ltac:(lia)). Qed.
Lemma shiftr_18 (x : Z) : Z.shiftr x 18 = x / 262144.
Proof. exact (Z.shiftr_div_pow2 x 18 ltac:(lia)). Qed.

Lemma lor_0x80 (b : Z) : 0 <= b < 64 -> Z.lor 0x80 b = 0x80 + b.
Proof. intros. apply (lor_low_add _ _ 6); [lia | reflexivity | exact H]. Qed.
Lemma lor_0xc0 (b : Z) : 0 <= b < 32 -> Z.lor 0xc0 b = 0xc0 + b.
Proof. intros. apply (lor_low_add _ _ 5); [lia | reflexivity | exact H]. Qed.
Lemma lor_0xe0 (b : Z) : 0 <= b < 16 -> Z.lor 0xe0 b = 0xe0 + b.
Proof. intros. apply (lor_low_add _ _ 4); [lia | reflexivity | exact H]. Qed.
Lemma lor_0xf0 (b : Z) : 0 <= b < 8 -> Z.lor 0xf0 b = 0xf0 + b.
Proof. intros. apply (lor_low_add _ _ 3); [lia | reflexivity | exact H]. Qed.

#[export] Hint Rewrite land_0x3f land_0x1f land_0x0f land_0x07 shiftr_6 shiftr_12 shiftr_18
  : utf8_shift.

(** [lia] after the division and modulo by constants are turned into
    equations. *)
Ltac zlia := Z.div_mod_to_equations; lia.

(** The [lor] of a marker and the bits below it, as a sum. *)
Ltac lor_add :=
  repeat first [ rewrite lor_0x80 by zlia | rewrite lor_0xc0 by zlia
               | rewrite lor_0xe0 by zlia | rewrite lor_0xf0 by zlia ].

(** Decide every comparison of the goal whose outcome [lia] knows. *)
Ltac zcmp :=
  repeat (cbn [andb negb];
    match goal with
    | |- context [?a <? ?b] =>
        first [ rewrite (proj2 (Z.ltb_lt a b)) by zlia | rewrite (proj2 (Z.ltb_ge a b)) by zlia ]
    | |- context [?a <=? ?b] =>
        first [ rewrite (proj2 (Z.leb_le a b)) by zlia | rewrite (proj2 (Z.leb_gt a b)) by zlia ]
    | |- context [?a =? ?b] =>
        first [ rewrite (proj2 (Z.eqb_eq a b)) by zlia | rewrite (proj2 (Z.eqb_neq a b)) by zlia ]
    end); cbn [andb negb].

(** The two sides of a decoding step agree once the positions and the
    decoded code point do. *)
Ltac decode_step_done :=
  match goal with
  | |- bind (utf8_decode_from ?p1 ?r) _ = bind (utf8_decode_from ?p2 ?r) _ =>
      replace p2 with p1 by lia; destruct (utf8_decode_from p1 r); cbn [bind];
      [first [reflexivity | f_equal; f_equal;  zlia] | reflexivity]
  end.

Ltac decode_char :=
  try solve [exfalso; zlia];
  autorewrite with utf8_shift; lor_add;
  cbn [app length utf8_decode_from]; unfold is_cont, in_range; zcmp;
  autorewrite with utf8_shift; decode_step_done.

(** One code point: the decoder reads back what [utf8_char] wrote. *)
Lemma utf8_decode_char (pos : nat) (c : Z) (rest : list Z) :
  0 <= c <= 0x10FFFF -> is_surrogate c = false ->
  utf8_decode_from pos (utf8_char c ++ rest)
  = (r <- utf8_decode_from (pos + length (utf8_char c)) rest ;; Ok (c :: r)).
Proof.
  intros Hc Hs. unfold is_surrogate in Hs.
  assert (Hns : c < 0xD800 \/ 0xDFFF < c)
    by (destruct (Z.leb_spec 0xD800 c), (Z.leb_spec c 0xDFFF); simpl in Hs; lia || discriminate).
  clear Hs. unfold utf8_char.
  destruct (Z.ltb_spec c 0x80); [decode_char |].
  destruct (Z.ltb_spec c 0x800); [decode_char |].
  destruct (Z.ltb_spec c 0x10000).
  - destruct (Z.eqb_spec (c / 4096) 0), (Z.eqb_spec (c / 4096) 13); decode_char.
  - destruct (Z.eqb_spec (c / 262144) 0), (Z.eqb_spec (c / 262144) 4); decode_char.
Qed.

Lemma utf8_roundtrip_from (p q : nat) (s : list Z) :
  pystr_ok s = true -> no_surrogates s = true ->
  (bs <- utf8_encode_from p s ;; utf8_decode_from q bs) = Ok s.
Proof.
  revert p q. induction s as [| c s IH]; intros p q Hok Hs; [reflexivity |].
  cbn [pystr_ok no_surrogates forallb] in Hok, Hs.
  apply andb_prop in Hok as [Hc Hok]. apply andb_prop in Hs as [Hsur Hs].
  apply negb_true_iff in Hsur. rewrite andb_true_iff, Z.leb_le, Z.leb_le in Hc.
  destruct (utf8_encode_from_ok (S p) s Hs) as (bs & Hbs & _).
  specialize (IH (S p) (q + length (utf8_char c))%nat Hok Hs). rewrite Hbs in IH.
  cbn [utf8_encode_from]. rewrite Hsur, Hbs. cbn [bind].
  rewrite utf8_decode_char by assumption. cbn [bind] in IH. rewrite IH. reflexivity.
Qed.

(** Round trip of the codec: a [str] without surrogates, encoded to
    UTF-8 and decoded again, is the same [str]. *)
Theorem utf8_decode_encode (s : list Z) :
  pystr_ok s = true -> no_surrogates s = true ->
  (bs <- utf8_encode s ;; utf8_decode bs) = Ok s.
Proof. apply utf8_roundtrip_from. Qed.

(** ** The decoder accepts only what the encoder writes

    Each well-formed sequence of table 3-7 decodes to a code point whose
    encoding is that very sequence: the ranges the decoder checks rule
    out overlong forms, surrogates and values past [0x10FFFF]. *)

Ltac zfacts :=
  repeat match goal with
  | H : _ && _ = true |- _ => apply andb_prop in H as [? ?]
  | H : (_ <=? _) = true |- _ => apply Z.leb_le in H
  | H : (_ <=? _) = false |- _ => apply Z.leb_gt in H
  | H : (_ <? _) = true |- _ => apply Z.ltb_lt in H
  | H : (_ <? _) = false |- _ => apply Z.ltb_ge in H
  | H : (_ =? _) = true |- _ => apply Z.eqb_eq in H
  | H : (_ =? _) = false |- _ => apply Z.eqb_neq in H
  end.

(** [utf8_char v] is the list [bs], element by element. *)
Ltac char_is :=
  unfold utf8_char, is_surrogate; zcmp; autorewrite with utf8_shift; lor_add;
  repeat first [ reflexivity | apply f_equal2; [zlia |] ].

Lemma utf8_char_2 (b c1 : Z) :
  0xC2 <= b <= 0xDF -> 0x80 <= c1 <= 0xBF ->
  let v := Z.land b 0x1f * 64 + Z.land c1 0x3f in
  0 <= v <= 0x10FFFF /\ is_surrogate v = false /\ utf8_char v = [b; c1].
Proof.
  intros Hb Hc v. subst v. autorewrite with utf8_shift.
  split; [zlia | split; char_is].
Qed.

Lemma utf8_char_3 (b c1 c2 : Z) :
  0xE0 <= b <= 0xEF -> (b = 0xE0 -> 0xA0 <= c1) -> (b = 0xED -> c1 <= 0x9F) ->
  0x80 <= c1 <= 0xBF -> 0x80 <= c2 <= 0xBF ->
  let v := Z.land b 0x0f * 4096 + Z.land c1 0x3f * 64 + Z.land c2 0x3f in
  0 <= v <= 0x10FFFF /\ is_surrogate v = false /\ utf8_char v = [b; c1; c2].
Proof.
  intros Hb H0 H13 Hc1 Hc2 v. subst v. autorewrite with utf8_shift.
  split; [zlia |].
  destruct (Z.lt_total b 0xED) as [Hlt | [Heq | Hgt]]; split; char_is.
Qed.

Lemma utf8_char_4 (b c1 c2 c3 : Z) :
  0xF0 <= b <= 0xF4 -> (b = 0xF0 -> 0x90 <= c1) -> (b = 0xF4 -> c1 <= 0x8F) ->
  0x80 <= c1 <= 0xBF -> 0x80 <= c2 <= 0xBF -> 0x80 <= c3 <= 0xBF ->
  let v := Z.land b 0x07 * 262144 + Z.land c1 0x3f * 4096 + Z.land c2 0x3f * 64
           + Z.land c3 0x3f in
  0 <= v <= 0x10FFFF /\ is_surrogate v = false /\ utf8_char v = [b; c1; c2; c3].
Proof.
  intros Hb H0 H4 Hc1 Hc2 Hc3 v. subst v. autorewrite with utf8_shift.
  split; [zlia | split; char_is].
Qed.

(** Split the decoder's step in [H] down to the recursive call. *)
Ltac dec_split H :=
  repeat (try discriminate H;
    lazymatch type of H with
    | (if ?c then _ else _) = _ => let E := fresh "E" in destruct c eqn:E
    | (match ?l with _ => _ end) = _ => destruct l
    end).

(** Read the bounds the decoder checked off the boolean tests. *)
Ltac range_facts :=
  byte_facts; unfold is_cont, in_range in *;
  repeat match goal with
  | H : context [if ?a =? ?b then _ else _] |- _ => revert H; destruct (Z.eqb_spec a b); intros H
  end; zfacts.

(** The lemma on the sequence the decoder has just read in [H]. *)
Ltac char_fact H :=
  lazymatch type of H with
  | bind _ (fun _ => Ok ((Z.land ?b 0x1f * 64 + Z.land ?c1 0x3f) :: _)) = _ =>
      constr:(utf8_char_2 b c1 ltac:(lia) ltac:(lia))
  | bind _ (fun _ => Ok ((Z.land ?b 0x0f * 4096 + Z.land ?c1 0x3f * 64 + Z.land ?c2 0x3f) :: _))
    = _ =>
      constr:(utf8_char_3 b c1 c2 ltac:(lia) ltac:(lia) ltac:(lia) ltac:(lia) ltac:(lia))
  | bind _ (fun _ => Ok ((Z.land ?b 0x07 * 262144 + Z.land ?c1 0x3f * 4096
                          + Z.land ?c2 0x3f * 64 + Z.land ?c3 0x3f) :: _)) = _ =>
      constr:(utf8_char_4 b c1 c2 c3 ltac:(lia) ltac:(lia) ltac:(lia) ltac:(lia) ltac:(lia)
                          ltac:(lia))
  end.

(** A decoded code point [v] and the tail [r]: [v :: r] is a [str] whose
    encoding is the bytes read. *)
Ltac inv_finish IH H :=
  let Hch := char_fact H in
  apply bind_ok_inv in H as (r & Hr & Hs); injection Hs as <-;
  destruct (IH _ _ _ Hr ltac:(simpl in *; lia) ltac:(assumption)) as [Hok Henc];
  destruct Hch as (Hv & Hsur & Hc); split;
  [ unfold pystr_ok in *; cbn [forallb]; rewrite Hok, (proj2 (Z.leb_le _ _)), (proj2 (Z.leb_le _ _)) by lia;
    reflexivity
  | intros q; cbn [utf8_encode_from]; rewrite Hsur, (Henc (S q)); cbn [bind]; rewrite Hc;
    reflexivity ].

Lemma utf8_decode_from_inv (n : nat) (bs : list Z) (p : nat) (s : list Z) :
  utf8_decode_from p bs = Ok s -> (length bs <= n)%nat -> bytes_ok bs = true ->
  pystr_ok s = true /\ forall q, utf8_encode_from q s = Ok bs.
Proof.
  revert bs p s. induction n as [| n IH]; intros bs p s H Hlen Hb.
  { destruct bs; [injection H as <-; split; reflexivity | simpl in Hlen; lia]. }
  destruct bs as [| b rest]; [injection H as <-; split; reflexivity |].
  cbn [utf8_decode_from] in H. byte_facts. dec_split H; range_facts.
  1: { apply bind_ok_inv in H as (r & Hr & Hs); injection Hs as <-.
    destruct (IH rest _ _ Hr ltac:(simpl in *; lia) ltac:(assumption)) as [Hok Henc].
    split.
    + unfold pystr_ok in *. cbn [forallb]. rewrite Hok. zcmp. reflexivity.
    + intros q. cbn [utf8_encode_from]. unfold is_surrogate. zcmp.
      rewrite (Henc (S q)). cbn [bind]. rewrite utf8_char_ascii by lia. reflexivity. }
  all: inv_finish IH H.
Qed.

Lemma utf8_encode_from_no_surrogates (p : nat) (s bs : list Z) :
  utf8_encode_from p s = Ok bs -> no_surrogates s = true.
Proof.
  revert p bs. induction s as [| c s IH]; intros p bs H; [reflexivity |].
  cbn [utf8_encode_from] in H. cbn [no_surrogates forallb].
  destruct (is_surrogate c); [discriminate |].
  apply bind_ok_inv in H as (rest & Hr & _). exact (IH _ _ Hr).
Qed.

(** C33: The strict decoder is the inverse of the encoder: a byte string
    decodes to a [str] exactly when it is the UTF-8 encoding of that
    [str]; overlong forms, surrogates and values past [U+10FFFF] are
    rejected. *)
Theorem utf8_decode_iff_encode (bs s : list Z) :
  bytes_ok bs = true ->
  utf8_decode bs = Ok s <-> pystr_ok s = true /\ utf8_encode s = Ok bs.
Proof.
  intros Hb. split.
  - intros H. destruct (utf8_decode_from_inv (length bs) bs 0 s H (le_n _) Hb) as [Hok Henc].
    exact (conj Hok (Henc 0%nat)).
  - intros [Hok He]. pose proof (utf8_roundtrip_from 0 0 s Hok
                                   (utf8_encode_from_no_surrogates _ _ _ He)) as Hr.
    unfold utf8_encode in He. rewrite He in Hr. exact Hr.
Qed.

(** ** Witnesses *)

Lemma utf8_encode_ok_witness :
  no_surrogates [0x48; 0xE9; 0x20AC; 0x1F600] = true /\
  exists bs, utf8_encode [0x48; 0xE9; 0x20AC; 0x1F600] = Ok bs /\ (4 <= length bs <= 16)%nat.
Proof. split; [reflexivity | apply utf8_encode_ok; reflexivity]. Defined.

Lemma utf8_encode_ascii_witness :
  pystr_ok (lit "pw") = true /\ is_ascii_str (lit "pw") = true /\
  utf8_encode (lit "pw") = Ok (lit "pw").
Proof. split; [reflexivity | split; [reflexivity | apply utf8_encode_ascii; reflexivity]]. Defined.

Lemma utf8_decode_encode_witness :
  pystr_ok [0x48; 0xE9; 0x20AC; 0x1F600] = true /\
  no_surrogates [0x48; 0xE9; 0x20AC; 0x1F600] = true /\
  (bs <- utf8_encode [0x48; 0xE9; 0x20AC; 0x1F600] ;; utf8_decode bs)
  = Ok [0x48; 0xE9; 0x20AC; 0x1F600].
Proof. split; [reflexivity | split; [reflexivity | apply utf8_decode_encode; reflexivity]]. Defined.

Lemma utf8_decode_iff_encode_witness :
  bytes_ok [0xC3; 0xA9] = true /\
  (utf8_decode [0xC3; 0xA9] = Ok [0xE9]
   <-> pystr_ok [0xE9] = true /\ utf8_encode [0xE9] = Ok [0xC3; 0xA9]).
Proof. split; [reflexivity | apply utf8_decode_iff_encode; reflexivity]. Defined.
