(* ===== verification/Words.v ===== *)
(** * 32-bit words and big-endian byte order

    SHA-256 computes on 32-bit unsigned words (FIPS 180-4, section 2.2.2)
    and reads and writes them in big-endian byte order (section 3.1);
    PBKDF2 writes its block index the same way (RFC 8018, [INT(i)]). A
    word is a [Z] in [0, 2^32); every operation writes its wrap-around
    out. The lemmas show each operation stays in range, that [rotr32]
    is a rotation bit by bit, and that big-endian splitting and
    combining are inverse. *)

From Stdlib Require Import ZArith List Lia Bool.
From S2P Require Import Prelude.
Import ListNotations.
Open Scope Z_scope.

Section Word32.

(** ** Operations on 32-bit words *)

Definition w32_ok (x : Z) : bool := (0 <=? x) && (x <? 2 ^ 32).

(** Addition modulo [2^32]. *)
Definition add32 (x y : Z) : Z := (x + y) mod 2 ^ 32.

(** [SHR^n(x) = x >> n]. *)
Definition shr32 (n x : Z) : Z := Z.shiftr x n.

(** [ROTR^n(x) = (x >> n) | (x << (32 - n))], the left shift truncated
    to 32 bits. *)
Definition rotr32 (n x : Z) : Z :=
  Z.lor (Z.shiftr x n) (Z.shiftl x (32 - n) mod 2 ^ 32).

(** The one's complement [~x] of a 32-bit word. *)
Definition not32 (x : Z) : Z := Z.lxor x (Z.ones 32).

Lemma w32_ok_spec (x : Z) : w32_ok x = true <-> 0 <= x < 2 ^ 32.
Proof. unfold w32_ok. rewrite andb_true_iff, Z.leb_le, Z.ltb_lt. lia. Qed.

Lemma add32_range (x y : Z) : 0 <= add32 x y < 2 ^ 32.
Proof. apply Z.mod_pos_bound. lia. Qed.

Lemma shr32_range (n x : Z) : 0 <= n -> 0 <= x < 2 ^ 32 -> 0 <= shr32 n x < 2 ^ 32.
Proof. apply shiftr_range. Qed.

Lemma rotr32_range (n x : Z) :
  0 <= n -> 0 <= x < 2 ^ 32 -> 0 <= rotr32 n x < 2 ^ 32.
Proof.
  intros Hn Hx. apply lor_range; [lia | apply shiftr_range; lia |].
  apply Z.mod_pos_bound. lia.
Qed.

Lemma not32_range (x : Z) : 0 <= x < 2 ^ 32 -> 0 <= not32 x < 2 ^ 32.
Proof.
  intros Hx. apply lxor_range; [lia | exact Hx |].
  rewrite Z.ones_equiv. simpl. lia.
Qed.

Lemma lxor32_range (x y : Z) :
  0 <= x < 2 ^ 32 -> 0 <= y < 2 ^ 32 -> 0 <= Z.lxor x y < 2 ^ 32.
Proof. apply lxor_range. lia. Qed.

Lemma land32_range (x y : Z) :
  0 <= x < 2 ^ 32 -> 0 <= y -> 0 <= Z.land x y < 2 ^ 32.
Proof. apply land_range_l. lia. Qed.

(** [rotr32] is a rotation: bit [i] of the result is bit [(i + n) mod 32]
    of the argument. *)
Lemma rotr32_spec (n x i : Z) :
  0 < n < 32 -> 0 <= x < 2 ^ 32 -> 0 <= i < 32 ->
  Z.testbit (rotr32 n x) i = Z.testbit x ((i + n) mod 32).
Proof.
  intros Hn Hx Hi. unfold rotr32.
  rewrite Z.lor_spec, Z.shiftr_spec, Z.mod_pow2_bits_low by lia.
  destruct (Z.lt_ge_cases (i + n) 32).
  - rewrite Z.shiftl_spec_low by lia. rewrite orb_false_r, Z.mod_small by lia.
    reflexivity.
  - rewrite (testbit_high x 32) by lia. rewrite orb_false_l, Z.shiftl_spec by lia.
    f_equal. rewrite Zmod_eq_full by lia.
    assert (1 = (i + n) / 32) by (apply Z.div_unique with (i + n - 32); lia).
    lia.
Qed.

End Word32.

#[export] Hint Resolve add32_range shr32_range rotr32_range not32_range
  lxor32_range land32_range : pw.

(** ** Big-endian byte order *)

Section BigEndian.

(** Most significant byte first: [acc] is the value of the bytes read so
    far. *)
Fixpoint be_combine_acc (acc : Z) (bs : list Z) : Z :=
  match bs with
  | [] => acc
  | b :: bs' => be_combine_acc (Z.lor (Z.shiftl acc 8) b) bs'
  end.

Definition be_combine (bs : list Z) : Z := be_combine_acc 0 bs.

(** The low [n] bytes of [z], most significant first. *)
Fixpoint be_split (n : nat) (z : Z) : list Z :=
  match n with
  | O => []
  | S n' => be_split n' (Z.shiftr z 8) ++ [Z.land z 255]
  end.

Lemma length_be_split (n : nat) (z : Z) : length (be_split n z) = n.
Proof.
  revert z; induction n as [| n IH]; intros z; simpl; auto.
  rewrite length_app, IH. simpl. lia.
Qed.

Lemma bytes_ok_be_split (n : nat) (z : Z) : bytes_ok (be_split n z) = true.
Proof.
  revert z; induction n as [| n IH]; intros z; simpl; auto.
  apply bytes_ok_app_intro; [apply IH |]. simpl.
  rewrite (proj2 (is_byte_spec _)); [reflexivity |].
  change 255 with (Z.ones 8). rewrite Z.land_ones by lia.
  apply Z.mod_pos_bound. lia.
Qed.

Lemma be_combine_acc_app (acc : Z) (a b : list Z) :
  be_combine_acc acc (a ++ b) = be_combine_acc (be_combine_acc acc a) b.
Proof. revert acc; induction a as [| x a IH]; intros acc; simpl; auto. Qed.

Lemma be_combine_acc_value (acc : Z) (bs : list Z) :
  bytes_ok bs = true ->
  be_combine_acc acc bs = acc * 2 ^ (8 * Z.of_nat (length bs)) + be_combine bs.
Proof.
  unfold be_combine. revert acc; induction bs as [| b bs IH]; intros acc Hok.
  - simpl. lia.
  - byte_facts.
    change (be_combine_acc acc (b :: bs)) with (be_combine_acc (Z.lor (Z.shiftl acc 8) b) bs).
    change (be_combine_acc 0 (b :: bs)) with (be_combine_acc (Z.lor (Z.shiftl 0 8) b) bs).
    rewrite (IH (Z.lor (Z.shiftl acc 8) b)), (IH (Z.lor (Z.shiftl 0 8) b)) by assumption.
    rewrite !lor_shiftl_add by (simpl; lia).
    rewrite length_cons, Nat2Z.inj_succ, Z.mul_succ_r, Z.pow_add_r by lia. simpl. nia.
Qed.

(** Combining the split of [z] gives [z] modulo [2^(8n)]. *)
Lemma be_combine_split (n : nat) (z : Z) :
  be_combine (be_split n z) = z mod 2 ^ (8 * Z.of_nat n).
Proof.
  revert z; induction n as [| n IH]; intros z.
  - simpl. rewrite Z.mod_1_r. reflexivity.
  - simpl be_split. unfold be_combine. rewrite be_combine_acc_app. fold (be_combine (be_split n (Z.shiftr z 8))).
    rewrite IH. cbn [be_combine_acc].
    change 255 with (Z.ones 8). rewrite Z.land_ones, Z.shiftr_div_pow2 by lia.
    rewrite lor_shiftl_add by (try apply Z.mod_pos_bound; lia).
    rewrite Nat2Z.inj_succ, Z.mul_succ_r, Z.pow_add_r by lia.
    change (2 ^ 8) with 256.
    assert (0 < 2 ^ (8 * Z.of_nat n)) by (apply Z.pow_pos_nonneg; lia).
    rewrite (Z.mul_comm (2 ^ (8 * Z.of_nat n)) 256), Z.rem_mul_r by lia. lia.
Qed.

(** Splitting the combination of [length bs] bytes gives them back. *)
Lemma be_split_combine (bs : list Z) :
  bytes_ok bs = true -> be_split (length bs) (be_combine bs) = bs.
Proof.
  intros Hok. rewrite <- (rev_involutive bs) in *.
  induction (rev bs) as [| b rbs IH]; [reflexivity |].
  simpl rev in *. rewrite bytes_ok_app in Hok. apply andb_prop in Hok as [Hok Hb].
  byte_facts. rewrite length_app. simpl length. rewrite Nat.add_1_r. simpl be_split.
  unfold be_combine. rewrite be_combine_acc_app. cbn [be_combine_acc].
  fold (be_combine (rev rbs)).
  rewrite lor_shiftl_add by (simpl; lia).
  change 255 with (Z.ones 8). rewrite Z.land_ones, Z.shiftr_div_pow2 by lia.
  change (2 ^ 8) with 256.
  rewrite Z.div_add_l, Z.div_small, Z.add_0_r, IH by (auto; lia).
  rewrite Z.add_comm, Z.mod_add, Z.mod_small by lia. reflexivity.
Qed.

(** Serialising a list of words, each on [k] bytes. *)
Lemma length_flat_map_be_split (k : nat) (ws : list Z) :
  length (flat_map (be_split k) ws) = (k * length ws)%nat.
Proof.
  induction ws as [| w ws IH]; cbn [flat_map length]; [lia |].
  rewrite length_app, length_be_split, IH. lia.
Qed.

Lemma bytes_ok_flat_map_be_split (k : nat) (ws : list Z) :
  bytes_ok (flat_map (be_split k) ws) = true.
Proof.
  induction ws as [| w ws IH]; cbn [flat_map]; [reflexivity |].
  apply bytes_ok_app_intro; [apply bytes_ok_be_split | exact IH].
Qed.

End BigEndian.

#[export] Hint Resolve bytes_ok_be_split : pw.
#[export] Hint Rewrite length_be_split : pw_rw.

(** ** Witnesses *)

Lemma rotr32_spec_witness :
  0 < 7 < 32 /\ 0 <= 0x12345678 < 2 ^ 32 /\ 0 <= 3 < 32 /\
  Z.testbit (rotr32 7 0x12345678) 3 = Z.testbit 0x12345678 ((3 + 7) mod 32).
Proof. split; [lia | split; [lia | split; [lia | apply rotr32_spec; lia]]]. Defined.

Lemma be_split_combine_witness :
  bytes_ok [1; 2; 255] = true /\ be_split (length [1; 2; 255]) (be_combine [1; 2; 255]) = [1; 2; 255].
Proof. split; [reflexivity | apply be_split_combine; reflexivity]. Defined.
