(* ===== verification/Sha256.v ===== *)
(** * SHA-256 (FIPS 180-4)

    [hashes.SHA256()], the hash that [generate_pbkdf2_hash] and
    [verify_pbkdf2_hash] pass to [PBKDF2HMAC] (source lines 34 and 78),
    is the SHA-256 of FIPS 180-4, computed by OpenSSL. This file models
    it from the standard: the padding of section 5.1.1, the message
    schedule and the 64 rounds of section 6.2.2 on a record of the eight
    working variables, and the loop over the 64-byte blocks.

    Theorems: the padded message is a whole number of blocks that starts
    with the message and ends with its bit length (so the block loop,
    which runs once per block, consumes it exactly); every intermediate
    hash value is a tuple of 32-bit words (an invariant of the
    compression function); the digest is 32 bytes; and the function
    agrees with the FIPS 180-2 test vectors. *)

From Stdlib Require Import String ZArith List Lia Bool.
From S2P Require Import Prelude Words.
Import ListNotations.
Open Scope Z_scope.

Section Sha256.

(** ** The initial hash value (section 5.3.3) *)

(** The eight working variables [a..h], and the hash value [H0..H7]. *)
Record hstate := mkH {
  va : Z; vb : Z; vc : Z; vd : Z; ve : Z; vf : Z; vg : Z; vh : Z }.

Definition H256_init : hstate :=
  mkH 0x6a09e667 0xbb67ae85 0x3c6ef372 0xa54ff53a
      0x510e527f 0x9b05688c 0x1f83d9ab 0x5be0cd19.

(** ** Functions of section 4.1.2 *)

Definition Ch (x y z : Z) : Z := Z.lxor (Z.land x y) (Z.land (not32 x) z).

Definition Maj (x y z : Z) : Z :=
  Z.lxor (Z.lxor (Z.land x y) (Z.land x z)) (Z.land y z).

Definition Sigma0 (x : Z) : Z := Z.lxor (Z.lxor (rotr32 2 x) (rotr32 13 x)) (rotr32 22 x).
Definition Sigma1 (x : Z) : Z := Z.lxor (Z.lxor (rotr32 6 x) (rotr32 11 x)) (rotr32 25 x).
Definition sigma0 (x : Z) : Z := Z.lxor (Z.lxor (rotr32 7 x) (rotr32 18 x)) (shr32 3 x).
Definition sigma1 (x : Z) : Z := Z.lxor (Z.lxor (rotr32 17 x) (rotr32 19 x)) (shr32 10 x).

(** ** Padding (section 5.1.1)

    A [1] bit (the byte [0x80]), then [k] zero bits with
    [l + 1 + k = 448 mod 512], then the bit length [l] on 64 bits.
    On bytes, the zero bytes number [(55 - len) mod 64]. *)

Definition pad_zeros (len : nat) : nat := Z.to_nat ((55 - Z.of_nat len) mod 64).

Definition sha256_pad (msg : list Z) : list Z :=
  msg ++ [128] ++ zeros (pad_zeros (length msg)) ++ be_split 8 (8 * Z.of_nat (length msg)).

(** ** Message schedule (section 6.2.2, step 1) *)

(** The first [n] big-endian words of a block. *)
Fixpoint be_words (n : nat) (bs : list Z) : list Z :=
  match n with
  | O => []
  | S n' => be_combine (firstn 4 bs) :: be_words n' (skipn 4 bs)
  end.

(** The 64 round constants [K_0 .. K_63] of section 4.2.2, written as
    their big-endian bytes in hexadecimal. *)
Definition K256 : list Z :=
  be_words 64 (hex_bytes ("428a2f9871374491b5c0fbcfe9b5dba53956c25b59f111f1923f82a4ab1c5ed5"
     ++ "d807aa9812835b01243185be550c7dc372be5d7480deb1fe9bdc06a7c19bf174"
     ++ "e49b69c1efbe47860fc19dc6240ca1cc2de92c6f4a7484aa5cb0a9dc76f988da"
     ++ "983e5152a831c66db00327c8bf597fc7c6e00bf3d5a7914706ca635114292967"
     ++ "27b70a852e1b21384d2c6dfc53380d13650a7354766a0abb81c2c92e92722c85"
     ++ "a2bfe8a1a81a664bc24b8b70c76c51a3d192e819d6990624f40e3585106aa070"
     ++ "19a4c1161e376c082748774c34b0bcb5391c0cb34ed8aa4a5b9cca4f682e6ff3"
     ++ "748f82ee78a5636f84c878148cc7020890befffaa4506cebbef9a3f7c67178f2")%string).

(** [W_t] for [t = length ws >= 16]. *)
Definition sched_next (ws : list Z) : Z :=
  let t := length ws in
  add32 (add32 (add32 (sigma1 (nth (t - 2) ws 0)) (nth (t - 7) ws 0))
               (sigma0 (nth (t - 15) ws 0)))
        (nth (t - 16) ws 0).

Fixpoint sched_extend (n : nat) (ws : list Z) : list Z :=
  match n with
  | O => ws
  | S n' => sched_extend n' (ws ++ [sched_next ws])
  end.

Definition schedule (block : list Z) : list Z := sched_extend 48 (be_words 16 block).

(** ** Compression (section 6.2.2, steps 2 to 4) *)

Definition sha_round (s : hstate) (kt wt : Z) : hstate :=
  let T1 := add32 (add32 (add32 (add32 (vh s) (Sigma1 (ve s))) (Ch (ve s) (vf s) (vg s))) kt) wt in
  let T2 := add32 (Sigma0 (va s)) (Maj (va s) (vb s) (vc s)) in
  mkH (add32 T1 T2) (va s) (vb s) (vc s) (add32 (vd s) T1) (ve s) (vf s) (vg s).

Fixpoint sha_rounds (s : hstate) (ks ws : list Z) : hstate :=
  match ks, ws with
  | kt :: ks', wt :: ws' => sha_rounds (sha_round s kt wt) ks' ws'
  | _, _ => s
  end.

Definition hstate_add (s t : hstate) : hstate :=
  mkH (add32 (va s) (va t)) (add32 (vb s) (vb t)) (add32 (vc s) (vc t)) (add32 (vd s) (vd t))
      (add32 (ve s) (ve t)) (add32 (vf s) (vf t)) (add32 (vg s) (vg t)) (add32 (vh s) (vh t)).

Definition sha_compress (s : hstate) (block : list Z) : hstate :=
  hstate_add s (sha_rounds s K256 (schedule block)).

(** ** The block loop and the digest *)

(** [for i in range(n)]: compress the next 64 bytes. *)
Fixpoint sha_blocks (n : nat) (s : hstate) (bs : list Z) : hstate :=
  match n with
  | O => s
  | S n' => sha_blocks n' (sha_compress s (firstn 64 bs)) (skipn 64 bs)
  end.

Definition hstate_words (s : hstate) : list Z :=
  [va s; vb s; vc s; vd s; ve s; vf s; vg s; vh s].

Definition hstate_bytes (s : hstate) : list Z := flat_map (be_split 4) (hstate_words s).

Definition sha256 (msg : list Z) : list Z :=
  let p := sha256_pad msg in
  hstate_bytes (sha_blocks (length p / 64) H256_init p).

(** A hash value is well formed when its eight words are 32-bit words. *)
Definition hstate_ok (s : hstate) : bool := forallb w32_ok (hstate_words s).

End Sha256.

(** ** Padding *)

Lemma pad_zeros_spec (n : nat) :
  (pad_zeros n < 64)%nat /\ ((n + 9 + pad_zeros n) mod 64 = 0)%nat.
Proof.
  unfold pad_zeros.
  pose proof (Z.mod_pos_bound (55 - Z.of_nat n) 64 ltac:(lia)).
  split; [lia |].
  apply Nat2Z.inj. rewrite Nat2Z.inj_mod, !Nat2Z.inj_add, Z2Nat.id by lia.
  Z.div_mod_to_equations. lia.
Qed.

Lemma length_sha256_pad (msg : list Z) :
  length (sha256_pad msg) = (length msg + 9 + pad_zeros (length msg))%nat.
Proof.
  unfold sha256_pad. rewrite !length_app, length_zeros, length_be_split. simpl. lia.
Qed.

(** The padded message is a whole number of blocks, at least nine bytes
    and less than 73 bytes longer than the message. *)
Lemma sha256_pad_blocks (msg : list Z) :
  (length (sha256_pad msg) mod 64 = 0)%nat /\
  (length msg + 9 <= length (sha256_pad msg) < length msg + 73)%nat.
Proof.
  rewrite length_sha256_pad. pose proof (pad_zeros_spec (length msg)). lia.
Qed.

Lemma bytes_ok_sha256_pad (msg : list Z) :
  bytes_ok msg = true -> bytes_ok (sha256_pad msg) = true.
Proof.
  intros H. unfold sha256_pad. rewrite !bytes_ok_app, H, bytes_ok_zeros, bytes_ok_be_split. reflexivity.
Qed.

(** The last eight bytes of the padded message hold the bit length. *)
Lemma sha256_pad_length_field (msg : list Z) :
  be_combine (skipn (length (sha256_pad msg) - 8) (sha256_pad msg))
  = (8 * Z.of_nat (length msg)) mod 2 ^ 64.
Proof.
  rewrite length_sha256_pad. unfold sha256_pad.
  rewrite !app_assoc.
  replace (length msg + 9 + pad_zeros (length msg) - 8)%nat
    with (length ((msg ++ [128]) ++ zeros (pad_zeros (length msg))))
    by (rewrite !length_app, length_zeros; cbn [length]; lia).
  rewrite skipn_length_app. apply be_combine_split.
Qed.

(** Padding is injective on messages shorter than [2^61] bytes: the length
    field recovers the length, and the length recovers the message. *)
Lemma sha256_pad_inj (m1 m2 : list Z) :
  8 * Z.of_nat (length m1) < 2 ^ 64 -> 8 * Z.of_nat (length m2) < 2 ^ 64 ->
  sha256_pad m1 = sha256_pad m2 -> m1 = m2.
Proof.
  intros H1 H2 Heq.
  assert (Hlen : length m1 = length m2).
  { pose proof (sha256_pad_length_field m1) as L1.
    pose proof (sha256_pad_length_field m2) as L2.
    rewrite Heq, L2 in L1. rewrite !Z.mod_small in L1 by lia. lia. }
  apply (f_equal (firstn (length m1))) in Heq.
  unfold sha256_pad in Heq. rewrite firstn_length_app, Hlen, firstn_length_app in Heq.
  exact Heq.
Qed.

(** ** The block loop reads the padded message exactly *)

(** Each of the [n] iterations reads a full block, and nothing is left. *)
Lemma sha_blocks_exact (p : list Z) (n : nat) :
  length p = (64 * n)%nat ->
  skipn (64 * n) p = [] /\
  forall i, (i < n)%nat -> length (firstn 64 (skipn (64 * i) p)) = 64%nat.
Proof.
  intros Hp. split.
  - apply skipn_all2. lia.
  - intros i Hi. rewrite length_firstn, length_skipn. lia.
Qed.

(** ** Invariant: hash values are tuples of 32-bit words *)

Lemma hstate_ok_spec (s : hstate) :
  hstate_ok s = true <->
  Forall (fun z => 0 <= z < 2 ^ 32) (hstate_words s).
Proof.
  unfold hstate_ok. rewrite forallb_forall, Forall_forall.
  split; intros H x Hx; apply w32_ok_spec; auto.
Qed.

Lemma hstate_add_ok (s t : hstate) : hstate_ok (hstate_add s t) = true.
Proof.
  apply hstate_ok_spec. unfold hstate_add, hstate_words; simpl.
  repeat constructor; apply add32_range.
Qed.

Lemma sha_blocks_ok (n : nat) (s : hstate) (bs : list Z) :
  hstate_ok s = true -> hstate_ok (sha_blocks n s bs) = true.
Proof.
  revert s bs; induction n as [| n IH]; intros s bs Hs; simpl; auto.
  apply IH. apply hstate_add_ok.
Qed.

Lemma H256_init_ok : hstate_ok H256_init = true.
Proof. reflexivity. Qed.

Lemma length_hstate_bytes (s : hstate) : length (hstate_bytes s) = 32%nat.
Proof. unfold hstate_bytes. rewrite length_flat_map_be_split. reflexivity. Qed.

Lemma bytes_ok_hstate_bytes (s : hstate) : bytes_ok (hstate_bytes s) = true.
Proof. apply bytes_ok_flat_map_be_split. Qed.

(** The digest is 32 bytes. *)
Theorem sha256_length (msg : list Z) : length (sha256 msg) = 32%nat.
Proof. apply length_hstate_bytes. Qed.

Theorem sha256_bytes (msg : list Z) : bytes_ok (sha256 msg) = true.
Proof. apply bytes_ok_hstate_bytes. Qed.

(** The digest is 32 bytes, each in [0, 256). *)
Theorem sha256_digest_shape (msg : list Z) :
  length (sha256 msg) = 32%nat /\ bytes_ok (sha256 msg) = true.
Proof. split; [apply length_hstate_bytes | apply bytes_ok_hstate_bytes]. Qed.

(** C37: The final hash value, before serialisation, is a tuple of 32-bit
    words, so serialising each on four bytes loses nothing. *)
Theorem sha256_state_ok (msg : list Z) :
  let p := sha256_pad msg in
  hstate_ok (sha_blocks (length p / 64) H256_init p) = true /\
  length p = (64 * (length p / 64))%nat.
Proof.
  intros p. split; [apply sha_blocks_ok, H256_init_ok |].
  pose proof (sha256_pad_blocks msg) as [Hm _]. fold p in Hm.
  pose proof (Nat.div_mod_eq (length p) 64). lia.
Qed.

(** ** Test vectors (FIPS 180-2, appendix B) *)

Example sha256_abc :
  sha256 (bytes_of_string "abc")
  = hex_bytes "ba7816bf8f01cfea414140de5dae2223b00361a396177a9cb410ff61f20015ad".
Proof. vm_compute. reflexivity. Qed.

Example sha256_empty :
  sha256 []
  = hex_bytes "e3b0c44298fc1c149afbf4c8996fb92427ae41e4649b934ca495991b7852b855".
Proof. vm_compute. reflexivity. Qed.

(** the two-block message of FIPS 180-2, appendix B.2, hashes to its
    published digest. *)
Example sha256_two_blocks :
  sha256 (bytes_of_string "abcdbcdecdefdefgefghfghighijhijkijkljklmklmnlmnomnopnopq")
  = hex_bytes "248d6a61d20638b8e5c026930c3e6039a33ce45964ff2167f6ecedd419db06c1".
Proof. vm_compute. reflexivity. Qed.

#[export] Hint Resolve sha256_bytes bytes_ok_sha256_pad : pw.
#[export] Hint Rewrite sha256_length : pw_rw.

(** ** Witnesses *)

Lemma sha256_pad_inj_witness :
  8 * Z.of_nat (length (bytes_of_string "abc")) < 2 ^ 64 /\
  sha256_pad (bytes_of_string "abc") = sha256_pad (bytes_of_string "abc") /\
  bytes_of_string "abc" = bytes_of_string "abc".
Proof.
  split; [simpl; lia | split; [reflexivity |]].
  apply sha256_pad_inj; [simpl; lia | simpl; lia | reflexivity].
Defined.
