(* ===== verification/Hmac.v ===== *)
(** * HMAC (RFC 2104) over an abstract hash function

    [PBKDF2HMAC(algorithm=hashes.SHA256(), ...)] (source lines 33-38 and
    77-82) uses HMAC-SHA256 as its pseudorandom function. HMAC needs
    from its hash only what the [HashFunction] class states: a function
    on byte lists with a fixed block size and a fixed digest length not
    larger than the block. HMAC is defined and proved against that
    interface; [sha256_hash] is the instance that [Sha256] discharges.

    HMAC as OpenSSL's [HMAC_Init_ex] computes it: a key longer than the
    block is first hashed; the key is then padded with zero bytes to the
    block size, xored with [ipad] for the inner hash and with [opad] for
    the outer hash.

    Theorems: the tag has the digest length and is a byte string; a long
    key and its hash give the same HMAC; trailing zero bytes appended to a
    short key do not change the HMAC (two distinct Python [bytes] keys are
    equivalent); and HMAC-SHA256 agrees with the RFC 4231 test vectors. *)

From Stdlib Require Import String ZArith List Lia Bool.
From S2P Require Import Prelude Words Sha256.
Import ListNotations.
Open Scope Z_scope.

(** ** What HMAC needs from a hash function *)

Class HashFunction := {
  hash_fn : list Z -> list Z;
  block_size : nat;
  digest_size : nat;
  hash_fn_length : forall m, length (hash_fn m) = digest_size;
  hash_fn_bytes : forall m, bytes_ok (hash_fn m) = true;
  digest_pos : (0 < digest_size)%nat;
  digest_le_block : (digest_size <= block_size)%nat
}.

Section Hmac.
Context `{HF : HashFunction}.

(** [K0]: the key hashed when longer than a block, then zero-padded to a
    block. *)
Definition hmac_key (key : list Z) : list Z :=
  let k := if (block_size <? length key)%nat then hash_fn key else key in
  k ++ zeros (block_size - length k).

Definition ipad : list Z := repeat 0x36 block_size.
Definition opad : list Z := repeat 0x5c block_size.

Definition hmac (key msg : list Z) : list Z :=
  let k0 := hmac_key key in
  hash_fn ((k0 ⊕ opad) ++ hash_fn ((k0 ⊕ ipad) ++ msg)).

Lemma length_hmac_key (key : list Z) : length (hmac_key key) = block_size.
Proof.
  unfold hmac_key. destruct (Nat.ltb_spec block_size (length key));
    rewrite length_app, length_zeros; try rewrite hash_fn_length;
    pose proof digest_le_block; lia.
Qed.

Lemma bytes_ok_hmac_key (key : list Z) :
  bytes_ok key = true -> bytes_ok (hmac_key key) = true.
Proof.
  intros Hk. unfold hmac_key.
  destruct (block_size <? length key)%nat; apply bytes_ok_app_intro;
    auto using hash_fn_bytes, bytes_ok_zeros.
Qed.

(** The tag has the digest length. *)
Theorem hmac_length (key msg : list Z) : length (hmac key msg) = digest_size.
Proof. apply hash_fn_length. Qed.

Theorem hmac_bytes (key msg : list Z) : bytes_ok (hmac key msg) = true.
Proof. apply hash_fn_bytes. Qed.

(** C36: A key longer than the block is replaced by its hash. *)
Theorem hmac_long_key (key msg : list Z) :
  (block_size < length key)%nat -> hmac key msg = hmac (hash_fn key) msg.
Proof.
  intros Hlong. unfold hmac. f_equal.
  assert (Hk : hmac_key key = hmac_key (hash_fn key)).
  { unfold hmac_key. rewrite (proj2 (Nat.ltb_lt _ _) Hlong).
    pose proof digest_le_block. rewrite hash_fn_length.
    rewrite (proj2 (Nat.ltb_ge _ _)) by lia. rewrite hash_fn_length. reflexivity. }
  rewrite Hk. reflexivity.
Qed.

(** Zero bytes appended to a key that still fits in a block do not change
    [K0], hence not the HMAC. *)
Lemma hmac_key_zeros (key : list Z) (n : nat) :
  (length key + n <= block_size)%nat -> hmac_key (key ++ zeros n) = hmac_key key.
Proof.
  intros Hfit. unfold hmac_key. rewrite length_app, length_zeros.
  rewrite !(proj2 (Nat.ltb_ge _ _)) by lia.
  rewrite length_app, length_zeros, <- app_assoc. f_equal.
  unfold zeros. rewrite <- repeat_app. f_equal. lia.
Qed.

(** a key and the same key followed by zero bytes, still within one
    block, give the same HMAC. *)
Theorem hmac_zero_padded_key (key msg : list Z) (n : nat) :
  (length key + n <= block_size)%nat -> hmac (key ++ zeros n) msg = hmac key msg.
Proof. intros Hfit. unfold hmac. rewrite hmac_key_zeros by exact Hfit. reflexivity. Qed.

End Hmac.

#[export] Hint Resolve hmac_bytes bytes_ok_hmac_key : pw.

(** ** SHA-256 implements the interface *)

#[export] Instance sha256_hash : HashFunction := {
  hash_fn := sha256;
  block_size := 64;
  digest_size := 32;
  hash_fn_length := sha256_length;
  hash_fn_bytes := sha256_bytes;
  digest_pos := ltac:(lia);
  digest_le_block := ltac:(lia)
}.

Definition hmac_sha256 (key msg : list Z) : list Z := @hmac sha256_hash key msg.

(** ** Test vectors (RFC 4231, test cases 1 and 6) *)

Example hmac_sha256_rfc4231_1 :
  hmac_sha256 (repeat 0x0b 20) (bytes_of_string "Hi There")
  = hex_bytes "b0344c61d8db38535ca8afceaf0bf12b881dc200c9833da726e9376c2e32cff7".
Proof. vm_compute. reflexivity. Qed.

(** HMAC-SHA256 with a 131-byte key agrees with RFC 4231, test
    case 6 (the key is hashed first). *)
Example hmac_sha256_rfc4231_6 :
  hmac_sha256 (repeat 0xaa 131)
    (bytes_of_string "Test Using Larger Than Block-Size Key - Hash Key First")
  = hex_bytes "60e431591ee0b67f0d8a26aacbf5b77f8e0bc6213728c5140546040f0ee37f54".
Proof. vm_compute. reflexivity. Qed.

(** ** Witnesses *)

Lemma hmac_long_key_witness :
  (64 < length (repeat 0xaa 131))%nat /\
  @hmac sha256_hash (repeat 0xaa 131) (bytes_of_string "msg")
  = @hmac sha256_hash (sha256 (repeat 0xaa 131)) (bytes_of_string "msg").
Proof. split; [simpl; lia | apply (@hmac_long_key sha256_hash); simpl; lia]. Defined.

Lemma hmac_zero_padded_key_witness :
  (length (repeat 0x0b 20) + 5 <= 64)%nat /\
  @hmac sha256_hash (repeat 0x0b 20 ++ zeros 5) (bytes_of_string "Hi There")
  = @hmac sha256_hash (repeat 0x0b 20) (bytes_of_string "Hi There").
Proof. split; [simpl; lia | apply (@hmac_zero_padded_key sha256_hash); simpl; lia]. Defined.
