(* ===== verification/Pbkdf2.v ===== *)
(** * PBKDF2 (RFC 8018) and [cryptography]'s [PBKDF2HMAC]

    Lines 33-41 and 77-85 of the source build
    [PBKDF2HMAC(algorithm=hashes.SHA256(), length=32, salt=salt,
    iterations=iterations)] and call [kdf.derive(password)]. The package
    hands the work to OpenSSL's [PKCS5_PBKDF2_HMAC], whose loop this file
    models over any pseudorandom function meeting the [Prf] interface:
    blocks of [cplen = min(tkeylen, hLen)] bytes, each the first [U_1]
    xored in place with [U_2 .. U_c].

    - [Section Pbkdf2]: the RFC 8018 definition ([F] as the xor of the
      chain [U_1 .. U_c], the key as the first [dkLen] bytes of
      [T_1 || T_2 || ...]) and OpenSSL's loop, with a fuel argument for
      the [while (tkeylen)] loop.
    - [hmac_prf]: HMAC over any [HashFunction] is a [Prf], and
      [pbkdf2_hmac_sha256] is PBKDF2 with HMAC-SHA256.
    - [Section Kdf]: the [PBKDF2HMAC] object (its fields and its [_used]
      flag), its constructor and its single-use [derive], with the
      errors they raise.

    Theorems: OpenSSL's loop computes the RFC 8018 key whenever the fuel
    is at least the key length (so the loop terminates with the whole
    key); the key has the requested length; a 32-byte key from
    HMAC-SHA256 is the single block [F(P, S, c, 1)]; the test vector of
    RFC 7914, section 11, and two more; and the object's [derive] succeeds
    exactly on bytes and a count in [1, INT_MAX], and raises
    [AlreadyFinalized] on any second call. *)

From Stdlib Require Import String ZArith List Lia Bool.
From S2P Require Import Prelude PyRuntime Words Sha256 Hmac.
Import ListNotations.
Open Scope Z_scope.

(** ** What PBKDF2 needs from its pseudorandom function *)

Class Prf := {
  prf : list Z -> list Z -> list Z;
  prf_len : nat;
  prf_length : forall k m, length (prf k m) = prf_len;
  prf_bytes : forall k m, bytes_ok (prf k m) = true;
  prf_len_pos : (0 < prf_len)%nat
}.

Section Pbkdf2.
Context `{PR : Prf}.

(** [INT(i)]: the block index on four bytes, big-endian. *)
Definition INT (i : Z) : list Z := be_split 4 i.

(** *** The definition of RFC 8018, section 5.2 *)

(** [U_1 .. U_n], given [U_1]. *)
Fixpoint u_chain (pw u : list Z) (n : nat) : list (list Z) :=
  match n with
  | O => []
  | S n' => u :: u_chain pw (prf pw u) n'
  end.

(** [F(P, S, c, i) = U_1 xor U_2 xor ... xor U_c]. *)
Definition F_spec (pw salt : list Z) (c : nat) (i : Z) : list Z :=
  fold_right xor_bytes (zeros prf_len) (u_chain pw (prf pw (salt ++ INT i)) c).

(** [T_i || T_(i+1) || ...], [n] blocks. *)
Fixpoint t_blocks (pw salt : list Z) (c : nat) (i : Z) (n : nat) : list Z :=
  match n with
  | O => []
  | S n' => F_spec pw salt c i ++ t_blocks pw salt c (i + 1) n'
  end.

Definition ceil_div (a b : nat) : nat := (a + b - 1) / b.

Definition pbkdf2_spec (pw salt : list Z) (c dklen : nat) : list Z :=
  firstn dklen (t_blocks pw salt c 1 (ceil_div dklen prf_len)).

(** *** OpenSSL's [PKCS5_PBKDF2_HMAC] *)

(** [for (j = 1; j < iter; j++) { digtmp = PRF(digtmp);
    for (k = 0; k < cplen; k++) p[k] ^= digtmp[k]; }] *)
Fixpoint f_loop (pw : list Z) (j : nat) (u acc : list Z) : list Z :=
  match j with
  | O => acc
  | S j' => let u' := prf pw u in f_loop pw j' u' (acc ⊕ u')
  end.

(** One block: [digtmp = PRF(salt || INT(i)); memcpy(p, digtmp, cplen);]
    then the loop above. *)
Definition f_block (pw salt : list Z) (c : nat) (i : Z) (cplen : nat) : list Z :=
  let u1 := prf pw (salt ++ INT i) in
  f_loop pw (c - 1) u1 (firstn cplen u1).

(** [while (tkeylen) { cplen = min(tkeylen, mdlen); ...;
    tkeylen -= cplen; i++; p += cplen; }] *)
Fixpoint pbkdf2_loop (fuel : nat) (pw salt : list Z) (c : nat) (i : Z) (tkeylen : nat)
  : list Z :=
  match fuel with
  | O => []
  | S fuel' =>
      if Nat.eqb tkeylen 0 then []
      else
        let cplen := Nat.min tkeylen prf_len in
        f_block pw salt c i cplen ++ pbkdf2_loop fuel' pw salt c (i + 1) (tkeylen - cplen)
  end.

(** Each round produces at least one byte, so [keylen] rounds suffice. *)
Definition pbkdf2 (pw salt : list Z) (c dklen : nat) : list Z :=
  pbkdf2_loop dklen pw salt c 1 dklen.

End Pbkdf2.

(** ** HMAC is a pseudorandom function *)

#[export] Instance hmac_prf `{HF : HashFunction} : Prf := {
  prf := hmac;
  prf_len := digest_size;
  prf_length := hmac_length;
  prf_bytes := hmac_bytes;
  prf_len_pos := digest_pos
}.

Definition pbkdf2_hmac_sha256 (pw salt : list Z) (c dklen : nat) : list Z :=
  @pbkdf2 (@hmac_prf sha256_hash) pw salt c dklen.

Example pbkdf2_sha256_password_c1 :
  pbkdf2_hmac_sha256 (bytes_of_string "password") (bytes_of_string "salt") 1 32
  = hex_bytes "120fb6cffcf8b32c43e7225256c4f837a86548c92ccc35480805987cb70be17b".
Proof. vm_compute. reflexivity. Qed.

Example pbkdf2_sha256_password_c2 :
  pbkdf2_hmac_sha256 (bytes_of_string "password") (bytes_of_string "salt") 2 32
  = hex_bytes "ae4d0c95af6b46d32d0adff928f06dd02a303f8ef3c251dfd6e2d85a95474c43".
Proof. vm_compute. reflexivity. Qed.

(** PBKDF2-HMAC-SHA256 agrees with RFC 7914, section 11, on
    [P = "passwd"], [S = "salt"], [c = 1], [dkLen = 64]: two blocks of
    output, so the loop runs twice. *)
Example pbkdf2_rfc7914_passwd :
  pbkdf2_hmac_sha256 (bytes_of_string "passwd") (bytes_of_string "salt") 1 64
  = hex_bytes ("55ac046e56e3089fec1691c22544b605f94185216dde0465e68b9d57c20dacbc"
               ++ "49ca9cccf179b645991664b39d77ef317c71b845b1e30bd509112041d3a19783").
Proof. vm_compute. reflexivity. Qed.

(** ** OpenSSL's loop computes the RFC 8018 key *)

Section Pbkdf2Correct.
Context `{PR : Prf}.

Lemma u_chain_length (pw u : list Z) (n : nat) :
  length u = prf_len -> Forall (fun x => length x = prf_len) (u_chain pw u n).
Proof.
  revert u; induction n as [| n IH]; intros u Hu; simpl; constructor; auto.
  apply IH, prf_length.
Qed.

Lemma length_fold_xor (us : list (list Z)) :
  Forall (fun x => length x = prf_len) us ->
  length (fold_right xor_bytes (zeros prf_len) us) = prf_len.
Proof.
  induction 1 as [| x us Hx _ IH]; simpl; [apply length_zeros |].
  rewrite length_xor_bytes, Hx, IH. lia.
Qed.

Lemma length_F_spec (pw salt : list Z) (c : nat) (i : Z) :
  length (F_spec pw salt c i) = prf_len.
Proof. apply length_fold_xor, u_chain_length, prf_length. Qed.

(** The in-place loop is a left fold of xor over the chain. *)
Lemma f_loop_fold (pw : list Z) (j : nat) (u acc : list Z) :
  f_loop pw j u acc = fold_left xor_bytes (u_chain pw (prf pw u) j) acc.
Proof. revert u acc; induction j as [| j IH]; intros u acc; simpl; auto. Qed.

(** A left fold of xor from [acc] is [acc] xored with the right fold. *)
Lemma fold_left_xor (us : list (list Z)) (acc : list Z) :
  Forall (fun x => length x = prf_len) us -> (length acc <= prf_len)%nat ->
  fold_left xor_bytes us acc = acc ⊕ fold_right xor_bytes (zeros prf_len) us.
Proof.
  intros Hus. revert acc; induction Hus as [| x us Hx Hus IH]; intros acc Hacc; simpl.
  - rewrite xor_bytes_zeros_r by lia. reflexivity.
  - rewrite IH by (rewrite length_xor_bytes; lia). apply xor_bytes_assoc.
Qed.

Lemma length_f_loop (pw : list Z) (j : nat) (u acc : list Z) :
  (length acc <= prf_len)%nat -> length (f_loop pw j u acc) = length acc.
Proof.
  revert u acc; induction j as [| j IH]; intros u acc Hacc; simpl; auto.
  rewrite IH; rewrite length_xor_bytes_l; rewrite ?prf_length; lia.
Qed.

(** One OpenSSL block is the first [cplen] bytes of [F(P, S, c, i)]. *)
Lemma f_block_spec (pw salt : list Z) (c : nat) (i : Z) (cplen : nat) :
  (1 <= c)%nat -> (cplen <= prf_len)%nat ->
  f_block pw salt c i cplen = firstn cplen (F_spec pw salt c i).
Proof.
  intros Hc Hcp. destruct c as [| c]; [lia |].
  unfold f_block, F_spec. simpl u_chain. cbn [fold_right].
  rewrite Nat.sub_succ, Nat.sub_0_r, f_loop_fold, fold_left_xor, firstn_xor_bytes.
  - reflexivity.
  - apply u_chain_length, prf_length.
  - rewrite length_firstn. lia.
Qed.

Lemma ceil_div_zero (b : nat) : (0 < b)%nat -> ceil_div 0 b = 0%nat.
Proof. intros Hb. unfold ceil_div. apply Nat.div_small. lia. Qed.

(** One round of the [while] loop consumes one block of the count. *)
Lemma ceil_div_step (a b : nat) :
  (0 < b)%nat -> (0 < a)%nat -> ceil_div a b = S (ceil_div (a - Nat.min a b) b).
Proof.
  intros Hb Ha. unfold ceil_div.
  destruct (Nat.le_gt_cases a b).
  - rewrite Nat.min_l, Nat.sub_diag by lia. simpl.
    rewrite (Nat.div_small (b - 1)) by lia.
    replace (a + b - 1)%nat with (a - 1 + 1 * b)%nat by lia.
    rewrite Nat.div_add, Nat.div_small by lia. reflexivity.
  - rewrite Nat.min_r by lia.
    replace (a + b - 1)%nat with (a - b + b - 1 + 1 * b)%nat by lia.
    rewrite Nat.div_add by lia. lia.
Qed.

Lemma pbkdf2_loop_spec (fuel : nat) (pw salt : list Z) (c : nat) (i : Z) (tk : nat) :
  (1 <= c)%nat -> (tk <= fuel)%nat ->
  pbkdf2_loop fuel pw salt c i tk = firstn tk (t_blocks pw salt c i (ceil_div tk prf_len)).
Proof.
  pose proof prf_len_pos as HL.
  intros Hc. revert i tk; induction fuel as [| fuel IH]; intros i tk Hfuel.
  - replace tk with 0%nat by lia. reflexivity.
  - simpl pbkdf2_loop. destruct (Nat.eqb_spec tk 0) as [-> | Htk]; [reflexivity |].
    rewrite (ceil_div_step tk) by lia. simpl t_blocks.
    rewrite IH by lia. rewrite f_block_spec by lia.
    rewrite firstn_app, length_F_spec.
    destruct (Nat.le_gt_cases tk prf_len).
    + rewrite Nat.min_l, Nat.sub_diag by lia.
      replace (tk - prf_len)%nat with 0%nat by lia. reflexivity.
    + rewrite Nat.min_r by lia.
      rewrite (@firstn_all2 _ tk (F_spec pw salt c i)), (@firstn_all2 _ prf_len (F_spec pw salt c i))
        by (rewrite length_F_spec; lia).
      reflexivity.
Qed.

(** C26: Refinement: for a positive iteration count, OpenSSL's loop computes
    the key of RFC 8018. *)
Theorem pbkdf2_refines_spec (pw salt : list Z) (c dklen : nat) :
  (1 <= c)%nat -> pbkdf2 pw salt c dklen = pbkdf2_spec pw salt c dklen.
Proof. intros Hc. apply pbkdf2_loop_spec; lia. Qed.

(** The fuel of [pbkdf2] is enough: any larger fuel gives the same key. *)
Theorem pbkdf2_loop_fuel (fuel : nat) (pw salt : list Z) (c dklen : nat) :
  (1 <= c)%nat -> (dklen <= fuel)%nat ->
  pbkdf2_loop fuel pw salt c 1 dklen = pbkdf2 pw salt c dklen.
Proof. intros Hc Hf. unfold pbkdf2. rewrite !pbkdf2_loop_spec by lia. reflexivity. Qed.

Lemma length_pbkdf2_loop (fuel : nat) (pw salt : list Z) (c : nat) (i : Z) (tk : nat) :
  (tk <= fuel)%nat -> length (pbkdf2_loop fuel pw salt c i tk) = tk.
Proof.
  pose proof prf_len_pos as HL.
  revert i tk; induction fuel as [| fuel IH]; intros i tk Hfuel; simpl; [lia |].
  destruct (Nat.eqb_spec tk 0) as [-> | Htk]; [reflexivity |].
  rewrite length_app, IH by lia. unfold f_block.
  rewrite length_f_loop by (rewrite length_firstn; lia).
  rewrite length_firstn, prf_length. lia.
Qed.

(** C27: The derived key has the requested length, for every iteration count. *)
Theorem length_pbkdf2 (pw salt : list Z) (c dklen : nat) :
  length (pbkdf2 pw salt c dklen) = dklen.
Proof. apply length_pbkdf2_loop. lia. Qed.

(** A key no longer than one PRF output is the prefix of [T_1]. *)
Theorem pbkdf2_single_block (pw salt : list Z) (c dklen : nat) :
  (1 <= c)%nat -> (0 < dklen <= prf_len)%nat ->
  pbkdf2 pw salt c dklen = firstn dklen (F_spec pw salt c 1).
Proof.
  intros Hc Hd. unfold pbkdf2. rewrite pbkdf2_loop_spec by lia.
  rewrite (ceil_div_step dklen) by lia.
  replace (dklen - Nat.min dklen prf_len)%nat with 0%nat by lia.
  rewrite ceil_div_zero by lia. simpl t_blocks. rewrite app_nil_r. reflexivity.
Qed.

Lemma bytes_ok_f_loop (pw : list Z) (j : nat) (u acc : list Z) :
  bytes_ok acc = true -> bytes_ok (f_loop pw j u acc) = true.
Proof.
  revert u acc; induction j as [| j IH]; intros u acc Hacc; simpl; auto.
  apply IH, bytes_ok_xor; [exact Hacc | apply prf_bytes].
Qed.

(** The derived key is a byte string. *)
Lemma bytes_ok_pbkdf2_loop (fuel : nat) (pw salt : list Z) (c : nat) (i : Z) (tk : nat) :
  bytes_ok (pbkdf2_loop fuel pw salt c i tk) = true.
Proof.
  revert i tk; induction fuel as [| fuel IH]; intros i tk; simpl; [reflexivity |].
  destruct (tk =? 0)%nat; [reflexivity |].
  apply bytes_ok_app_intro; [| apply IH].
  apply bytes_ok_f_loop, bytes_ok_firstn, prf_bytes.
Qed.

End Pbkdf2Correct.

(** ** The 32-byte HMAC-SHA256 key of the script *)

Lemma bytes_ok_pbkdf2_hmac_sha256 (pw salt : list Z) (c dklen : nat) :
  bytes_ok (pbkdf2_hmac_sha256 pw salt c dklen) = true.
Proof. apply bytes_ok_pbkdf2_loop. Qed.

Lemma length_pbkdf2_hmac_sha256 (pw salt : list Z) (c dklen : nat) :
  length (pbkdf2_hmac_sha256 pw salt c dklen) = dklen.
Proof. apply length_pbkdf2_loop. lia. Qed.

(** C28: With [length=32], the key is the single block [F(P, S, c, 1)], the xor
    of the whole HMAC-SHA256 chain [U_1 .. U_c]. *)
Theorem pbkdf2_hmac_sha256_32 (pw salt : list Z) (c : nat) :
  (1 <= c)%nat ->
  pbkdf2_hmac_sha256 pw salt c 32 = @F_spec (@hmac_prf sha256_hash) pw salt c 1.
Proof.
  intros Hc. unfold pbkdf2_hmac_sha256.
  rewrite pbkdf2_single_block by (simpl; lia).
  apply firstn_all2. rewrite length_F_spec. simpl. lia.
Qed.

(** ** [cryptography.hazmat.primitives.kdf.pbkdf2.PBKDF2HMAC] *)

Section Kdf.

(** The object's state: [_length], [_salt], [_iterations], [_used]
    ([_algorithm] is always [SHA256()] here). *)
Record PBKDF2HMAC := mkKdf {
  kdf_length : Z;
  kdf_salt : list Z;
  kdf_iterations : Z;
  kdf_used : bool
}.

(** [__init__]: [self._used = False]; [utils._check_bytes("salt", salt)]. *)
Definition PBKDF2HMAC_init (length : Z) (salt : pyval) (iterations : Z) : result PBKDF2HMAC :=
  match salt with
  | PyBytes s => Ok (mkKdf length s iterations false)
  | _ => Raise (TypeError "salt must be bytes")
  end.

(** The limits the count meets on its way to OpenSSL: [derive] hands it
    to Rust as a [usize] (64 bits), and OpenSSL's [PKCS5_PBKDF2_HMAC]
    takes it as a C [int]. *)
Definition USIZE_MAX : Z := 2 ^ 64 - 1.
Definition INT_MAX : Z := 2 ^ 31 - 1.

(** The call into OpenSSL: the key material must be bytes-like; a count
    outside [usize] raises CPython's [OverflowError] of the conversion;
    a count above [INT_MAX] does not reach OpenSSL as it is (depending on
    the version of the [openssl] crate it panics or is truncated to a C
    [int]), which the model reports as an error value whose message is
    its own; OpenSSL rejects a zero count. *)
Definition kdf_compute (k : PBKDF2HMAC) (key_material : pyval) : result (list Z) :=
  match key_material with
  | PyBytes pw =>
      if kdf_iterations k <? 0 then Raise (OverflowError "can't convert negative int to unsigned")
      else if USIZE_MAX <? kdf_iterations k then Raise (OverflowError "int too big to convert")
      else if INT_MAX <? kdf_iterations k then
        Raise (OverflowError "iteration count does not fit a C int")
      else if kdf_iterations k =? 0 then Raise (InternalError "invalid iteration count")
      else Ok (pbkdf2_hmac_sha256 pw (kdf_salt k) (Z.to_nat (kdf_iterations k))
                 (Z.to_nat (kdf_length k)))
  | _ => Raise (TypeError "key_material must be bytes")
  end.

(** [derive]: [if self._used: raise AlreadyFinalized]; [self._used = True];
    then the computation. The new state is returned whatever the outcome. *)
Definition PBKDF2HMAC_derive (k : PBKDF2HMAC) (key_material : pyval)
  : result (list Z) * PBKDF2HMAC :=
  if kdf_used k then (Raise AlreadyFinalized, k)
  else (kdf_compute k key_material,
        mkKdf (kdf_length k) (kdf_salt k) (kdf_iterations k) true).

(** A fresh object derives exactly on bytes and a count in [1, INT_MAX]. *)
Theorem kdf_derive_ok (len it : Z) (salt : list Z) (km : pyval) (key : list Z) :
  fst (PBKDF2HMAC_derive (mkKdf len salt it false) km) = Ok key <->
  exists pw, km = PyBytes pw /\ 0 < it <= INT_MAX /\
             key = pbkdf2_hmac_sha256 pw salt (Z.to_nat it) (Z.to_nat len).
Proof.
  simpl. unfold kdf_compute. simpl.
  destruct km as [| | | | pw]; try (split; [discriminate | intros (? & ? & _); discriminate]).
  unfold USIZE_MAX, INT_MAX.
  repeat match goal with
  | |- context [?a <? ?b] => destruct (Z.ltb_spec a b)
  | |- context [?a =? ?b] => destruct (Z.eqb_spec a b)
  end; try (split; [discriminate | intros (? & _ & ? & _); lia]).
  split.
  - intros Hk. injection Hk as <-. exists pw. repeat split; auto; lia.
  - intros (pw' & Hpw & _ & ->). injection Hpw as ->. reflexivity.
Qed.

(** C29: The object is single-use: once [derive] has run, whatever its outcome,
    every later call raises [AlreadyFinalized]. *)
Theorem kdf_single_use (k : PBKDF2HMAC) (km km' : pyval) :
  fst (PBKDF2HMAC_derive (snd (PBKDF2HMAC_derive k km)) km') = Raise AlreadyFinalized.
Proof. unfold PBKDF2HMAC_derive. destruct (kdf_used k) eqn:E; simpl; rewrite ?E; reflexivity. Qed.

End Kdf.

(** ** Witnesses *)

Lemma pbkdf2_refines_spec_witness :
  (1 <= 2)%nat /\
  @pbkdf2 (@hmac_prf sha256_hash) (bytes_of_string "password") (bytes_of_string "salt") 2 40
  = @pbkdf2_spec (@hmac_prf sha256_hash) (bytes_of_string "password") (bytes_of_string "salt") 2 40.
Proof. split; [lia | apply pbkdf2_refines_spec; lia]. Defined.

Lemma pbkdf2_loop_fuel_witness :
  (1 <= 1)%nat /\ (40 <= 64)%nat /\
  @pbkdf2_loop (@hmac_prf sha256_hash) 64 (bytes_of_string "password") (bytes_of_string "salt") 1 1 40
  = @pbkdf2 (@hmac_prf sha256_hash) (bytes_of_string "password") (bytes_of_string "salt") 1 40.
Proof. split; [lia | split; [lia | apply pbkdf2_loop_fuel; lia]]. Defined.

Lemma pbkdf2_hmac_sha256_32_witness :
  (1 <= 2)%nat /\
  pbkdf2_hmac_sha256 (bytes_of_string "password") (bytes_of_string "salt") 2 32
  = @F_spec (@hmac_prf sha256_hash) (bytes_of_string "password") (bytes_of_string "salt") 2 1.
Proof. split; [lia | apply pbkdf2_hmac_sha256_32; lia]. Defined.
