(* ===== verification/Base64.v ===== *)
(** * [base64] and [binascii] (CPython 3.11)

    The script stores salt and key as [base64.b64encode(x).decode('utf-8')]
    (source lines 44-45) and reads them back with [base64.b64decode]
    (lines 73-74). Both go through CPython's [binascii] module, modelled
    here from its C code:

    - [b2a_base64] keeps a bit buffer [leftchar] of [leftbits] bits, adds
      eight bits per input byte and writes a character for each full six
      bits; the two or four bits left at the end are written with one or
      two [=] characters of padding.
    - [a2b_base64] in its default, non-strict mode is a four-state machine
      on [quad_pos]: characters outside the alphabet (other than [=]) are
      skipped, a data character emits a byte in states 1, 2 and 3, and
      [=] ends the decoding once it completes a quad ([goto done]: the
      rest of the input is ignored). Input that ends inside a quad
      raises [binascii.Error].
    - [b64decode(s)] first encodes a [str] argument as ASCII.

    Theorems: the encoder agrees with a group-by-group reference encoder,
    writes [4 * ceil(n / 3)] characters of the alphabet, and decoding its
    output gives the bytes back (the round trip the script relies on);
    the decoder ignores characters outside the alphabet; and the
    concrete behaviours on the inputs of the specification. *)

From Stdlib Require Import String ZArith List Lia Bool.
From S2P Require Import Prelude PyRuntime.
Import ListNotations.
Open Scope Z_scope.

Section Encode.

(** [table_b2a_base64]: the standard alphabet. *)
Definition b64_char (v : Z) : Z :=
  if v <? 26 then 65 + v
  else if v <? 52 then 97 + (v - 26)
  else if v <? 62 then 48 + (v - 52)
  else if v =? 62 then 43
  else 47.

(** [while (leftbits >= 6) { this_ch = (leftchar >> (leftbits-6)) & 0x3f;
    leftbits -= 6; *ascii_data++ = table_b2a_base64[this_ch]; }]; it
    runs at most twice since [leftbits < 14]. *)
Fixpoint b2a_drain (fuel : nat) (leftchar leftbits : Z) (acc : list Z) : Z * list Z :=
  match fuel with
  | O => (leftbits, acc)
  | S f =>
      if 6 <=? leftbits then
        b2a_drain f leftchar (leftbits - 6)
          (acc ++ [b64_char (Z.land (Z.shiftr leftchar (leftbits - 6)) 0x3f)])
      else (leftbits, acc)
  end.

(** The padding after the last byte. *)
Definition b2a_tail (leftchar leftbits : Z) (acc : list Z) : list Z :=
  if leftbits =? 2 then acc ++ [b64_char (Z.shiftl (Z.land leftchar 3) 4); 61; 61]
  else if leftbits =? 4 then acc ++ [b64_char (Z.shiftl (Z.land leftchar 0xf) 2); 61]
  else acc.

(** [for (; bin_len > 0; bin_len--, bin_data++) { leftchar = (leftchar << 8)
    | *bin_data; leftbits += 8; ... }]. *)
Fixpoint b2a_loop (bin : list Z) (leftchar leftbits : Z) (acc : list Z) : list Z :=
  match bin with
  | [] => b2a_tail leftchar leftbits acc
  | b :: bin' =>
      let lc := Z.lor (Z.shiftl leftchar 8) b in
      let '(lb, acc') := b2a_drain 2 lc (leftbits + 8) acc in
      b2a_loop bin' lc lb acc'
  end.

Definition b2a_base64 (bin : list Z) (newline : bool) : list Z :=
  b2a_loop bin 0 0 [] ++ (if newline then [10] else []).

(** [base64.b64encode(s)] is [binascii.b2a_base64(s, newline=False)]. *)
Definition b64encode (s : list Z) : list Z := b2a_base64 s false.

End Encode.

Section Decode.

(** [table_a2b_base64]: the value of an alphabet character, or 255. *)
Definition b64_value (c : Z) : Z :=
  if (65 <=? c) && (c <=? 90) then c - 65
  else if (97 <=? c) && (c <=? 122) then c - 71
  else if (48 <=? c) && (c <=? 57) then c + 4
  else if c =? 43 then 62
  else if c =? 47 then 63
  else 255.

(** The decoder's state: [quad_pos], [leftchar], [pads] and the bytes
    written so far. ([padding_started] is read only in strict mode.) *)
Record a2b_state := mkA2b {
  quad_pos : Z;
  a2b_left : Z;
  pads : Z;
  a2b_out : list Z
}.

Definition a2b_init : a2b_state := mkA2b 0 0 0 [].

(** A data character of value [v < 64]. *)
Definition a2b_data (st : a2b_state) (v : Z) : a2b_state :=
  let q := quad_pos st in
  let l := a2b_left st in
  let o := a2b_out st in
  if q =? 0 then mkA2b 1 v 0 o
  else if q =? 1 then mkA2b 2 (Z.land v 0x0f) 0 (o ++ [Z.lor (Z.shiftl l 2) (Z.shiftr v 4)])
  else if q =? 2 then mkA2b 3 (Z.land v 0x03) 0 (o ++ [Z.lor (Z.shiftl l 4) (Z.shiftr v 2)])
  else mkA2b 0 0 0 (o ++ [Z.lor (Z.shiftl l 6) v]).

(** The message of the [binascii.Error] raised when one data character
    is left over. *)
Definition a2b_excess_msg (nout : nat) : list Z :=
  lit "Invalid base64-encoded string: number of data characters ("
  ++ str_of_int (Z.of_nat nout / 3 * 4 + 1)
  ++ lit ") cannot be 1 more than a multiple of 4".

(** After the last character: a quad left open is an error. *)
Definition a2b_finish (st : a2b_state) : result (list Z) :=
  if quad_pos st =? 0 then Ok (a2b_out st)
  else if quad_pos st =? 1 then Raise (BinasciiError (a2b_excess_msg (length (a2b_out st))))
  else Raise (BinasciiError (lit "Incorrect padding")).

(** The main loop. On [=]: [if (quad_pos >= 2 && quad_pos + ++pads >= 4)
    goto done;] (the increment happens only when [quad_pos >= 2]). *)
Fixpoint a2b_loop (s : list Z) (st : a2b_state) : result (list Z) :=
  match s with
  | [] => a2b_finish st
  | c :: s' =>
      if c =? 61 then
        if 2 <=? quad_pos st then
          if 4 <=? quad_pos st + (pads st + 1) then Ok (a2b_out st)
          else a2b_loop s' (mkA2b (quad_pos st) (a2b_left st) (pads st + 1) (a2b_out st))
        else a2b_loop s' st
      else
        let v := b64_value c in
        if 64 <=? v then a2b_loop s' st
        else a2b_loop s' (a2b_data st v)
  end.

Definition a2b_base64 (s : list Z) : result (list Z) := a2b_loop s a2b_init.

(** [base64._bytes_from_decode_data]: a [str] must be ASCII. *)
Definition bytes_from_decode_data (s : pyval) : result (list Z) :=
  match s with
  | PyStr x =>
      if is_ascii_str x then Ok x
      else Raise (ValueError "string argument should contain only ASCII characters")
  | PyBytes x => Ok x
  | _ => Raise (TypeError "argument should be a bytes-like object or ASCII string")
  end.

(** [base64.b64decode(s)] with [validate=False]. *)
Definition b64decode (s : pyval) : result (list Z) :=
  x <- bytes_from_decode_data s ;; a2b_base64 x.

(** Text of the standard alphabet and the pad [=] only. *)
Definition b64_text (s : list Z) : bool :=
  forallb (fun c => ((0 <=? b64_value c) && (b64_value c <? 64)) || (c =? 61)) s.

End Decode.

(** ** Concrete behaviour *)

Example b64encode_zero_salt :
  b64encode (zeros 32) = lit "AAAAAAAAAAAAAAAAAAAAAAAAAAAAAAAAAAAAAAAAAAA=".
Proof. vm_compute. reflexivity. Qed.

(** [b64decode("not-base64!!")], the malformed input of the
    specification, raises [binascii.Error]: after the three non-alphabet
    characters are skipped, nine data characters remain. *)
Example b64decode_not_base64 :
  b64decode (PyStr (lit "not-base64!!"))
  = Raise (BinasciiError (lit "Invalid base64-encoded string: number of data characters (9) cannot be 1 more than a multiple of 4")).
Proof. vm_compute. reflexivity. Qed.

Example b64decode_also_bad :
  b64decode (PyStr (lit "also-bad")) = Raise (BinasciiError (lit "Incorrect padding")).
Proof. vm_compute. reflexivity. Qed.

Example b64decode_after_padding :
  b64decode (PyStr (lit "QQ==QUJD")) = Ok (lit "A").
Proof. vm_compute. reflexivity. Qed.

Example b64decode_pad_inside :
  b64decode (PyStr (lit "QQ=x=")) = Ok [65; 12].
Proof. vm_compute. reflexivity. Qed.

(** ** The encoder, group by group *)

Section EncodeSpec.

(** Three bytes give four characters; one or two trailing bytes are
    padded with [=] (61). *)
Definition enc_group (x y z : Z) : list Z :=
  [b64_char (x / 4); b64_char (x mod 4 * 16 + y / 16);
   b64_char (y mod 16 * 4 + z / 64); b64_char (z mod 64)].

Fixpoint b64_ref (bs : list Z) : list Z :=
  match bs with
  | x :: y :: z :: rest => enc_group x y z ++ b64_ref rest
  | [x; y] => [b64_char (x / 4); b64_char (x mod 4 * 16 + y / 16); b64_char (y mod 16 * 4); 61]
  | [x] => [b64_char (x / 4); b64_char (x mod 4 * 16); 61; 61]
  | [] => []
  end.

(** Two lists of characters agree when the six-bit values agree. *)
Ltac b64_congr :=
  repeat apply (f_equal2 cons); try reflexivity;
  apply f_equal; Z.div_mod_to_equations; lia.

(** Six bits of [v] starting at bit [k]. *)
Lemma sel6 (v k : Z) : 0 <= k -> Z.land (Z.shiftr v k) 0x3f = (v / 2 ^ k) mod 64.
Proof.
  intros Hk. change 0x3f with (Z.ones 6).
  rewrite Z.land_ones, Z.shiftr_div_pow2 by lia. reflexivity.
Qed.

Lemma shiftl8 (l b : Z) : 0 <= b < 256 -> Z.lor (Z.shiftl l 8) b = l * 256 + b.
Proof. intros Hb. rewrite lor_shiftl_add by (simpl; lia). reflexivity. Qed.

(** Strong induction on the length of a list, used for three-byte
    groups. *)
Lemma list_len_ind {A} (P : list A -> Prop) :
  (forall l, (forall l', (length l' < length l)%nat -> P l') -> P l) -> forall l, P l.
Proof.
  intros H l. remember (length l) as n eqn:E. revert l E.
  induction n as [n IH] using lt_wf_ind. intros l ->. apply H. intros l' Hl'. eapply IH; eauto.
Qed.

(** The bit-buffer loop of [b2a_base64] is the group-by-group encoder,
    whatever the high bits left in [leftchar]. *)
Theorem b2a_loop_ref (bs : list Z) (l : Z) (acc : list Z) :
  bytes_ok bs = true -> b2a_loop bs l 0 acc = acc ++ b64_ref bs.
Proof.
  revert l acc. induction bs as [bs IH] using list_len_ind. intros l acc Hok.
  destruct bs as [| x [| y [| z rest]]].
  - simpl. unfold b2a_tail. simpl. rewrite app_nil_r. reflexivity.
  - byte_facts. cbn -[Z.shiftr Z.shiftl Z.land Z.lor b64_char].
    rewrite shiftl8 by lia. unfold b2a_tail. cbn -[Z.shiftr Z.shiftl Z.land Z.lor b64_char].
    rewrite <- app_assoc. f_equal. rewrite sel6 by lia.
    change 3 with (Z.ones 2). rewrite Z.land_ones, !Z.shiftl_mul_pow2 by lia. pow_consts.
    b64_congr.
  - byte_facts. cbn -[Z.shiftr Z.shiftl Z.land Z.lor b64_char].
    rewrite !shiftl8 by lia. unfold b2a_tail. cbn -[Z.shiftr Z.shiftl Z.land Z.lor b64_char].
    rewrite <- !app_assoc. f_equal. rewrite !sel6 by lia.
    change 15 with (Z.ones 4). rewrite Z.land_ones, !Z.shiftl_mul_pow2 by lia. pow_consts.
    b64_congr.
  - byte_facts. cbn -[Z.shiftr Z.shiftl Z.land Z.lor b64_char].
    rewrite !shiftl8 by lia. rewrite !sel6 by lia.
    rewrite IH by (simpl; lia || assumption).
    rewrite <- !app_assoc. f_equal. unfold enc_group. simpl. pow_consts.
    b64_congr.
Qed.

Corollary b64encode_ref (bs : list Z) : bytes_ok bs = true -> b64encode bs = b64_ref bs.
Proof.
  intros Hok. unfold b64encode, b2a_base64. rewrite app_nil_r.
  apply b2a_loop_ref. exact Hok.
Qed.

Lemma length_b64_ref (bs : list Z) :
  length (b64_ref bs) = (4 * ((length bs + 2) / 3))%nat.
Proof.
  induction bs as [bs IH] using list_len_ind.
  destruct bs as [| x [| y [| z rest]]]; try reflexivity.
  change (b64_ref (x :: y :: z :: rest)) with (enc_group x y z ++ b64_ref rest).
  rewrite length_app, IH by (simpl; lia). simpl length.
  replace (S (S (S (length rest))) + 2)%nat with (length rest + 2 + 1 * 3)%nat by lia.
  rewrite Nat.div_add by lia. simpl. lia.
Qed.

End EncodeSpec.

(** ** Decoding inverts encoding *)

Section DecodeSpec.

Lemma b64_value_char (v : Z) : 0 <= v < 64 -> b64_value (b64_char v) = v.
Proof.
  intros Hv.
  assert (Hall : forallb (fun n => Z.eqb (b64_value (b64_char (Z.of_nat n))) (Z.of_nat n))
                   (seq 0 64) = true) by reflexivity.
  rewrite forallb_forall in Hall. specialize (Hall (Z.to_nat v)).
  rewrite Z2Nat.id in Hall by lia. apply Z.eqb_eq, Hall. apply in_seq. lia.
Qed.

Lemma b64_char_ascii (v : Z) : 0 <= v < 64 -> 0 <= b64_char v < 128.
Proof.
  intros Hv.
  assert (Hall : forallb (fun n => (0 <=? b64_char (Z.of_nat n)) && (b64_char (Z.of_nat n) <? 128))
                   (seq 0 64) = true) by reflexivity.
  rewrite forallb_forall in Hall. specialize (Hall (Z.to_nat v)).
  rewrite Z2Nat.id in Hall by lia.
  destruct (andb_prop _ _ (Hall ltac:(apply in_seq; lia))) as [H1 H2].
  apply Z.leb_le in H1. apply Z.ltb_lt in H2. lia.
Qed.

Lemma b64_char_not_pad (v : Z) : 0 <= v < 64 -> (b64_char v =? 61) = false.
Proof.
  intros Hv. apply Z.eqb_neq. intros Heq.
  pose proof (b64_value_char v Hv) as H. rewrite Heq in H. change (b64_value 61) with 255 in H. lia.
Qed.

(** One data character steps the state machine. *)
Lemma a2b_loop_data (v : Z) (s : list Z) (st : a2b_state) :
  0 <= v < 64 -> a2b_loop (b64_char v :: s) st = a2b_loop s (a2b_data st v).
Proof.
  intros Hv. cbn [a2b_loop]. rewrite b64_char_not_pad, b64_value_char by exact Hv.
  rewrite (proj2 (Z.leb_gt 64 v)) by lia. reflexivity.
Qed.

Lemma land15 (v : Z) : Z.land v 15 = v mod 16.
Proof. change 15 with (Z.ones 4). apply Z.land_ones. lia. Qed.

Lemma land3 (v : Z) : Z.land v 3 = v mod 4.
Proof. change 3 with (Z.ones 2). apply Z.land_ones. lia. Qed.

(** Rewrite the decoder's bit operations into arithmetic. *)
Ltac a2b_arith :=
  rewrite ?land15, ?land3, ?Z.shiftr_div_pow2 by lia;
  rewrite ?lor_shiftl_add by (pow_consts; Z.div_mod_to_equations; lia);
  pow_consts.

Ltac bytes_congr :=
  repeat (apply (f_equal (@Ok (list Z))) || apply (f_equal2 (@app Z)) || apply (f_equal2 cons));
  try reflexivity; Z.div_mod_to_equations; lia.

Ltac a2b_step :=
  rewrite a2b_loop_data by (Z.div_mod_to_equations; lia).

Ltac a2b_eval := cbv [a2b_data quad_pos a2b_left a2b_out pads]; cbn [Z.eqb Z.leb Z.add Pos.eqb Z.compare Pos.compare Pos.compare_cont Pos.add]; cbv iota beta.

(** Four characters of a group give its three bytes back. *)
Lemma a2b_loop_group (x y z l p : Z) (o s : list Z) :
  0 <= x < 256 -> 0 <= y < 256 -> 0 <= z < 256 ->
  a2b_loop (enc_group x y z ++ s) (mkA2b 0 l p o) = a2b_loop s (mkA2b 0 0 0 (o ++ [x; y; z])).
Proof.
  intros Hx Hy Hz. unfold enc_group. cbn [app].
  do 4 a2b_step. a2b_eval.
  rewrite <- !app_assoc. a2b_arith. cbn [app].
  repeat f_equal; Z.div_mod_to_equations; lia.
Qed.

Theorem a2b_loop_ref (bs : list Z) (l p : Z) (o : list Z) :
  bytes_ok bs = true -> a2b_loop (b64_ref bs) (mkA2b 0 l p o) = Ok (o ++ bs).
Proof.
  revert l p o. induction bs as [bs IH] using list_len_ind. intros l p o Hok.
  destruct bs as [| x [| y [| z rest]]].
  - rewrite app_nil_r. reflexivity.
  - byte_facts. cbn [b64_ref]. do 2 a2b_step. a2b_eval.
    cbn [a2b_loop]. a2b_eval. cbn [a2b_loop]. a2b_eval.
    a2b_arith. bytes_congr.
  - byte_facts. cbn [b64_ref]. do 3 a2b_step. a2b_eval.
    cbn [a2b_loop]. a2b_eval.
    rewrite <- app_assoc. a2b_arith. cbn [app].
    bytes_congr.
  - byte_facts. change (b64_ref (x :: y :: z :: rest)) with (enc_group x y z ++ b64_ref rest).
    rewrite a2b_loop_group by lia. rewrite IH by (simpl; lia || assumption).
    rewrite <- app_assoc. reflexivity.
Qed.

End DecodeSpec.

(** ** What the script relies on *)

Lemma b64_ref_chars (bs : list Z) :
  bytes_ok bs = true ->
  Forall (fun c => (0 <= b64_value c < 64 \/ c = 61) /\ 0 <= c < 128) (b64_ref bs).
Proof.
  induction bs as [bs IH] using list_len_ind. intros Hok.
  assert (Hc : forall v, 0 <= v < 64 ->
            (0 <= b64_value (b64_char v) < 64 \/ b64_char v = 61) /\ 0 <= b64_char v < 128).
  { intros v Hv. rewrite b64_value_char by exact Hv. split; [left; exact Hv | apply b64_char_ascii, Hv]. }
  assert (Hpad : (0 <= b64_value 61 < 64 \/ 61 = 61) /\ 0 <= 61 < 128) by (split; [right |]; lia).
  destruct bs as [| x [| y [| z rest]]]; cbn [b64_ref]; byte_facts.
  - constructor.
  - repeat apply Forall_cons; try apply Forall_nil; first [apply Hpad | apply Hc];
      Z.div_mod_to_equations; lia.
  - repeat apply Forall_cons; try apply Forall_nil; first [apply Hpad | apply Hc];
      Z.div_mod_to_equations; lia.
  - apply Forall_app. split; [| apply IH; [simpl; lia | assumption]].
    unfold enc_group. repeat apply Forall_cons; try apply Forall_nil; apply Hc;
      Z.div_mod_to_equations; lia.
Qed.

(** The encoding of bytes is text of the alphabet. *)
Lemma b64_text_b64encode (bs : list Z) :
  bytes_ok bs = true -> b64_text (b64encode bs) = true.
Proof.
  intros Hok. rewrite b64encode_ref by exact Hok. unfold b64_text. rewrite forallb_forall.
  intros c Hin. pose proof (proj1 (Forall_forall _ _) (b64_ref_chars bs Hok) c Hin) as H.
  cbv beta in H. apply orb_true_iff.
  destruct H as [[Hv | Hp] _]; [left; apply andb_true_intro; split; [apply Z.leb_le | apply Z.ltb_lt]; lia
                              | right; apply Z.eqb_eq, Hp].
Qed.

(** C31: [b64encode] writes [4 * ceil(n / 3)] characters, each of the
    standard alphabet or the pad [=]; 32 bytes give 44 characters. *)
Theorem b64encode_shape (bs : list Z) :
  bytes_ok bs = true ->
  length (b64encode bs) = (4 * ((length bs + 2) / 3))%nat /\
  Forall (fun c => 0 <= b64_value c < 64 \/ c = 61) (b64encode bs).
Proof.
  intros Hok. rewrite b64encode_ref by exact Hok. split; [apply length_b64_ref |].
  eapply Forall_impl; [| apply b64_ref_chars, Hok]. simpl. tauto.
Qed.

Lemma is_ascii_b64encode (bs : list Z) :
  bytes_ok bs = true -> is_ascii_str (b64encode bs) = true.
Proof.
  intros Hok. rewrite b64encode_ref by exact Hok. unfold is_ascii_str.
  rewrite forallb_forall. intros c Hin.
  pose proof (proj1 (Forall_forall _ _) (b64_ref_chars bs Hok) c Hin) as H. cbv beta in H. apply Z.ltb_lt. lia.
Qed.

(** C30: Round trip: decoding the encoding of a byte string gives it back. *)
Theorem b64_roundtrip (bs : list Z) :
  bytes_ok bs = true -> a2b_base64 (b64encode bs) = Ok bs.
Proof.
  intros Hok. unfold a2b_base64, a2b_init. rewrite b64encode_ref by exact Hok.
  apply a2b_loop_ref, Hok.
Qed.

(** The same through [b64decode] of the [str] the script stores. *)
Theorem b64decode_b64encode (bs : list Z) :
  bytes_ok bs = true -> b64decode (PyStr (b64encode bs)) = Ok bs.
Proof.
  intros Hok. unfold b64decode, bytes_from_decode_data.
  rewrite is_ascii_b64encode by exact Hok. unfold a2b_base64, a2b_init.
  rewrite b64encode_ref by exact Hok. apply a2b_loop_ref, Hok.
Qed.

(** C32: The decoder skips every character outside the alphabet other than
    [=]: stored data with such characters inserted decodes as without. *)
Theorem a2b_skips_junk (pre post : list Z) (c : Z) (st : a2b_state) :
  c <> 61 -> 64 <= b64_value c ->
  a2b_loop (pre ++ c :: post) st = a2b_loop (pre ++ post) st.
Proof.
  intros Hc Hv. revert st. induction pre as [| d pre IH]; intros st.
  - cbn [app a2b_loop]. rewrite (proj2 (Z.eqb_neq c 61) Hc), (proj2 (Z.leb_le 64 _) Hv).
    reflexivity.
  - cbn [app a2b_loop].
    destruct (d =? 61); [destruct (2 <=? quad_pos st); [destruct (4 <=? _) |] |
                         destruct (64 <=? b64_value d)]; auto.
Qed.

(** ** Text without padding *)

(** The number of data characters of a text: those of the alphabet. *)
Definition data_count (s : list Z) : nat := length (filter (fun c => b64_value c <? 64) s).

Definition no_pad (s : list Z) : bool := forallb (fun c => negb (c =? 61)) s.

(** A data character moves [quad_pos] one step round the quad. *)
Lemma a2b_data_quad (st : a2b_state) (v : Z) :
  0 <= quad_pos st < 4 -> quad_pos (a2b_data st v) = (quad_pos st + 1) mod 4.
Proof.
  intros Hq. unfold a2b_data.
  destruct (Z.eqb_spec (quad_pos st) 0) as [-> | H0]; [reflexivity |].
  destruct (Z.eqb_spec (quad_pos st) 1) as [-> | H1]; [reflexivity |].
  destruct (Z.eqb_spec (quad_pos st) 2) as [-> | H2]; [reflexivity |].
  assert (quad_pos st = 3) as -> by lia. reflexivity.
Qed.

(** On text without [=], the decoder reads every character and stops in
    the quad position given by the number of data characters. *)
Lemma a2b_loop_no_pad (s : list Z) (st : a2b_state) :
  no_pad s = true -> 0 <= quad_pos st < 4 ->
  exists st', a2b_loop s st = a2b_finish st' /\
              quad_pos st' = (quad_pos st + Z.of_nat (data_count s)) mod 4.
Proof.
  unfold no_pad, data_count. revert st.
  induction s as [| c s IH]; intros st Hs Hq.
  - exists st. split; [reflexivity |]. cbn. rewrite Z.add_0_r, Z.mod_small by lia. reflexivity.
  - cbn [forallb] in Hs. apply andb_prop in Hs as [Hc Hs]. apply negb_true_iff in Hc.
    cbn [a2b_loop filter]. rewrite Hc.
    destruct (Z.leb_spec 64 (b64_value c)) as [Hv | Hv].
    + rewrite (proj2 (Z.ltb_ge _ 64)) by lia. apply IH; assumption.
    + rewrite (proj2 (Z.ltb_lt _ 64)) by lia.
      destruct (IH (a2b_data st (b64_value c)) Hs) as (st' & E & Hq');
        [rewrite a2b_data_quad by lia; apply Z.mod_pos_bound; lia |].
      exists st'. split; [exact E |]. rewrite Hq', a2b_data_quad by lia.
      rewrite Zplus_mod_idemp_l. f_equal. cbn [length]. lia.
Qed.

(** Text without [=] whose data characters leave two or three over a
    multiple of four raises [Incorrect padding], whatever else it holds. *)
Theorem a2b_incorrect_padding (s : list Z) :
  no_pad s = true -> (data_count s mod 4 = 2 \/ data_count s mod 4 = 3)%nat ->
  a2b_base64 s = Raise (BinasciiError (lit "Incorrect padding")).
Proof.
  intros Hs Hn. destruct (a2b_loop_no_pad s a2b_init Hs) as (st & E & Hq); [cbn; lia |].
  unfold a2b_base64. rewrite E. unfold a2b_finish. cbn [quad_pos a2b_init] in Hq.
  assert (Hm : quad_pos st = 2 \/ quad_pos st = 3).
  { rewrite Hq, Z.add_0_l. change 4 with (Z.of_nat 4).
    rewrite <- Nat2Z.inj_mod. destruct Hn as [-> | ->]; [left | right]; reflexivity. }
  destruct Hm as [-> | ->]; reflexivity.
Qed.

(** ** Witnesses *)

Lemma b64_roundtrip_witness :
  bytes_ok (lit "ABCD") = true /\ a2b_base64 (b64encode (lit "ABCD")) = Ok (lit "ABCD").
Proof. split; [reflexivity | apply b64_roundtrip; reflexivity]. Defined.

Lemma b64encode_shape_witness :
  bytes_ok (zeros 32) = true /\
  length (b64encode (zeros 32)) = (4 * ((length (zeros 32) + 2) / 3))%nat /\
  Forall (fun c => 0 <= b64_value c < 64 \/ c = 61) (b64encode (zeros 32)).
Proof. split; [reflexivity | apply b64encode_shape; reflexivity]. Defined.

Lemma a2b_skips_junk_witness :
  33 <> 61 /\ 64 <= b64_value 33 /\
  a2b_loop (lit "QU" ++ 33 :: lit "JD") a2b_init = a2b_loop (lit "QU" ++ lit "JD") a2b_init.
Proof.
  split; [lia | split; [vm_compute; discriminate |]].
  apply a2b_skips_junk; [lia | vm_compute; discriminate].
Defined.
