(* ===== verification/PasswordHash.v ===== *)
(** * [generate_pbkdf2_hash] and [verify_pbkdf2_hash]

    The two functions of [src/laravel-workos-starterKit/generate_password_hash.py],
    step by step:

    - [encode_password] (lines 25-26, 69-70): a [str] is encoded as
      UTF-8; any other value is passed on unchanged.
    - [default_salt] (lines 29-30): [os.urandom(32)] when no salt is
      given. The operating system's entropy is explicit state
      ([os_state]): an entropy source and the number of bytes drawn.
    - [derive_key] (lines 33-41, 77-85): a fresh [PBKDF2HMAC] object with
      [length=32] and one call to [derive].
    - [b64_field] (lines 44-45): [base64.b64encode(x).decode('utf-8')].
    - [hash_record] (lines 47-52): the returned dict, whose four keys are
      the fields of a record.
    - [verify_body] (lines 68-88): the body of the [try]; line 88 reads
      the global [hashlib] and its attribute [compare_digest] in the
      module's namespace ([Namespace.load_attr]) and calls it.
    - [verify_pbkdf2_hash] (lines 67-92): the [try] with its handler,
      which prints [Error during verification: {e}] and returns [False];
      the result pairs the returned [bool] with the printed lines.
    - [verify_fixed]: the same body with [hmac.compare_digest], the
      function the comment of line 87 describes. It is not in the source;
      it states what the script means to do, and runs with [import hmac]
      added to lines 6-10 ([fixed_globals]). [verify_hmac_only] has the
      corrected line 88 and the imports as they are.

    Theorems: [generate_pbkdf2_hash] returns, for a password without lone
    surrogates and a positive count, the record whose decoded salt is the
    32 bytes drawn from [os.urandom] and whose decoded hash is the
    PBKDF2-HMAC-SHA256 key; it consumes entropy only when it draws the
    salt; it rejects a non-positive count, a count above [INT_MAX] and
    a surrogate; a caller's salt
    of any length is accepted; every record it returns satisfies
    [record_typed]. [verify_pbkdf2_hash] never raises and
    returns [False] on every input, because [hashlib] has no attribute
    [compare_digest]; correcting line 88 alone prints [name 'hmac' is
    not defined] instead. With [hmac.compare_digest] imported, verification accepts
    every record that [generate_pbkdf2_hash] produced for the same
    password and count, rejects a password whose key differs, and returns
    [False] on malformed base64. *)

From Stdlib Require Import String ZArith List Lia Bool.
From S2P Require Import Prelude PyRuntime Namespace Utf8 Words Sha256 Hmac Pbkdf2 Base64.
Import ListNotations.
Open Scope Z_scope.

(** ** The operating system's entropy *)

Record os_state := mkOs {
  entropy : nat -> Z;   (** the [i]-th byte the kernel will hand out *)
  drawn : nat           (** how many bytes have been handed out *)
}.

(** [os.urandom(n)]: the next [n] bytes. *)
Definition os_urandom (n : nat) (os : os_state) : list Z * os_state :=
  (map (fun i => entropy os i mod 256) (seq (drawn os) n),
   mkOs (entropy os) (drawn os + n)).

(** ** The returned dict *)

Record hash_record := mkRecord {
  rec_hash : list Z;        (** ['hash'] *)
  rec_salt : list Z;        (** ['salt'] *)
  rec_iterations : Z;       (** ['iterations'] *)
  rec_algorithm : list Z    (** ['algorithm'] *)
}.

(** The types the docstring of lines 21-22 promises, made precise: the
    hash and the salt are [str] values of 44 base64 characters (32 bytes
    each), the count an [int] of at least one, the algorithm the fixed
    name. *)
Definition record_typed (r : hash_record) : bool :=
  Nat.eqb (length (rec_hash r)) 44 && Nat.eqb (length (rec_salt r)) 44
  && b64_text (rec_hash r) && b64_text (rec_salt r) && (0 <? rec_iterations r)
  && (if list_eq_dec Z.eq_dec (rec_algorithm r) (lit "PBKDF2-SHA256") then true else false).

Section Generate.

(** [if isinstance(password, str): password = password.encode('utf-8')] *)
Definition encode_password (password : pyval) : result pyval :=
  match password with
  | PyStr s => b <- utf8_encode s ;; Ok (PyBytes b)
  | other => Ok other
  end.

(** [if salt is None: salt = os.urandom(32)] *)
Definition default_salt (salt : pyval) (os : os_state) : pyval * os_state :=
  match salt with
  | PyNone => let '(b, os') := os_urandom 32 os in (PyBytes b, os')
  | other => (other, os)
  end.

(** [kdf = PBKDF2HMAC(algorithm=hashes.SHA256(), length=32, salt=salt,
    iterations=iterations)]; [key = kdf.derive(password)] *)
Definition derive_key (password salt : pyval) (iterations : Z) : result (list Z) :=
  kdf <- PBKDF2HMAC_init 32 salt iterations ;;
  fst (PBKDF2HMAC_derive kdf password).

(** [base64.b64encode(x).decode('utf-8')]; [b64encode] takes a
    bytes-like argument. *)
Definition b64_field (x : pyval) : result (list Z) :=
  match x with
  | PyBytes b => utf8_decode (b64encode b)
  | _ => Raise (TypeError "a bytes-like object is required")
  end.

Definition hash_record_of (key_b64 salt_b64 : list Z) (iterations : Z) : hash_record :=
  mkRecord key_b64 salt_b64 iterations (lit "PBKDF2-SHA256").

Definition generate_pbkdf2_hash (password salt : pyval) (iterations : Z) (os : os_state)
  : result hash_record * os_state :=
  match encode_password password with
  | Raise e => (Raise e, os)
  | Ok pw =>
      let '(salt', os') := default_salt salt os in
      ((key <- derive_key pw salt' iterations ;;
        salt_b64 <- b64_field salt' ;;
        key_b64 <- b64_field (PyBytes key) ;;
        Ok (hash_record_of key_b64 salt_b64 iterations)), os')
  end.

End Generate.

Section Verify.

(** The body of the [try], lines 69-88; [compare_digest_attr] is the
    value of the expression [<module>.compare_digest] of line 88, which
    is evaluated after lines 69-85 (a lookup has no effect, so only the
    place of its exception in the sequence matters). *)
Definition verify_with (compare_digest_attr : result builtin)
    (password stored_hash stored_salt : pyval) (iterations : Z) : result bool :=
  pw <- encode_password password ;;
  salt <- b64decode stored_salt ;;
  stored_key <- b64decode stored_hash ;;
  key <- derive_key pw (PyBytes salt) iterations ;;
  cmp <- compare_digest_attr ;;
  call2 cmp (PyBytes key) (PyBytes stored_key).

(** Line 88 reads [hashlib] in the module's namespace. *)
Definition verify_body :=
  verify_with (load_attr cpython311 script_globals "hashlib" "compare_digest").

(** [except Exception as e: print(f"Error during verification: {e}");
    return False] *)
Definition verify_handler (e : exc) : bool * list (list Z) :=
  (false, [lit "Error during verification: " ++ exc_str e]).

Definition verify_pbkdf2_hash (password stored_hash stored_salt : pyval) (iterations : Z)
  : bool * list (list Z) :=
  try_except (r <- verify_body password stored_hash stored_salt iterations ;; Ok (r, []))
             verify_handler.

Definition verify_fixed (password stored_hash stored_salt : pyval) (iterations : Z)
  : bool * list (list Z) :=
  try_except (r <- verify_with (load_attr cpython311 fixed_globals "hmac" "compare_digest")
                               password stored_hash stored_salt iterations ;;
              Ok (r, []))
             verify_handler.

(** Line 88 with [hmac.compare_digest] but the imports of lines 6-10 as
    they are. *)
Definition verify_hmac_only (password stored_hash stored_salt : pyval) (iterations : Z)
  : bool * list (list Z) :=
  try_except (r <- verify_with (load_attr cpython311 script_globals "hmac" "compare_digest")
                               password stored_hash stored_salt iterations ;;
              Ok (r, []))
             verify_handler.

End Verify.

(** ** Building blocks *)

Lemma os_urandom_spec (n : nat) (os : os_state) :
  length (fst (os_urandom n os)) = n /\ bytes_ok (fst (os_urandom n os)) = true /\
  snd (os_urandom n os) = mkOs (entropy os) (drawn os + n).
Proof.
  split; [| split]; [simpl; rewrite length_map, length_seq; reflexivity | | reflexivity].
  simpl. apply bytes_ok_spec, Forall_forall. intros x Hx.
  apply in_map_iff in Hx as (i & <- & _). apply Z.mod_pos_bound. lia.
Qed.

Lemma b64_field_bytes (b : list Z) :
  bytes_ok b = true -> b64_field (PyBytes b) = Ok (b64encode b).
Proof. intros H. apply utf8_decode_ascii, is_ascii_b64encode, H. Qed.

Lemma derive_key_inv (pwv sv : pyval) (it : Z) (key : list Z) :
  derive_key pwv sv it = Ok key ->
  exists pw sb, pwv = PyBytes pw /\ sv = PyBytes sb /\ 0 < it <= INT_MAX /\
                key = pbkdf2_hmac_sha256 pw sb (Z.to_nat it) 32.
Proof.
  unfold derive_key. destruct sv as [| | | | sb]; try (simpl; discriminate).
  cbn [PBKDF2HMAC_init bind]. intros H. apply kdf_derive_ok in H as (pw & -> & Hit & ->).
  exists pw, sb. auto.
Qed.

Lemma derive_key_ok (pw sb : list Z) (it : Z) :
  0 < it <= INT_MAX ->
  derive_key (PyBytes pw) (PyBytes sb) it = Ok (pbkdf2_hmac_sha256 pw sb (Z.to_nat it) 32).
Proof. intros Hit. apply kdf_derive_ok. exists pw. auto. Qed.

(** What a successful call has computed. *)
Lemma generate_inv (password salt : pyval) (it : Z) (os : os_state) (rec : hash_record)
    (os' : os_state) :
  generate_pbkdf2_hash password salt it os = (Ok rec, os') ->
  exists pw sb, encode_password password = Ok (PyBytes pw) /\
    default_salt salt os = (PyBytes sb, os') /\ 0 < it <= INT_MAX /\
    b64_field (PyBytes sb) = Ok (rec_salt rec) /\
    b64_field (PyBytes (pbkdf2_hmac_sha256 pw sb (Z.to_nat it) 32)) = Ok (rec_hash rec) /\
    rec_iterations rec = it /\ rec_algorithm rec = lit "PBKDF2-SHA256".
Proof.
  unfold generate_pbkdf2_hash. destruct (encode_password password) as [pwv | e] eqn:He;
    [| discriminate].
  destruct (default_salt salt os) as [sv os2] eqn:Hd. intros H. injection H as Hr Hos. subst os2.
  apply bind_ok_inv in Hr as (key & Hk & Hr).
  apply derive_key_inv in Hk as (pw & sb & -> & -> & Hit & ->).
  apply bind_ok_inv in Hr as (sb64 & Hs & Hr). apply bind_ok_inv in Hr as (kb64 & Hkb & Hr).
  injection Hr as <-. exists pw, sb. repeat split; auto; apply Hit.
Qed.

(** The salt [generate_pbkdf2_hash] ends up with is a byte string. *)
Definition salt_ok (salt : pyval) : Prop :=
  match salt with
  | PyBytes sb => bytes_ok sb = true
  | _ => True
  end.

Lemma default_salt_bytes (salt : pyval) (os : os_state) (sb : list Z) (os' : os_state) :
  salt_ok salt -> default_salt salt os = (PyBytes sb, os') -> bytes_ok sb = true.
Proof.
  intros Hok H. destruct salt; simpl in H; injection H as Hs Hos; try discriminate.
  - rewrite <- Hs. apply (os_urandom_spec 32 os).
  - subst. exact Hok.
Qed.

(** ** [generate_pbkdf2_hash] *)

(** C8: With no salt, the record holds the 32 bytes drawn from [os.urandom]
    and the PBKDF2-HMAC-SHA256 key of the encoded password, both in
    base64, the count and the algorithm name; 32 bytes of entropy are
    consumed. *)
Theorem generate_fresh_salt (password : pyval) (pw : list Z) (it : Z) (os : os_state) :
  encode_password password = Ok (PyBytes pw) -> 0 < it <= INT_MAX ->
  let salt := fst (os_urandom 32 os) in
  generate_pbkdf2_hash password PyNone it os
  = (Ok (mkRecord (b64encode (pbkdf2_hmac_sha256 pw salt (Z.to_nat it) 32)) (b64encode salt)
                  it (lit "PBKDF2-SHA256")),
     mkOs (entropy os) (drawn os + 32)).
Proof.
  intros He Hit salt. pose proof (os_urandom_spec 32 os) as (_ & Hb & Hos).
  unfold generate_pbkdf2_hash. rewrite He. cbv beta iota zeta.
  unfold default_salt. rewrite (surjective_pairing (os_urandom 32 os)), Hos.
  fold salt. fold salt in Hb. cbv beta iota zeta.
  rewrite derive_key_ok by exact Hit. cbn [bind].
  rewrite !b64_field_bytes by auto using bytes_ok_pbkdf2_hmac_sha256. reflexivity.
Qed.

Lemma encode_password_str (s pw : list Z) :
  utf8_encode s = Ok pw -> encode_password (PyStr s) = Ok (PyBytes pw).
Proof. intros He. unfold encode_password. rewrite He. reflexivity. Qed.

(** With no salt, a password that encodes and a count in [1, INT_MAX], the call
    succeeds and draws exactly 32 bytes. *)
Lemma generate_none_ok (password : pyval) (pw : list Z) (it : Z) (os : os_state) :
  encode_password password = Ok (PyBytes pw) -> 0 < it <= INT_MAX ->
  exists r, generate_pbkdf2_hash password PyNone it os
            = (Ok r, mkOs (entropy os) (drawn os + 32)).
Proof.
  intros He Hit. pose proof (os_urandom_spec 32 os) as (_ & Hb & Hos).
  unfold generate_pbkdf2_hash. rewrite He.
  unfold default_salt. destruct (os_urandom 32 os) as [salt os2]. cbn in Hb, Hos. subst os2.
  rewrite derive_key_ok by exact Hit. cbn [bind].
  rewrite !b64_field_bytes by auto using bytes_ok_pbkdf2_hmac_sha256. eexists. reflexivity.
Qed.

(** What the stored strings of a fresh record decode to. *)
Lemma generate_record_decodes (password : pyval) (it : Z) (os : os_state)
    (rec : hash_record) (os' : os_state) :
  generate_pbkdf2_hash password PyNone it os = (Ok rec, os') ->
  exists pw, encode_password password = Ok (PyBytes pw) /\ 0 < it <= INT_MAX /\
    b64decode (PyStr (rec_salt rec)) = Ok (fst (os_urandom 32 os)) /\
    b64decode (PyStr (rec_hash rec))
      = Ok (pbkdf2_hmac_sha256 pw (fst (os_urandom 32 os)) (Z.to_nat it) 32) /\
    rec_iterations rec = it.
Proof.
  intros H. apply generate_inv in H as (pw & sb & He & Hd & Hit & Hs & Hk & Hi & _).
  pose proof (os_urandom_spec 32 os) as (_ & Hb & _).
  unfold default_salt in Hd. revert Hd Hb.
  destruct (os_urandom 32 os) as [b os2]. simpl. intros Hd Hb. injection Hd as <- _.
  rewrite b64_field_bytes in Hs, Hk by auto using bytes_ok_pbkdf2_hmac_sha256.
  injection Hs as <-. injection Hk as <-.
  exists pw. rewrite !b64decode_b64encode by auto using bytes_ok_pbkdf2_hmac_sha256. auto.
Qed.

(** C9: The length invariant of a record: with no salt given, the stored salt
    and hash decode to 32 bytes each, and the count is at least one. *)
Theorem generate_record_lengths (password : pyval) (it : Z) (os : os_state)
    (rec : hash_record) (os' : os_state) :
  generate_pbkdf2_hash password PyNone it os = (Ok rec, os') ->
  exists salt key,
    b64decode (PyStr (rec_salt rec)) = Ok salt /\ length salt = 32%nat /\
    b64decode (PyStr (rec_hash rec)) = Ok key /\ length key = 32%nat /\
    rec_iterations rec = it /\ 1 <= it.
Proof.
  intros H. apply generate_record_decodes in H as (pw & _ & Hit & Hs & Hk & Hi).
  pose proof (os_urandom_spec 32 os) as (Hlen & _).
  do 2 eexists. repeat split; eauto using length_pbkdf2_hmac_sha256. lia.
Qed.

(** C10: Type of the result: every record made with a drawn salt has the
    shape of [record_typed], a 44-character base64 hash and salt, a
    positive count and the algorithm name. *)
Theorem generate_record_typed (password : pyval) (it : Z) (os : os_state)
    (rec : hash_record) (os' : os_state) :
  generate_pbkdf2_hash password PyNone it os = (Ok rec, os') -> record_typed rec = true.
Proof.
  intros H. apply generate_inv in H as (pw & sb & _ & Hd & Hit & Hs & Hk & Hi & Ha).
  pose proof (os_urandom_spec 32 os) as (Hlen & Hb & _).
  unfold default_salt in Hd. revert Hd Hlen Hb.
  destruct (os_urandom 32 os) as [b os2]. cbn [fst]. intros Hd Hlen Hb. injection Hd as <- _.
  assert (Hkb : bytes_ok (pbkdf2_hmac_sha256 pw b (Z.to_nat it) 32) = true)
    by apply bytes_ok_pbkdf2_hmac_sha256.
  unfold record_typed.
  rewrite b64_field_bytes in Hs, Hk by assumption. injection Hs as <-. injection Hk as <-.
  rewrite Hi, Ha, !b64_text_b64encode by assumption.
  rewrite !b64encode_ref by assumption. rewrite !length_b64_ref, Hlen, length_pbkdf2_hmac_sha256.
  destruct (list_eq_dec Z.eq_dec _ _) as [_ | E]; [| contradiction].
  rewrite (proj2 (Z.ltb_lt 0 it) (proj1 Hit)). reflexivity.
Qed.

(** C22: Entropy is consumed only when the salt is drawn: a caller's salt leaves
    the operating system's state unchanged, whatever the outcome. *)
Theorem generate_given_salt_no_entropy (password : pyval) (sb : list Z) (it : Z)
    (os : os_state) :
  snd (generate_pbkdf2_hash password (PyBytes sb) it os) = os.
Proof.
  unfold generate_pbkdf2_hash. destruct (encode_password password); reflexivity.
Qed.

(** C23: Determinism: with a caller's salt, the result does not depend on the
    operating system's state; the same password, salt and count give the
    same record or the same exception. *)
Theorem generate_deterministic (password : pyval) (sb : list Z) (it : Z) (os1 os2 : os_state) :
  fst (generate_pbkdf2_hash password (PyBytes sb) it os1)
  = fst (generate_pbkdf2_hash password (PyBytes sb) it os2).
Proof.
  unfold generate_pbkdf2_hash. destruct (encode_password password); reflexivity.
Qed.

(** C11: A caller's salt of any length is accepted and stored as it is: there
    is no check that it has 32 bytes. *)
Theorem generate_any_salt_length (password : pyval) (pw sb : list Z) (it : Z) (os : os_state) :
  encode_password password = Ok (PyBytes pw) -> bytes_ok sb = true -> 0 < it <= INT_MAX ->
  exists rec, generate_pbkdf2_hash password (PyBytes sb) it os = (Ok rec, os) /\
              b64decode (PyStr (rec_salt rec)) = Ok sb.
Proof.
  intros He Hb Hit. unfold generate_pbkdf2_hash. rewrite He. cbv beta iota zeta.
  unfold default_salt. cbv beta iota zeta.
  rewrite derive_key_ok by exact Hit. cbn [bind].
  rewrite !b64_field_bytes by auto using bytes_ok_pbkdf2_hmac_sha256.
  eexists. split; [reflexivity |]. apply b64decode_b64encode, Hb.
Qed.

(** C15: A count below one is an error the caller sees. *)
Theorem generate_nonpositive_iterations (password salt : pyval) (it : Z) (os : os_state) :
  it <= 0 -> exists e, fst (generate_pbkdf2_hash password salt it os) = Raise e.
Proof.
  intros Hit. destruct (generate_pbkdf2_hash password salt it os) as [[rec | e] os'] eqn:H.
  - apply generate_inv in H as (_ & _ & _ & _ & Hpos & _). lia.
  - exists e. reflexivity.
Qed.


(** C17: A [str] password with a lone surrogate raises [UnicodeEncodeError]
    before any salt is drawn. *)
Theorem generate_surrogate (pre rest : list Z) (c : Z) (salt : pyval) (it : Z) (os : os_state) :
  no_surrogates pre = true -> is_surrogate c = true ->
  generate_pbkdf2_hash (PyStr (pre ++ c :: rest)) salt it os
  = (Raise (UnicodeEncodeError c (length pre) (length pre + surrogate_run (c :: rest))), os).
Proof.
  intros Hpre Hc. unfold generate_pbkdf2_hash, encode_password.
  rewrite utf8_encode_surrogate by assumption. reflexivity.
Qed.

(** ** [verify_pbkdf2_hash] *)

(** When line 88 raises whenever it is reached, every earlier step
    either raises or reaches it: the [try] body never returns. *)
Lemma verify_with_raises (attr : result builtin) (e0 : exc)
    (password stored_hash stored_salt : pyval) (it : Z) :
  attr = Raise e0 -> exists e, verify_with attr password stored_hash stored_salt it = Raise e.
Proof.
  intros ->. unfold verify_with.
  destruct (encode_password password) as [pw | e]; [| now exists e]. cbn [bind].
  destruct (b64decode stored_salt) as [salt | e]; [| now exists e]. cbn [bind].
  destruct (b64decode stored_hash) as [sk | e]; [| now exists e]. cbn [bind].
  destruct (derive_key pw (PyBytes salt) it) as [key | e]; [| now exists e].
  now exists e0.
Qed.

Lemma verify_body_raises (password stored_hash stored_salt : pyval) (it : Z) :
  exists e, verify_body password stored_hash stored_salt it = Raise e.
Proof. exact (verify_with_raises _ _ _ _ _ _ hashlib_compare_digest_unresolved). Qed.

(** C1: [verify_pbkdf2_hash] returns [False] on every input. *)
Theorem verify_always_false (password stored_hash stored_salt : pyval) (it : Z) :
  fst (verify_pbkdf2_hash password stored_hash stored_salt it) = false.
Proof.
  unfold verify_pbkdf2_hash.
  destruct (verify_body_raises password stored_hash stored_salt it) as [e ->]. reflexivity.
Qed.

(** Both verifications share the steps before the comparison. *)
Lemma verify_with_spec (attr : result builtin) (password stored_hash stored_salt : pyval)
    (it : Z) (pw salt stored : list Z) :
  encode_password password = Ok (PyBytes pw) -> b64decode stored_salt = Ok salt ->
  b64decode stored_hash = Ok stored -> 0 < it <= INT_MAX ->
  verify_with attr password stored_hash stored_salt it
  = (cmp <- attr ;;
     call2 cmp (PyBytes (pbkdf2_hmac_sha256 pw salt (Z.to_nat it) 32)) (PyBytes stored)).
Proof.
  intros He Hs Hh Hit. unfold verify_with. rewrite He, Hs, Hh. cbn [bind].
  rewrite derive_key_ok by exact Hit. reflexivity.
Qed.

(** C2: On a record that [generate_pbkdf2_hash] produced, with the same
    password and count, verification prints the [AttributeError] and
    returns [False]. *)
Theorem verify_generated_reports_error (password : pyval) (it : Z) (os : os_state)
    (rec : hash_record) (os' : os_state) :
  generate_pbkdf2_hash password PyNone it os = (Ok rec, os') ->
  verify_pbkdf2_hash password (PyStr (rec_hash rec)) (PyStr (rec_salt rec)) it
  = (false, [lit "Error during verification: module 'hashlib' has no attribute 'compare_digest'"]).
Proof.
  intros H. apply generate_record_decodes in H as (pw & He & Hit & Hs & Hk & _).
  unfold verify_pbkdf2_hash, verify_body.
  rewrite (verify_with_spec _ _ _ _ _ pw _ _ He Hs Hk Hit), hashlib_compare_digest_unresolved.
  reflexivity.
Qed.

(** C4: Correcting line 88 alone is not enough: with [hmac.compare_digest]
    but the imports of lines 6-10, which do not import [hmac], a record
    just generated is still rejected, with the [NameError] printed. *)
Theorem verify_hmac_only_reports_name_error (password : pyval) (it : Z) (os : os_state)
    (rec : hash_record) (os' : os_state) :
  generate_pbkdf2_hash password PyNone it os = (Ok rec, os') ->
  verify_hmac_only password (PyStr (rec_hash rec)) (PyStr (rec_salt rec)) it
  = (false, [lit "Error during verification: name 'hmac' is not defined"]).
Proof.
  intros H. apply generate_record_decodes in H as (pw & He & Hit & Hs & Hk & _).
  unfold verify_hmac_only.
  rewrite (verify_with_spec _ _ _ _ _ pw _ _ He Hs Hk Hit), hmac_compare_digest_unbound.
  reflexivity.
Qed.

(** ** Verification with [hmac.compare_digest] *)

(** Once the stored strings decode, the answer is the constant-time
    comparison of the re-derived key with the stored one. *)
Theorem verify_fixed_spec (password stored_hash stored_salt : pyval) (it : Z)
    (pw salt stored : list Z) :
  encode_password password = Ok (PyBytes pw) -> b64decode stored_salt = Ok salt ->
  b64decode stored_hash = Ok stored -> 0 < it <= INT_MAX ->
  verify_fixed password stored_hash stored_salt it
  = (tscmp (pbkdf2_hmac_sha256 pw salt (Z.to_nat it) 32) stored, []).
Proof.
  intros He Hs Hh Hit. unfold verify_fixed.
  rewrite (verify_with_spec _ _ _ _ _ pw salt stored), hmac_compare_digest_imported by assumption.
  reflexivity.
Qed.

(** C6: Round trip: a record from [generate_pbkdf2_hash] verifies with the
    password and count it was made from. *)
Theorem verify_fixed_roundtrip (password : pyval) (it : Z) (os : os_state)
    (rec : hash_record) (os' : os_state) :
  generate_pbkdf2_hash password PyNone it os = (Ok rec, os') ->
  verify_fixed password (PyStr (rec_hash rec)) (PyStr (rec_salt rec)) it = (true, []).
Proof.
  intros H. pose proof H as Hg.
  apply generate_inv in Hg as (pw & sb & He & Hd & Hit & Hs & Hk & _).
  assert (Hb : bytes_ok sb = true) by (apply (default_salt_bytes PyNone os sb os' I Hd)).
  rewrite !b64_field_bytes in Hs, Hk by auto using bytes_ok_pbkdf2_hmac_sha256.
  injection Hs as <-. injection Hk as <-.
  rewrite (verify_fixed_spec _ _ _ _ pw sb (pbkdf2_hmac_sha256 pw sb (Z.to_nat it) 32));
    auto using b64decode_b64encode, bytes_ok_pbkdf2_hmac_sha256.
  rewrite (proj2 (tscmp_correct _ _) eq_refl). reflexivity.
Qed.

(** C12: A password whose key differs from the stored one is rejected, for
    every count the library computes with ([1 <= it <= INT_MAX]). *)
Theorem verify_fixed_wrong_password (password : pyval) (stored_hash stored_salt : pyval) (it : Z)
    (pw salt stored : list Z) :
  encode_password password = Ok (PyBytes pw) -> b64decode stored_salt = Ok salt ->
  b64decode stored_hash = Ok stored -> 0 < it <= INT_MAX ->
  pbkdf2_hmac_sha256 pw salt (Z.to_nat it) 32 <> stored ->
  verify_fixed password stored_hash stored_salt it = (false, []).
Proof.
  intros He Hs Hh Hit Hne. rewrite (verify_fixed_spec _ _ _ _ pw salt stored) by assumption.
  destruct (tscmp _ stored) eqn:E; [apply tscmp_correct in E; contradiction | reflexivity].
Qed.

(** C13: Malformed stored salt: both verifications print the decoding error
    and return [False]; nothing escapes the [try]. *)
Theorem verify_malformed_salt (password stored_hash stored_salt : pyval) (it : Z)
    (pw : list Z) (e : exc) :
  encode_password password = Ok (PyBytes pw) -> b64decode stored_salt = Raise e ->
  verify_pbkdf2_hash password stored_hash stored_salt it
  = (false, [lit "Error during verification: " ++ exc_str e]) /\
  verify_fixed password stored_hash stored_salt it
  = (false, [lit "Error during verification: " ++ exc_str e]).
Proof.
  intros He Hs. unfold verify_pbkdf2_hash, verify_fixed, verify_body, verify_with.
  rewrite He, Hs. split; reflexivity.
Qed.

(** C14: The malformed-input case of the specification, in general: a
    stored salt of ASCII text without [=] whose alphabet characters leave
    two or three over a multiple of four (as ["also-bad"] does: [-] is
    skipped, seven remain) makes both verifications print [Incorrect
    padding] and return [False], whatever the stored hash and count. *)
Theorem verify_salt_incorrect_padding (password stored_hash : pyval) (pw s : list Z) (it : Z) :
  encode_password password = Ok (PyBytes pw) -> is_ascii_str s = true -> no_pad s = true ->
  (data_count s mod 4 = 2 \/ data_count s mod 4 = 3)%nat ->
  verify_pbkdf2_hash password stored_hash (PyStr s) it
  = (false, [lit "Error during verification: Incorrect padding"]) /\
  verify_fixed password stored_hash (PyStr s) it
  = (false, [lit "Error during verification: Incorrect padding"]).
Proof.
  intros He Ha Hs Hn.
  assert (Hd : b64decode (PyStr s) = Raise (BinasciiError (lit "Incorrect padding"))).
  { unfold b64decode, bytes_from_decode_data. rewrite Ha. exact (a2b_incorrect_padding s Hs Hn). }
  unfold verify_pbkdf2_hash, verify_fixed, verify_body, verify_with.
  rewrite He, Hd. split; reflexivity.
Qed.

(** ** Witnesses: the theorems at concrete inputs *)

Definition demo_os : os_state := mkOs (fun i => Z.of_nat i * 7) 0.
Definition demo_password : pyval := PyStr (lit "mySecurePassword123").
Definition demo_generated : result hash_record * os_state :=
  generate_pbkdf2_hash demo_password PyNone 1 demo_os.
Definition demo_record : hash_record :=
  match fst demo_generated with Ok r => r | Raise _ => mkRecord [] [] 0 [] end.
Definition demo_salt : list Z := fst (os_urandom 32 demo_os).
Definition demo_key : list Z := pbkdf2_hmac_sha256 (lit "mySecurePassword123") demo_salt 1 32.

Lemma verify_generated_reports_error_witness :
  generate_pbkdf2_hash demo_password PyNone 1 demo_os = (Ok demo_record, snd demo_generated) /\
  verify_pbkdf2_hash demo_password (PyStr (rec_hash demo_record)) (PyStr (rec_salt demo_record)) 1
  = (false, [lit "Error during verification: module 'hashlib' has no attribute 'compare_digest'"]).
Proof.
  assert (H : generate_pbkdf2_hash demo_password PyNone 1 demo_os
              = (Ok demo_record, snd demo_generated)) by (vm_compute; reflexivity).
  split; [exact H | exact (verify_generated_reports_error _ _ _ _ _ H)].
Defined.

Lemma verify_fixed_roundtrip_witness :
  generate_pbkdf2_hash demo_password PyNone 1 demo_os = (Ok demo_record, snd demo_generated) /\
  verify_fixed demo_password (PyStr (rec_hash demo_record)) (PyStr (rec_salt demo_record)) 1
  = (true, []).
Proof.
  assert (H : generate_pbkdf2_hash demo_password PyNone 1 demo_os
              = (Ok demo_record, snd demo_generated)) by (vm_compute; reflexivity).
  split; [exact H | exact (verify_fixed_roundtrip _ _ _ _ _ H)].
Defined.

Lemma generate_fresh_salt_witness :
  encode_password demo_password = Ok (PyBytes (lit "mySecurePassword123")) /\ 0 < 1 <= INT_MAX /\
  generate_pbkdf2_hash demo_password PyNone 1 demo_os
  = (Ok (mkRecord (b64encode demo_key) (b64encode demo_salt) 1 (lit "PBKDF2-SHA256")),
     mkOs (entropy demo_os) (drawn demo_os + 32)).
Proof.
  assert (He : encode_password demo_password = Ok (PyBytes (lit "mySecurePassword123")))
    by (vm_compute; reflexivity).
  split; [exact He | split; [unfold INT_MAX; lia | exact (generate_fresh_salt _ _ 1 demo_os He ltac:(unfold INT_MAX; lia))]].
Defined.

Lemma generate_record_lengths_witness :
  generate_pbkdf2_hash demo_password PyNone 1 demo_os = (Ok demo_record, snd demo_generated) /\
  exists salt key,
    b64decode (PyStr (rec_salt demo_record)) = Ok salt /\ length salt = 32%nat /\
    b64decode (PyStr (rec_hash demo_record)) = Ok key /\ length key = 32%nat /\
    rec_iterations demo_record = 1 /\ 1 <= 1.
Proof.
  assert (H : generate_pbkdf2_hash demo_password PyNone 1 demo_os
              = (Ok demo_record, snd demo_generated)) by (vm_compute; reflexivity).
  split; [exact H | exact (generate_record_lengths _ _ _ _ _ H)].
Defined.

Lemma generate_record_typed_witness :
  generate_pbkdf2_hash demo_password PyNone 1 demo_os = (Ok demo_record, snd demo_generated) /\
  record_typed demo_record = true.
Proof.
  assert (H : generate_pbkdf2_hash demo_password PyNone 1 demo_os
              = (Ok demo_record, snd demo_generated)) by (vm_compute; reflexivity).
  split; [exact H | exact (generate_record_typed _ _ _ _ _ H)].
Defined.

Lemma generate_any_salt_length_witness :
  encode_password demo_password = Ok (PyBytes (lit "mySecurePassword123")) /\
  bytes_ok (repeat 7 16) = true /\ 0 < 1 <= INT_MAX /\
  exists rec, generate_pbkdf2_hash demo_password (PyBytes (repeat 7 16)) 1 demo_os
              = (Ok rec, demo_os) /\
              b64decode (PyStr (rec_salt rec)) = Ok (repeat 7 16).
Proof.
  assert (He : encode_password demo_password = Ok (PyBytes (lit "mySecurePassword123")))
    by (vm_compute; reflexivity).
  assert (Hb : bytes_ok (repeat 7 16) = true) by reflexivity.
  split; [exact He | split; [exact Hb | split; [unfold INT_MAX; lia |]]].
  exact (generate_any_salt_length _ _ _ 1 demo_os He Hb ltac:(unfold INT_MAX; lia)).
Defined.

Lemma verify_fixed_wrong_password_witness :
  encode_password (PyStr (lit "wrongPassword")) = Ok (PyBytes (lit "wrongPassword")) /\
  b64decode (PyStr (b64encode demo_salt)) = Ok demo_salt /\
  b64decode (PyStr (b64encode demo_key)) = Ok demo_key /\
  pbkdf2_hmac_sha256 (lit "wrongPassword") demo_salt (Z.to_nat 1) 32 <> demo_key /\
  verify_fixed (PyStr (lit "wrongPassword")) (PyStr (b64encode demo_key))
    (PyStr (b64encode demo_salt)) 1 = (false, []).
Proof.
  assert (He : encode_password (PyStr (lit "wrongPassword")) = Ok (PyBytes (lit "wrongPassword")))
    by (vm_compute; reflexivity).
  assert (Hs : b64decode (PyStr (b64encode demo_salt)) = Ok demo_salt) by (vm_compute; reflexivity).
  assert (Hk : b64decode (PyStr (b64encode demo_key)) = Ok demo_key) by (vm_compute; reflexivity).
  assert (Hne : pbkdf2_hmac_sha256 (lit "wrongPassword") demo_salt (Z.to_nat 1) 32 <> demo_key)
    by (vm_compute; discriminate).
  split; [exact He | split; [exact Hs | split; [exact Hk | split; [exact Hne |]]]].
  exact (verify_fixed_wrong_password _ _ _ 1 _ _ _ He Hs Hk ltac:(unfold INT_MAX; lia) Hne).
Defined.

Lemma verify_malformed_salt_witness :
  encode_password demo_password = Ok (PyBytes (lit "mySecurePassword123")) /\
  b64decode (PyStr (lit "not-base64!!"))
  = Raise (BinasciiError (a2b_excess_msg 6)) /\
  verify_pbkdf2_hash demo_password (PyStr (lit "x")) (PyStr (lit "not-base64!!")) 600000
  = (false, [lit "Error during verification: " ++ exc_str (BinasciiError (a2b_excess_msg 6))]) /\
  verify_fixed demo_password (PyStr (lit "x")) (PyStr (lit "not-base64!!")) 600000
  = (false, [lit "Error during verification: " ++ exc_str (BinasciiError (a2b_excess_msg 6))]).
Proof.
  assert (He : encode_password demo_password = Ok (PyBytes (lit "mySecurePassword123")))
    by (vm_compute; reflexivity).
  assert (Hs : b64decode (PyStr (lit "not-base64!!")) = Raise (BinasciiError (a2b_excess_msg 6)))
    by (vm_compute; reflexivity).
  split; [exact He | split; [exact Hs |]].
  exact (verify_malformed_salt _ _ _ 600000 _ _ He Hs).
Defined.

Lemma generate_nonpositive_iterations_witness :
  0 <= 0 /\ exists e, fst (generate_pbkdf2_hash demo_password PyNone 0 demo_os) = Raise e.
Proof. split; [lia | exact (generate_nonpositive_iterations _ _ 0 demo_os ltac:(lia))]. Defined.

Lemma generate_surrogate_witness :
  no_surrogates (lit "ab") = true /\ is_surrogate 0xD800 = true /\
  generate_pbkdf2_hash (PyStr (lit "ab" ++ 0xD800 :: lit "c")) PyNone 600000 demo_os
  = (Raise (UnicodeEncodeError 0xD800 2 3), demo_os).
Proof.
  split; [reflexivity | split; [reflexivity |]].
  exact (generate_surrogate (lit "ab") (lit "c") 0xD800 PyNone 600000 demo_os eq_refl eq_refl).
Defined.

Lemma verify_hmac_only_reports_name_error_witness :
  generate_pbkdf2_hash demo_password PyNone 1 demo_os = (Ok demo_record, snd demo_generated) /\
  verify_hmac_only demo_password (PyStr (rec_hash demo_record)) (PyStr (rec_salt demo_record)) 1
  = (false, [lit "Error during verification: name 'hmac' is not defined"]).
Proof.
  assert (H : generate_pbkdf2_hash demo_password PyNone 1 demo_os
              = (Ok demo_record, snd demo_generated)) by (vm_compute; reflexivity).
  split; [exact H | exact (verify_hmac_only_reports_name_error _ _ _ _ _ H)].
Defined.

(** The scenario of the specification:
    [verify_pbkdf2_hash(password, "not-base64!!", "also-bad")]. *)
Lemma verify_salt_incorrect_padding_witness :
  encode_password demo_password = Ok (PyBytes (lit "mySecurePassword123")) /\
  is_ascii_str (lit "also-bad") = true /\ no_pad (lit "also-bad") = true /\
  (data_count (lit "also-bad") mod 4 = 2 \/ data_count (lit "also-bad") mod 4 = 3)%nat /\
  verify_pbkdf2_hash demo_password (PyStr (lit "not-base64!!")) (PyStr (lit "also-bad")) 600000
  = (false, [lit "Error during verification: Incorrect padding"]) /\
  verify_fixed demo_password (PyStr (lit "not-base64!!")) (PyStr (lit "also-bad")) 600000
  = (false, [lit "Error during verification: Incorrect padding"]).
Proof.
  assert (He : encode_password demo_password = Ok (PyBytes (lit "mySecurePassword123")))
    by (vm_compute; reflexivity).
  assert (Ha : is_ascii_str (lit "also-bad") = true) by reflexivity.
  assert (Hs : no_pad (lit "also-bad") = true) by reflexivity.
  assert (Hn : (data_count (lit "also-bad") mod 4 = 2 \/ data_count (lit "also-bad") mod 4 = 3)%nat)
    by (right; reflexivity).
  split; [exact He | split; [exact Ha | split; [exact Hs | split; [exact Hn |]]]].
  exact (verify_salt_incorrect_padding _ (PyStr (lit "not-base64!!")) _ _ 600000 He Ha Hs Hn).
Defined.

