(* ===== verification/Session.v ===== *)
(** * Sequences of calls: the entropy the two functions consume

    A caller of the script makes a sequence of calls to
    [generate_pbkdf2_hash] and [verify_pbkdf2_hash], in any order. The
    only state the calls share is the operating system's entropy
    ([os_state]): [generate_pbkdf2_hash] draws 32 bytes from it on line
    30 when no salt is given, and [verify_pbkdf2_hash] never touches it.
    A call, with its result, is a label ([call]); [step] relates the
    state before and after one call, and [run] is a sequence of steps, in
    the style of the [star] relation of labelled transition systems.

    Theorems, by rule induction on [run]: the entropy stream is never
    changed and the counter of bytes drawn grows by exactly 32 for each
    call that draws a salt; and any two calls that draw a salt, in that
    order, get the salts of two disjoint windows of the stream, the
    first before the second: no entropy byte serves twice. *)

From Stdlib Require Import String ZArith List Lia Bool.
From S2P Require Import Prelude PyRuntime Utf8 Pbkdf2 Base64 PasswordHash.
Import ListNotations.
Open Scope Z_scope.

(** ** Calls, steps and runs *)

Inductive call :=
| CGenerate (password salt : pyval) (iterations : Z) (out : result hash_record)
| CVerify (password stored_hash stored_salt : pyval) (iterations : Z) (out : bool).

Inductive step : os_state -> call -> os_state -> Prop :=
| step_generate (password salt : pyval) (it : Z) (os : os_state) :
    step os (CGenerate password salt it (fst (generate_pbkdf2_hash password salt it os)))
         (snd (generate_pbkdf2_hash password salt it os))
| step_verify (password h s : pyval) (it : Z) (os : os_state) :
    step os (CVerify password h s it (fst (verify_pbkdf2_hash password h s it))) os.

Inductive run : os_state -> list call -> os_state -> Prop :=
| run_nil (os : os_state) : run os [] os
| run_cons (os os1 os2 : os_state) (c : call) (cs : list call) :
    step os c os1 -> run os1 cs os2 -> run os (c :: cs) os2.

(** The bytes one call draws: 32 for a [generate] without salt whose
    password passes line 25, nothing otherwise. *)
Definition draws (c : call) : nat :=
  match c with
  | CGenerate password PyNone _ _ =>
      match encode_password password with Ok _ => 32 | Raise _ => 0 end
  | _ => 0
  end.

Definition drawn_by (cs : list call) : nat := list_sum (map draws cs).

(** ** Building blocks *)

Lemma step_of_generate (password salt : pyval) (it : Z) (os os' : os_state)
    (r : result hash_record) :
  generate_pbkdf2_hash password salt it os = (r, os') ->
  step os (CGenerate password salt it r) os'.
Proof.
  intros H. pose proof (step_generate password salt it os) as S. rewrite H in S. exact S.
Qed.

(** One step moves the counter by [draws c] and keeps the stream. *)
Lemma step_state (os os1 : os_state) (c : call) :
  step os c os1 -> os1 = mkOs (entropy os) (drawn os + draws c).
Proof.
  destruct os as [e d]. intros Hs. inversion Hs as [password salt it ? | ]; subst.
  - unfold draws, generate_pbkdf2_hash.
    destruct (encode_password password) as [pw | err]; cbn [snd];
      destruct salt; cbn [default_salt snd]; try (f_equal; cbn; lia).
    pose proof (os_urandom_spec 32 (mkOs e d)) as (_ & _ & Hos).
    destruct (os_urandom 32 _) as [b os2]. cbn in Hos |- *. exact Hos.
  - cbn. f_equal. lia.
Qed.

Lemma run_app (os os' : os_state) (cs1 cs2 : list call) :
  run os (cs1 ++ cs2) os' -> exists osm, run os cs1 osm /\ run osm cs2 os'.
Proof.
  revert os. induction cs1 as [| c cs1 IH]; intros os H; cbn in H.
  - exists os. split; [constructor | exact H].
  - inversion H as [| ? os1 ? ? ? Hs Hr]; subst.
    destruct (IH os1 Hr) as (osm & H1 & H2). exists osm. split; [econstructor; eassumption | exact H2].
Qed.

(** The state after a run, by rule induction. *)
Lemma run_state (os os' : os_state) (cs : list call) :
  run os cs os' -> os' = mkOs (entropy os) (drawn os + drawn_by cs).
Proof.
  induction 1 as [[e d] | os os1 os2 c cs Hs Hr IH]; [cbn; rewrite Nat.add_0_r; reflexivity |].
  apply step_state in Hs. subst os1. rewrite IH. cbn. unfold drawn_by, list_sum. cbn.
  f_equal. lia.
Qed.

(** A [generate] without salt that succeeded drew its salt at the
    current counter and moved it by 32. *)
Lemma step_generate_salt (os os1 : os_state) (password : pyval) (it : Z) (r : hash_record) :
  step os (CGenerate password PyNone it (Ok r)) os1 ->
  b64decode (PyStr (rec_salt r)) = Ok (fst (os_urandom 32 os)) /\
  drawn os1 = (drawn os + 32)%nat.
Proof.
  intros Hs. pose proof (step_state _ _ _ Hs) as Hos.
  inversion Hs; subst.
  destruct (generate_pbkdf2_hash password PyNone it os) as [res os2] eqn:Hg.
  match goal with H : fst (res, os2) = Ok r |- _ => cbn [fst] in H; subst res end.
  apply generate_record_decodes in Hg as Hd. destruct Hd as (pw & He & _ & Hsalt & _).
  split; [exact Hsalt |].
  match goal with H : snd _ = _ |- _ => cbn [snd] in H; rewrite H end.
  cbn [drawn draws]. rewrite He. reflexivity.
Qed.

(** ** Theorems *)

(** C24: Accounting invariant of every run: the entropy stream is left as
    it was, and the counter has moved by exactly 32 bytes for each call
    that drew a salt. *)
Theorem run_entropy_accounting (os os' : os_state) (cs : list call) :
  run os cs os' ->
  entropy os' = entropy os /\ drawn os' = (drawn os + 32 * length (filter (fun c => Nat.eqb (draws c) 32) cs))%nat.
Proof.
  intros H. apply run_state in H. subst os'. split; [reflexivity |]. cbn. f_equal.
  unfold drawn_by, list_sum. induction cs as [| c cs IH]; [reflexivity |]. cbn [map fold_right filter].
  assert (Hd : draws c = 0%nat \/ draws c = 32%nat)
    by (destruct c as [? [] | ]; cbn; try (left; reflexivity);
        destruct (encode_password _); auto).
  destruct Hd as [-> | ->]; cbn [Nat.eqb length]; rewrite IH; lia.
Qed.

(** C25: No entropy byte serves twice: in any run, two successful calls of
    [generate_pbkdf2_hash] without salt, the first before the second, get
    as salts the [os.urandom(32)] windows at offsets [d1] and [d2] of the
    same stream, with [d1 + 32 <= d2]. *)
Theorem run_salts_disjoint (os os' : os_state) (pre mid post : list call)
    (pw1 pw2 : pyval) (it1 it2 : Z) (r1 r2 : hash_record) :
  run os (pre ++ CGenerate pw1 PyNone it1 (Ok r1) :: mid ++ CGenerate pw2 PyNone it2 (Ok r2) :: post) os' ->
  exists d1 d2,
    b64decode (PyStr (rec_salt r1)) = Ok (fst (os_urandom 32 (mkOs (entropy os) d1))) /\
    b64decode (PyStr (rec_salt r2)) = Ok (fst (os_urandom 32 (mkOs (entropy os) d2))) /\
    (d1 + 32 <= d2)%nat.
Proof.
  intros H. apply run_app in H as (osa & Ha & H).
  inversion H as [| ? osb ? ? ? Hs1 Hb]; subst.
  apply run_app in Hb as (osc & Hm & Hc).
  inversion Hc as [| ? osd ? ? ? Hs2 _]; subst.
  apply run_state in Ha, Hm. subst osa osc.
  destruct (step_generate_salt _ _ _ _ _ Hs1) as [S1 D1].
  destruct (step_generate_salt _ _ _ _ _ Hs2) as [S2 _].
  exists (drawn os + drawn_by pre)%nat, (drawn osb + drawn_by mid)%nat.
  split; [exact S1 | split; [| cbn in D1; lia]].
  assert (E : entropy osb = entropy os) by (apply step_state in Hs1; rewrite Hs1; reflexivity).
  rewrite S2, E. reflexivity.
Qed.

(** ** Witnesses: a run of two hashes with a verification between *)

Definition demo_os1 : os_state := snd demo_generated.
Definition demo_generated2 : result hash_record * os_state :=
  generate_pbkdf2_hash demo_password PyNone 1 demo_os1.
Definition demo_record2 : hash_record :=
  match fst demo_generated2 with Ok r => r | Raise _ => mkRecord [] [] 0 [] end.
Definition demo_verify : call :=
  CVerify demo_password (PyStr (rec_hash demo_record)) (PyStr (rec_salt demo_record)) 1
          (fst (verify_pbkdf2_hash demo_password (PyStr (rec_hash demo_record))
                                   (PyStr (rec_salt demo_record)) 1)).
Definition demo_calls : list call :=
  [CGenerate demo_password PyNone 1 (Ok demo_record); demo_verify;
   CGenerate demo_password PyNone 1 (Ok demo_record2)].

Lemma demo_run : run demo_os demo_calls (snd demo_generated2).
Proof.
  apply run_cons with demo_os1.
  { apply step_of_generate. vm_compute. reflexivity. }
  apply run_cons with demo_os1; [constructor |].
  apply run_cons with (snd demo_generated2); [| constructor].
  apply step_of_generate. vm_compute. reflexivity.
Qed.

Lemma run_entropy_accounting_witness :
  run demo_os demo_calls (snd demo_generated2) /\
  entropy (snd demo_generated2) = entropy demo_os /\
  drawn (snd demo_generated2)
  = (drawn demo_os + 32 * length (filter (fun c => Nat.eqb (draws c) 32) demo_calls))%nat.
Proof. split; [exact demo_run | exact (run_entropy_accounting _ _ _ demo_run)]. Defined.

Lemma run_salts_disjoint_witness :
  run demo_os ([] ++ CGenerate demo_password PyNone 1 (Ok demo_record)
               :: [demo_verify] ++ CGenerate demo_password PyNone 1 (Ok demo_record2) :: [])
      (snd demo_generated2) /\
  exists d1 d2,
    b64decode (PyStr (rec_salt demo_record)) = Ok (fst (os_urandom 32 (mkOs (entropy demo_os) d1))) /\
    b64decode (PyStr (rec_salt demo_record2)) = Ok (fst (os_urandom 32 (mkOs (entropy demo_os) d2))) /\
    (d1 + 32 <= d2)%nat.
Proof. split; [exact demo_run | exact (run_salts_disjoint demo_os _ [] [demo_verify] [] demo_password demo_password 1 1
                                          demo_record demo_record2 demo_run)]. Defined.
