(* ===== verification/Contract.v ===== *)
(** * The contract of the specification, and what the script meets of it

    The specification describes one component, the hash engine, with two
    operations. This file writes its [verify] as a reference function on
    byte passwords, [verify_spec], from the specification's words:
    decode the stored salt and hash as "valid base64 text (standard
    alphabet, padded)"; re-derive the key with PBKDF2-HMAC-SHA256 over
    the decoded salt and the count; answer [true] exactly when both
    decodings succeeded and the derived key equals the stored key byte
    for byte; answer [false] in every other case, malformed base64
    included.

    The reference decoder [spec_b64decode] is written here, independently
    of the script's [base64.b64decode]: groups of four characters of the
    alphabet, the last one possibly ending in [=] or [==] with its unused
    bits zero (the canonical text of RFC 4648, section 3.5); anything
    else is malformed. It is sound: what it accepts is the encoding of
    the bytes it returns.

    Theorems: on stored text the specification calls valid, and on every
    count up to OpenSSL's [INT_MAX], the script's function with
    [hmac.compare_digest] at line 88 ([verify_fixed]) returns what the
    reference returns. On malformed text the two differ: the script's
    lenient decoder skips characters outside the alphabet, so a stored
    hash with a [!] appended still verifies ([verify_spec_junk]). Line 88
    as written does not meet the contract at all ([verify_always_false]
    in [PasswordHash]). *)

From Stdlib Require Import String ZArith List Lia Bool.
From S2P Require Import Prelude PyRuntime Utf8 Pbkdf2 Base64 PasswordHash.
Import ListNotations.
Open Scope Z_scope.

(** ** The specification's decoding *)

Definition alpha (c : Z) : bool := (0 <=? b64_value c) && (b64_value c <? 64).

(** Valid base64 text, decoded group by group. *)
Fixpoint spec_b64decode (s : list Z) : option (list Z) :=
  match s with
  | [] => Some []
  | a :: b :: c :: d :: rest =>
      let va := b64_value a in
      let vb := b64_value b in
      let vc := b64_value c in
      let vd := b64_value d in
      if negb (alpha a && alpha b) then None
      else if (c =? 61) && (d =? 61) then
        match rest with
        | [] => if vb mod 16 =? 0 then Some [va * 4 + vb / 16] else None
        | _ => None
        end
      else if d =? 61 then
        match rest with
        | [] =>
            if alpha c && (vc mod 4 =? 0)
            then Some [va * 4 + vb / 16; vb mod 16 * 16 + vc / 4] else None
        | _ => None
        end
      else if alpha c && alpha d then
        option_map (fun r => [va * 4 + vb / 16; vb mod 16 * 16 + vc / 4; vc mod 4 * 64 + vd] ++ r)
                   (spec_b64decode rest)
      else None
  | _ => None
  end.

(** [verify(password, storedHashB64, storedSaltB64, iterations)] of the
    specification, section 4. *)
Definition verify_spec (pw stored_hash stored_salt : list Z) (it : Z) : bool :=
  match spec_b64decode stored_salt, spec_b64decode stored_hash with
  | Some salt, Some stored =>
      (0 <? it) &&
      (if list_eq_dec Z.eq_dec (pbkdf2_hmac_sha256 pw salt (Z.to_nat it) 32) stored
       then true else false)
  | _, _ => false
  end.

(** ** The reference decoder is sound *)

Lemma alpha_range (c : Z) : alpha c = true -> 0 <= b64_value c < 64.
Proof. unfold alpha. intros H. zfacts. lia. Qed.

Lemma b64_char_value (c : Z) : alpha c = true -> b64_char (b64_value c) = c.
Proof.
  unfold alpha, b64_value. intros H.
  repeat match goal with
  | |- context [if ?b then _ else _] => destruct b eqn:?
  end; zfacts; try lia; unfold b64_char; zcmp; lia.
Qed.

(** Turn the characters of the goal's right side into [b64_char]s of
    their values, with the values' bounds. *)
Ltac chars_of_values :=
  repeat match goal with
  | H : alpha ?c = true |- _ =>
      let E := fresh "E" in let R := fresh "R" in let v := fresh "v" in
      pose proof (b64_char_value c H) as E; pose proof (alpha_range c H) as R;
      clear H; set (v := b64_value c) in *; clearbody v; subst c
  end.

Ltac group_bytes :=
  unfold bytes_ok in *; cbn [app forallb]; unfold is_byte; zcmp; try reflexivity.

Lemma spec_b64decode_sound (s bs : list Z) :
  spec_b64decode s = Some bs -> bytes_ok bs = true /\ b64_ref bs = s.
Proof.
  revert bs. induction s as [s IH] using list_len_ind. intros bs H.
  destruct s as [| a [| b [| c [| d rest]]]]; cbn [spec_b64decode] in H;
    try discriminate; [injection H as <-; split; reflexivity |].
  destruct (alpha a) eqn:Ha, (alpha b) eqn:Hb; cbn [andb negb] in H; try discriminate.
  destruct ((c =? 61) && (d =? 61)) eqn:Ecd.
  - apply andb_prop in Ecd as [Ec Ed]. apply Z.eqb_eq in Ec, Ed. subst c d.
    destruct rest; [| discriminate].
    destruct (Z.eqb_spec (b64_value b mod 16) 0) as [Hm | Hm]; [| discriminate].
    injection H as <-. chars_of_values. split; [group_bytes |].
    cbn [b64_ref]. repeat f_equal; zlia.
  - destruct (Z.eqb_spec d 61) as [-> | Hd].
    + destruct rest; [| discriminate].
      destruct (alpha c) eqn:Hc; [| discriminate].
      destruct (Z.eqb_spec (b64_value c mod 4) 0) as [Hm | Hm]; [| discriminate].
      injection H as <-. chars_of_values. split; [group_bytes |].
      cbn [b64_ref]. repeat f_equal; zlia.
    + destruct (alpha c) eqn:Hc, (alpha d) eqn:Hd'; cbn [andb] in H; try discriminate.
      destruct (spec_b64decode rest) as [r |] eqn:Er; [| discriminate].
      cbn [option_map] in H. injection H as <-.
      destruct (IH rest ltac:(cbn; lia) r Er) as [Hr Hrr].
      chars_of_values. rewrite <- Hrr. split.
      * group_bytes. exact Hr.
      * cbn [app b64_ref]. unfold enc_group. cbn [app]. repeat f_equal; zlia.
Qed.

(** Valid text decodes the same way under the script's decoder. *)
Lemma spec_b64decode_b64decode (s bs : list Z) :
  spec_b64decode s = Some bs -> b64decode (PyStr s) = Ok bs.
Proof.
  intros H. apply spec_b64decode_sound in H as [Hb <-].
  rewrite <- b64encode_ref by exact Hb. apply b64decode_b64encode, Hb.
Qed.

(** ** Theorems *)

(** C7: Equivalence with the contract: on a byte password, stored text the
    specification calls valid base64 and a count up to OpenSSL's
    [INT_MAX], the script's verification with [hmac.compare_digest]
    returns exactly what the specification's [verify] returns. *)
Theorem verify_fixed_equiv_spec (pw h s : list Z) (it : Z) :
  spec_b64decode h <> None -> spec_b64decode s <> None -> it <= INT_MAX ->
  fst (verify_fixed (PyBytes pw) (PyStr h) (PyStr s) it) = verify_spec pw h s it.
Proof.
  intros Hh Hs Hit. unfold verify_spec.
  destruct (spec_b64decode s) as [salt |] eqn:Es; [| contradiction].
  destruct (spec_b64decode h) as [stored |] eqn:Eh; [| contradiction].
  apply spec_b64decode_b64decode in Es, Eh.
  destruct (Z.ltb_spec 0 it) as [Hpos | Hpos].
  2: { unfold verify_fixed, verify_with. cbn [encode_password bind]. rewrite Es, Eh. cbn [bind].
       destruct (derive_key (PyBytes pw) (PyBytes salt) it) as [key | e] eqn:Hd; [| reflexivity].
       apply derive_key_inv in Hd as (_ & _ & _ & _ & Hp & _). lia. }
  rewrite (verify_fixed_spec _ _ _ _ pw salt stored) by (reflexivity || assumption || lia).
  cbn [fst andb]. destruct (list_eq_dec Z.eq_dec _ stored) as [E | E].
  - apply tscmp_correct, E.
  - destruct (tscmp _ stored) eqn:T; [apply tscmp_correct in T; contradiction | reflexivity].
Qed.

(** ** Where the script leaves the contract: malformed stored text *)

Definition demo_pw : list Z := lit "mySecurePassword123".
Definition demo_salt_text : list Z := b64encode (zeros 32).
Definition demo_hash_text : list Z := b64encode (pbkdf2_hmac_sha256 demo_pw (zeros 32) 1 32).

(** A stored hash with [!] appended is malformed for the specification,
    which rejects it; the script's decoder skips the [!] and accepts. *)
Example verify_spec_junk :
  verify_spec demo_pw (demo_hash_text ++ lit "!") demo_salt_text 1 = false /\
  fst (verify_fixed (PyBytes demo_pw) (PyStr (demo_hash_text ++ lit "!")) (PyStr demo_salt_text) 1)
  = true.
Proof. split; vm_compute; reflexivity. Qed.

Lemma verify_fixed_equiv_spec_witness :
  spec_b64decode demo_hash_text <> None /\ spec_b64decode demo_salt_text <> None /\ 1 <= INT_MAX /\
  fst (verify_fixed (PyBytes demo_pw) (PyStr demo_hash_text) (PyStr demo_salt_text) 1)
  = verify_spec demo_pw demo_hash_text demo_salt_text 1.
Proof.
  assert (Hh : spec_b64decode demo_hash_text <> None) by (vm_compute; discriminate).
  assert (Hs : spec_b64decode demo_salt_text <> None) by (vm_compute; discriminate).
  assert (Hi : 1 <= INT_MAX) by (unfold INT_MAX; lia).
  split; [exact Hh | split; [exact Hs | split; [exact Hi |]]].
  exact (verify_fixed_equiv_spec _ _ _ 1 Hh Hs Hi).
Defined.
