(* ===== verification/Main.v ===== *)
(** * [main()], the interactive demonstration

    Lines 94-130 of [src/laravel-workos-starterKit/generate_password_hash.py]:
    read a password from standard input, fall back to the example password
    when the line is empty, hash it with the default 600,000 iterations,
    print the record, verify it with the right and with a wrong password,
    and print the two answers.

    Standard output is a stream of code points; [print(s)] appends [s] and
    a newline, and [input(prompt)] writes the prompt without one. Standard
    input is the line [input] returns, with its newline removed, or [None]
    at end of file, where [input] raises [EOFError]. Nothing in [main]
    catches an exception, so one raised by [generate_pbkdf2_hash] ends the
    program after the lines printed so far; this is [Exit_exc].

    Theorems: on every line without lone surrogates, [main] ends normally,
    draws 32 bytes of entropy, and prints a transcript fixed by the line
    and the entropy, in which both verifications report the
    [AttributeError] and the first answer is [Invalid]; a line with a lone
    surrogate ends the program with [UnicodeEncodeError] before any
    entropy is drawn; the count is printed with CPython's thousands
    separator, which only inserts commas into [str(n)]. *)

From Stdlib Require Import String ZArith List Lia Bool.
From S2P Require Import Prelude PyRuntime Utf8 Pbkdf2 Base64 PasswordHash.
Import ListNotations.
Open Scope Z_scope.

(** ** Standard output *)

Definition stdout := list Z.

(** [print(s)] *)
Definition print (s : list Z) : stdout := s ++ [10].

(** [print(f"\n...")]: the f-strings of lines 106, 111, 118 and 127
    start with a newline. *)
Definition nl (s : string) : list Z := 10 :: lit s.

(** ['=' * 50] *)
Definition str_repeat (s : list Z) (n : nat) : list Z := concat (repeat s n).

(** ** [format(n, ',')] *)

(** Digits least significant first; a comma after every third digit that
    has more digits after it. *)
Fixpoint group3_rev (ds : list Z) : list Z :=
  match ds with
  | a :: b :: c :: ((_ :: _) as rest) => a :: b :: c :: 44 :: group3_rev rest
  | _ => ds
  end.

(** [f"{n:,}"] on an [int]: the sign, then the digits of [abs(n)] grouped
    by three from the right. *)
Definition format_thousands (z : Z) : list Z :=
  let ds := rev (group3_rev (rev (str_of_int (Z.abs z)))) in
  if z <? 0 then 45 :: ds else ds.

(** ** [main()] *)

Inductive main_exit :=
| Exit_ok                 (** [main()] returned *)
| Exit_eof                (** [input] raised [EOFError] *)
| Exit_exc (e : exc).     (** [generate_pbkdf2_hash] raised [e] *)

Definition DEFAULT_ITERATIONS : Z := 600000.

Definition check_mark : Z := 0x2713.   (** U+2713, ✓ *)
Definition ballot_x : Z := 0x2717.     (** U+2717, ✗ *)

(** Lines 96-100. *)
Definition main_banner : stdout :=
  print (lit "PBKDF2-SHA256 Password Hash Generator")
  ++ print (str_repeat (lit "=") 50)
  ++ lit "Enter password to hash: ".

(** Lines 102-104: [if not password: ...]. *)
Definition main_password (line : list Z) : list Z * stdout :=
  match line with
  | [] => (lit "mySecurePassword123",
           print (lit "No password provided. Using example password 'mySecurePassword123'"))
  | _ => (line, [])
  end.

(** Lines 111-115. *)
Definition print_record (r : hash_record) : stdout :=
  print (nl "Generated Hash:")
  ++ print (lit "Algorithm: " ++ rec_algorithm r)
  ++ print (lit "Iterations: " ++ format_thousands (rec_iterations r))
  ++ print (lit "Salt (base64): " ++ rec_salt r)
  ++ print (lit "Hash (base64): " ++ rec_hash r).

(** A call of [verify_pbkdf2_hash] with the default count, and what it
    prints. *)
Definition run_verify (password : list Z) (r : hash_record) : bool * stdout :=
  let '(ok, lines) :=
    verify_pbkdf2_hash (PyStr password) (PyStr (rec_hash r)) (PyStr (rec_salt r))
                       DEFAULT_ITERATIONS in
  (ok, concat (map print lines)).

(** Line 120. *)
Definition verdict_line (is_valid : bool) : list Z :=
  lit "Verification result: "
  ++ (if is_valid then check_mark :: lit " Valid" else ballot_x :: lit " Invalid").

(** Line 125. *)
Definition wrong_line (is_wrong_valid : bool) : list Z :=
  lit "Wrong password test: "
  ++ (if negb is_wrong_valid then ballot_x :: lit " Should be invalid"
      else check_mark :: lit " Should be valid").

(** Lines 106-127, once the password is known. *)
Definition main_after_input (password : list Z) (os : os_state)
  : stdout * main_exit * os_state :=
  let out := print (nl "Generating hash with 600,000 iterations...") in
  match generate_pbkdf2_hash (PyStr password) PyNone DEFAULT_ITERATIONS os with
  | (Raise e, os') => (out, Exit_exc e, os')
  | (Ok r, os') =>
      let '(is_valid, out_v) := run_verify password r in
      let '(is_wrong_valid, out_w) := run_verify (lit "wrongPassword") r in
      (out ++ print_record r
           ++ print (nl "Verifying hash...") ++ out_v ++ print (verdict_line is_valid)
           ++ out_w ++ print (wrong_line is_wrong_valid)
           ++ print (nl "Hash generation complete!"),
       Exit_ok, os')
  end.

(** [main()] on the given standard input. *)
Definition main (stdin : option (list Z)) (os : os_state) : stdout * main_exit * os_state :=
  match stdin with
  | None => (main_banner, Exit_eof, os)
  | Some line =>
      let '(password, out_p) := main_password line in
      let '(out, ex, os') := main_after_input password os in
      (main_banner ++ out_p ++ out, ex, os')
  end.

(** ** Building blocks *)

Definition hashlib_error_line : stdout :=
  print (lit "Error during verification: module 'hashlib' has no attribute 'compare_digest'").

(** Any password whose encoding succeeds, checked against a fresh record
    with a positive count, reaches line 88 and prints the
    [AttributeError]. *)
Lemma run_verify_fresh_record (password pw : list Z) (r : hash_record) (password0 : pyval)
    (it : Z) (os os' : os_state) :
  generate_pbkdf2_hash password0 PyNone it os = (Ok r, os') ->
  utf8_encode password = Ok pw ->
  run_verify password r = (false, hashlib_error_line).
Proof.
  intros Hg He. apply generate_record_decodes in Hg as (pw0 & _ & _ & Hs & Hk & _).
  unfold run_verify, verify_pbkdf2_hash, verify_body.
  erewrite verify_with_spec;
    [reflexivity | exact (encode_password_str _ _ He) | exact Hs | exact Hk
    | unfold DEFAULT_ITERATIONS, INT_MAX; lia].
Qed.

(** The digits of [str(n)] for [n >= 0] are ASCII digits. *)
Lemma dec_digits_rev_digits (fuel : nat) (z : Z) :
  0 <= z -> Forall (fun c => 48 <= c <= 57) (dec_digits_rev fuel z).
Proof.
  revert z. induction fuel as [| f IH]; intros z Hz; cbn [dec_digits_rev]; [constructor |].
  constructor; [assert (0 <= z mod 10 < 10) by (apply Z.mod_pos_bound; lia); lia |].
  destruct (z <? 10); [constructor | apply IH; apply Z.div_pos; lia].
Qed.

Definition not_comma (c : Z) : bool := negb (c =? 44).

Lemma filter_group3_rev (ds : list Z) :
  filter not_comma (group3_rev ds) = filter not_comma ds.
Proof.
  induction ds as [ds IH] using list_len_ind.
  destruct ds as [| a [| b [| c [| d rest]]]]; try reflexivity.
  change (group3_rev (a :: b :: c :: d :: rest)) with ([a; b; c; 44] ++ group3_rev (d :: rest)).
  rewrite filter_app, IH by (simpl; lia). cbn [filter app].
  change (not_comma 44) with false. destruct (not_comma a), (not_comma b), (not_comma c); reflexivity.
Qed.

Lemma filter_not_comma_digits (ds : list Z) :
  Forall (fun c => 48 <= c <= 57) ds -> filter not_comma ds = ds.
Proof.
  induction 1 as [| c ds Hc _ IH]; [reflexivity |]. cbn [filter].
  unfold not_comma at 1. destruct (Z.eqb_spec c 44); [lia |]. cbn [negb]. rewrite IH. reflexivity.
Qed.

(** The grouping of the reversed digits: groups of three, each followed
    by a comma, then a last group of one to three digits. *)
Lemma group3_rev_shape (ds : list Z) :
  ds <> [] ->
  exists gs last, group3_rev ds = concat (map (fun g => g ++ [44]) gs) ++ last /\
    Forall (fun g => length g = 3%nat) gs /\ (1 <= length last <= 3)%nat /\
    concat gs ++ last = ds.
Proof.
  induction ds as [ds IH] using list_len_ind. intros Hne.
  destruct ds as [| a [| b [| c [| d rest]]]]; [contradiction | | |
    | destruct (IH (d :: rest) ltac:(simpl; lia) ltac:(discriminate)) as (gs & last & E & Hg & Hl & Hc)].
  - exists [], [a]. cbn. repeat split; auto.
  - exists [], [a; b]. cbn. repeat split; auto.
  - exists [], [a; b; c]. cbn. repeat split; auto.
  - exists ([a; b; c] :: gs), last.
    change (group3_rev (a :: b :: c :: d :: rest)) with ([a; b; c; 44] ++ group3_rev (d :: rest)).
    rewrite E. split; [reflexivity |]. split; [constructor; [reflexivity | exact Hg] |].
    split; [exact Hl |].
    cbn [concat]. rewrite <- app_assoc, Hc. reflexivity.
Qed.

Lemma rev_concat_commas (gs : list (list Z)) :
  rev (concat (map (fun g => g ++ [44]) gs)) = concat (map (fun g => 44 :: g) (map (@rev Z) (rev gs))).
Proof.
  induction gs as [| g gs IH]; [reflexivity |].
  cbn [map concat rev]. rewrite rev_app_distr, IH, !map_app, concat_app. cbn.
  rewrite rev_app_distr, app_nil_r. reflexivity.
Qed.

Lemma rev_concat (gs : list (list Z)) : rev (concat gs) = concat (map (@rev Z) (rev gs)).
Proof.
  induction gs as [| g gs IH]; [reflexivity |].
  cbn [concat rev]. rewrite rev_app_distr, IH, map_app, concat_app. cbn. rewrite app_nil_r.
  reflexivity.
Qed.

Lemma str_digits_nonempty (a : Z) : rev (dec_digits_rev (S (Z.to_nat (Z.log2 a))) a) <> [].
Proof. cbn [dec_digits_rev rev]. intros H. apply app_eq_nil in H as [_ H]. discriminate. Qed.

(** ** Theorems *)

(** C38: [f"{n:,}"] writes the sign, then the digits of [abs(n)] cut into a
    first group of one to three digits and groups of exactly three, each
    after a comma: the commas fall every three digits from the right. *)
Theorem format_thousands_groups (z : Z) :
  exists g gs,
    format_thousands z = (if z <? 0 then [45] else []) ++ g ++ concat (map (fun x => 44 :: x) gs) /\
    (1 <= length g <= 3)%nat /\ Forall (fun x => length x = 3%nat) gs /\
    g ++ concat gs = str_of_int (Z.abs z).
Proof.
  unfold format_thousands, str_of_int. rewrite Z.abs_idemp.
  replace (Z.abs z <? 0) with false by (symmetry; apply Z.ltb_ge; lia).
  set (ds := rev (dec_digits_rev _ (Z.abs z))).
  assert (Hne : rev ds <> []) by (intros H; apply (str_digits_nonempty (Z.abs z));
                                  apply (f_equal (@rev Z)) in H; rewrite rev_involutive in H; exact H).
  destruct (group3_rev_shape (rev ds) Hne) as (gs & last & E & Hg & Hl & Hc).
  exists (rev last), (map (@rev Z) (rev gs)). rewrite E, rev_app_distr, rev_concat_commas.
  split; [destruct (z <? 0); reflexivity |].
  split; [rewrite length_rev; exact Hl |].
  split.
  - apply Forall_forall. intros x Hx. apply in_map_iff in Hx as (g & <- & Hx).
    rewrite length_rev. apply in_rev in Hx. exact (proj1 (Forall_forall _ _) Hg g Hx).
  - rewrite <- rev_concat, <- rev_app_distr, Hc, rev_involutive. reflexivity.
Qed.


(** C3: On any line whose password (the example one when the line is
    empty) has no lone surrogate, [main] returns normally after drawing 32
    bytes of entropy, and prints a transcript fixed by the line and the
    record [generate_pbkdf2_hash] made: both verifications print the
    [AttributeError] of line 88, the right password is reported
    [Invalid], and the wrong one [Should be invalid]. *)
Theorem main_reports_invalid (line : list Z) (os : os_state) :
  no_surrogates (fst (main_password line)) = true ->
  let os' := mkOs (entropy os) (drawn os + 32) in
  exists r,
    generate_pbkdf2_hash (PyStr (fst (main_password line))) PyNone DEFAULT_ITERATIONS os
    = (Ok r, os') /\
    main (Some line) os
    = (main_banner ++ snd (main_password line)
         ++ print (nl "Generating hash with 600,000 iterations...")
         ++ print_record r ++ print (nl "Verifying hash...")
         ++ hashlib_error_line
         ++ print (lit "Verification result: " ++ ballot_x :: lit " Invalid")
         ++ hashlib_error_line
         ++ print (lit "Wrong password test: " ++ ballot_x :: lit " Should be invalid")
         ++ print (nl "Hash generation complete!"),
       Exit_ok, os').
Proof.
  intros Hns os'. destruct (utf8_encode_from_ok 0 _ Hns) as (pw & He & _).
  destruct (generate_none_ok _ pw DEFAULT_ITERATIONS os (encode_password_str _ _ He)) as (r & Hg);
    [unfold DEFAULT_ITERATIONS, INT_MAX; lia |].
  exists r. split; [exact Hg |].
  unfold main. destruct (main_password line) as [password out_p]. cbn [fst snd] in *.
  unfold main_after_input. rewrite Hg.
  rewrite (run_verify_fresh_record password pw r _ _ _ _ Hg He).
  rewrite (run_verify_fresh_record (lit "wrongPassword") (lit "wrongPassword") r _ _ _ _ Hg)
    by reflexivity.
  cbv [verdict_line wrong_line negb]. rewrite !app_assoc. reflexivity.
Qed.

(** C18: A line with a lone surrogate ends [main] with the uncaught
    [UnicodeEncodeError] of line 25, after the banner and the line
    announcing the hash; no entropy is drawn. *)
Theorem main_surrogate_line (pre rest : list Z) (c : Z) (os : os_state) :
  no_surrogates pre = true -> is_surrogate c = true ->
  main (Some (pre ++ c :: rest)) os
  = (main_banner ++ print (nl "Generating hash with 600,000 iterations..."),
     Exit_exc (UnicodeEncodeError c (length pre) (length pre + surrogate_run (c :: rest))), os).
Proof.
  intros Hpre Hc. unfold main.
  replace (main_password (pre ++ c :: rest)) with (pre ++ c :: rest, @nil Z)
    by (destruct pre; reflexivity).
  unfold main_after_input, generate_pbkdf2_hash, encode_password.
  rewrite utf8_encode_surrogate by assumption. reflexivity.
Qed.

(** ** Concrete runs *)

Example format_thousands_600000 : format_thousands DEFAULT_ITERATIONS = lit "600,000".
Proof. reflexivity. Qed.

Example format_thousands_negative : format_thousands (-1234567) = lit "-1,234,567".
Proof. reflexivity. Qed.

Example main_eof (os : os_state) :
  main None os = (lit "PBKDF2-SHA256 Password Hash Generator" ++ [10]
                  ++ lit "==================================================" ++ [10]
                  ++ lit "Enter password to hash: ", Exit_eof, os).
Proof. reflexivity. Qed.

Lemma main_reports_invalid_witness :
  no_surrogates (fst (main_password [])) = true /\
  exists r,
    generate_pbkdf2_hash (PyStr (lit "mySecurePassword123")) PyNone DEFAULT_ITERATIONS demo_os
    = (Ok r, mkOs (entropy demo_os) 32) /\
    main (Some []) demo_os
    = (main_banner
         ++ print (lit "No password provided. Using example password 'mySecurePassword123'")
         ++ print (nl "Generating hash with 600,000 iterations...")
         ++ print_record r ++ print (nl "Verifying hash...")
         ++ hashlib_error_line
         ++ print (lit "Verification result: " ++ ballot_x :: lit " Invalid")
         ++ hashlib_error_line
         ++ print (lit "Wrong password test: " ++ ballot_x :: lit " Should be invalid")
         ++ print (nl "Hash generation complete!"),
       Exit_ok, mkOs (entropy demo_os) 32).
Proof. split; [reflexivity | apply (main_reports_invalid [] demo_os); reflexivity]. Defined.

Lemma main_surrogate_line_witness :
  no_surrogates (lit "ab") = true /\ is_surrogate 0xD800 = true /\
  main (Some (lit "ab" ++ 0xD800 :: lit "c")) demo_os
  = (main_banner ++ print (nl "Generating hash with 600,000 iterations..."),
     Exit_exc (UnicodeEncodeError 0xD800 2 3), demo_os).
Proof.
  split; [reflexivity | split; [reflexivity |]].
  apply (main_surrogate_line (lit "ab") (lit "c") 0xD800 demo_os); reflexivity.
Defined.
