(* ===== verification/Process.v ===== *)
(** * The process: lines 129-130

    [if __name__ == "__main__": main()] runs [main] as the program. When
    [main] returns, the interpreter exits with status 0. When an
    exception escapes it, the interpreter prints a traceback on standard
    error and exits with status 1; the last line of the traceback is the
    exception's qualified class name, a colon and [str(e)]. The model
    keeps that last line ([p_error]); the frames above it name files and
    lines of the interpreter's installation and are not modelled.

    [exec_script] runs the whole file under an installation and a module
    name: the top level of [Namespace], then the [__name__] guard.

    Theorems: run under the name [__main__] the file is [run_script], and
    imported it does nothing but bind its names; without [cryptography]
    it stops at line 9 with [ModuleNotFoundError]. The script exits with status 0 exactly when a line is read
    and the password it uses (the example one for an empty line) has no
    lone surrogate; at end of input it fails with [EOFError], and on a
    lone surrogate with the [UnicodeEncodeError] of line 26. *)

From Stdlib Require Import String ZArith List Lia Bool.
From S2P Require Import Prelude PyRuntime Namespace Utf8 Pbkdf2 Base64 PasswordHash Main.
Import ListNotations.
Open Scope Z_scope.

(** The class name a traceback prints: [type(e).__qualname__], with the
    module for the classes outside [builtins]. *)
Definition exc_name (e : exc) : list Z :=
  match e with
  | AttributeError _ _ => lit "AttributeError"
  | TypeError _ => lit "TypeError"
  | ValueError _ => lit "ValueError"
  | BinasciiError _ => lit "binascii.Error"
  | UnicodeEncodeError _ _ _ => lit "UnicodeEncodeError"
  | UnicodeDecodeError _ _ _ => lit "UnicodeDecodeError"
  | OverflowError _ => lit "OverflowError"
  | AlreadyFinalized => lit "cryptography.exceptions.AlreadyFinalized"
  | InternalError _ => lit "cryptography.exceptions.InternalError"
  | NameError _ => lit "NameError"
  | ModuleNotFoundError _ => lit "ModuleNotFoundError"
  | ImportError _ _ => lit "ImportError"
  end.

Record process_result := mkProc {
  p_stdout : list Z;      (** what was written on standard output *)
  p_error : list Z;       (** the last line of the traceback, if any *)
  p_status : Z;           (** the exit status *)
  p_os : os_state         (** the entropy state afterwards *)
}.

(** [python3 generate_password_hash.py] with the given standard input. *)
Definition run_script (stdin : option (list Z)) (os : os_state) : process_result :=
  let '(out, ex, os') := main stdin os in
  match ex with
  | Exit_ok => mkProc out [] 0 os'
  | Exit_eof => mkProc out (lit "EOFError: EOF when reading a line") 1 os'
  | Exit_exc e => mkProc out (exc_name e ++ lit ": " ++ exc_str e) 1 os'
  end.

(** The last line of the traceback of an exception that escapes. *)
Definition traceback_line (e : exc) : list Z := exc_name e ++ lit ": " ++ exc_str e.

(** The whole file under the interpreter [inst], with [__name__] set to
    [modname]: the top level (lines 6-10, the [def]s of lines 12, 54 and
    94) and then lines 129-130, which call the global [main] when
    [__name__ == "__main__"]. Run as [python3 generate_password_hash.py],
    [modname] is ["__main__"]; imported by another module, it is the
    module's name, and status 0 then means that the import returned. *)
Definition exec_script (inst : installed) (modname : string) (stdin : option (list Z))
    (os : os_state) : process_result :=
  match exec_module inst script_module (initial_globals modname) with
  | Raise e => mkProc [] (traceback_line e) 1 os
  | Ok ns =>
      match load_global ns "__name__"%string with
      | Ok (GStr n) =>
          if String.eqb n "__main__"%string then
            match load_global ns "main"%string with
            | Ok _ => run_script stdin os
            | Raise e => mkProc [] (traceback_line e) 1 os
            end
          else mkProc [] [] 0 os
      | Ok _ => mkProc [] [] 0 os
      | Raise e => mkProc [] (traceback_line e) 1 os
      end
  end.

(** An interpreter without the [cryptography] package. *)
Definition cpython311_no_cryptography : installed :=
  fun q => if String.prefix "cryptography"%string q then None else cpython311 q.

(** ** Building blocks *)

(** Once the password is known, [main] returns normally exactly when the
    password has no lone surrogate. *)
Lemma main_after_input_exit (password : list Z) (os : os_state) :
  snd (fst (main_after_input password os)) = Exit_ok <-> no_surrogates password = true.
Proof.
  unfold main_after_input.
  destruct (generate_pbkdf2_hash (PyStr password) PyNone DEFAULT_ITERATIONS os)
    as [[r | e] os'] eqn:Hg.
  - destruct (run_verify password r) as [v1 o1], (run_verify (lit "wrongPassword") r) as [v2 o2].
    cbn.
    split; [intros _ | reflexivity].
    apply generate_inv in Hg as (pw & _ & He & _). unfold encode_password in He.
    apply bind_ok_inv in He as (bs & Hb & _). exact (utf8_encode_from_no_surrogates _ _ _ Hb).
  - cbn. split; [discriminate | intros Hns].
    destruct (utf8_encode_from_ok 0 _ Hns) as (pw & He & _).
    destruct (generate_none_ok _ pw DEFAULT_ITERATIONS os (encode_password_str _ _ He))
      as (r & Hr); [unfold DEFAULT_ITERATIONS, INT_MAX; lia |].
    rewrite Hg in Hr. discriminate.
Qed.

(** ** Theorems *)

(** C19: Exit status: the script exits with status 0 exactly when standard
    input has a line and the password [main] hashes for it has no lone
    surrogate; otherwise an exception escapes [main] and the status is
    1. *)
Theorem run_script_status (stdin : option (list Z)) (os : os_state) :
  p_status (run_script stdin os) = 0 <->
  exists line, stdin = Some line /\ no_surrogates (fst (main_password line)) = true.
Proof.
  unfold run_script, main. destruct stdin as [line |].
  2: { cbn. split; [discriminate | intros (l & H & _); discriminate]. }
  transitivity (no_surrogates (fst (main_password line)) = true).
  2: { split; [intros H; exists line; auto | intros (l & Hl & H); injection Hl as <-; exact H]. }
  destruct (main_password line) as [password out_p]. cbn [fst].
  pose proof (main_after_input_exit password os) as Hx.
  destruct (main_after_input password os) as [[out ex] os'].
  cbn [fst snd] in Hx. rewrite <- Hx.
  destruct ex; cbn; split; congruence.
Qed.

(** C20: Lines 129-130: run as a program, the file runs [main] (the process
    of [run_script]); imported as a module, it binds its names and runs
    nothing: no output, no input read, no entropy drawn. *)
Theorem exec_script_guard (modname : string) (stdin : option (list Z)) (os : os_state) :
  exec_script cpython311 modname stdin os
  = if String.eqb modname "__main__"%string then run_script stdin os else mkProc [] [] 0 os.
Proof.
  destruct (exec_script_module modname) as (ns & H & Hn & Hm).
  unfold exec_script. rewrite H, (load_global_script_name _ _ Hn).
  destruct (String.eqb modname "__main__"%string); [| reflexivity].
  rewrite (load_global_script_main _ _ Hm). reflexivity.
Qed.

(** C21: Without the [cryptography] package, line 9 fails before anything
    is printed: whatever the input, the process exits with status 1 and
    reports the missing top-level package, the first prefix of
    [cryptography.hazmat.primitives] that the import system looks for. *)
Theorem exec_script_no_cryptography (inst : installed) (modname : string)
    (stdin : option (list Z)) (os : os_state) :
  inst "hashlib"%string <> None -> inst "os"%string <> None -> inst "base64"%string <> None ->
  inst "cryptography"%string = None ->
  exec_script inst modname stdin os
  = mkProc [] (lit "ModuleNotFoundError: No module named 'cryptography'") 1 os.
Proof.
  intros H1 H2 H3 H4. unfold exec_script. cbn.
  destruct (inst "hashlib"%string); [| congruence]. destruct (inst "os"%string); [| congruence].
  destruct (inst "base64"%string); [| congruence]. cbn. rewrite H4. reflexivity.
Qed.

(** ** Concrete runs *)

Example run_script_eof (os : os_state) :
  run_script None os
  = mkProc main_banner (lit "EOFError: EOF when reading a line") 1 os.
Proof. reflexivity. Qed.

Example run_script_surrogate (os : os_state) :
  p_error (run_script (Some [0x61; 0xDC80]) os)
  = lit "UnicodeEncodeError: 'utf-8' codec can't encode character '\udc80' in position 1: surrogates not allowed".
Proof. vm_compute. reflexivity. Qed.

Lemma exec_script_no_cryptography_witness :
  cpython311_no_cryptography "hashlib"%string <> None /\ cpython311_no_cryptography "os"%string <> None /\
  cpython311_no_cryptography "base64"%string <> None /\ cpython311_no_cryptography "cryptography"%string = None /\
  exec_script cpython311_no_cryptography "__main__"%string None demo_os
  = mkProc [] (lit "ModuleNotFoundError: No module named 'cryptography'") 1 demo_os.
Proof.
  assert (H1 : cpython311_no_cryptography "hashlib"%string <> None) by (vm_compute; discriminate).
  assert (H2 : cpython311_no_cryptography "os"%string <> None) by (vm_compute; discriminate).
  assert (H3 : cpython311_no_cryptography "base64"%string <> None) by (vm_compute; discriminate).
  assert (H4 : cpython311_no_cryptography "cryptography"%string = None) by reflexivity.
  split; [exact H1 | split; [exact H2 | split; [exact H3 | split; [exact H4 |]]]].
  exact (exec_script_no_cryptography _ "__main__"%string None demo_os H1 H2 H3 H4).
Defined.
